(** * autowrx front end: generator catalog, generation dispatcher and
    prototype code synchronisation

  A shallow embedding of

  - [frontend/src/components/molecules/genAI/DaGenAI_Base.tsx]
    (the add-on catalog and [handleGenerate]), and
  - [frontend/src/components/organisms/PrototypeTabCode.tsx]
    ([getEditorType] and [saveCodeToDb]),

  together with the properties of these components that their
  specification states.

  Conventions.  A JavaScript string is a [string] holding its UTF-8
  encoding, a surrogate that stands alone being encoded like any other
  code unit.  What the engine supplies and the sources do not fix, the
  case mappings of the Unicode character database, the members of the
  standard prototypes and the values that survive [JSON.stringify], is
  a parameter of the development ([Js.Engine]).  A value that may be [undefined] is an [option].  React
  state is an explicit record; a callback, a network call, a timer or a
  log line is an event of a trace. *)

From Stdlib Require Import String Ascii List ZArith Bool Lia.
Import ListNotations.
Local Open Scope list_scope.
Local Open Scope string_scope.

(* ================================================================== *)
(** * The language built-ins the components call                       *)
(* ================================================================== *)

Module Js.

(** ** Strings *)

Definition charCode (c : ascii) : nat := nat_of_ascii c.

Definition between (lo hi : nat) (c : ascii) : bool :=
  (lo <=? charCode c)%nat && (charCode c <=? hi)%nat.

Definition isDigit (c : ascii) : bool := between 48 57 c.

(** Lower-casing within the ASCII range: the letters A to Z. *)
Definition lowerChar (c : ascii) : ascii :=
  if between 65 90 c then ascii_of_nat (charCode c + 32) else c.

Fixpoint lowerAscii (s : string) : string :=
  match s with
  | EmptyString => EmptyString
  | String c r => String (lowerChar c) (lowerAscii r)
  end.

(** Every character of the string lies in the ASCII range. *)
Fixpoint isAscii (s : string) : bool :=
  match s with
  | EmptyString => true
  | String c r => (charCode c <? 128)%nat && isAscii r
  end.

(** White space and line terminators of the language in the ASCII
    range: TAB, LF, VT, FF, CR and SPACE. *)
Definition isWhiteSpace (c : ascii) : bool :=
  between 9 13 c || (charCode c =? 32)%nat.

(** The white space of two characters in UTF-8: U+00A0. *)
Definition isWhiteSpace2 (c d : ascii) : bool :=
  (charCode c =? 194)%nat && (charCode d =? 160)%nat.

(** The white space and line terminators of three characters in UTF-8:
    U+1680; U+2000 to U+200A, U+2028, U+2029 and U+202F; U+205F; U+3000;
    U+FEFF. *)
Definition isWhiteSpace3 (c d e : ascii) : bool :=
  ((charCode c =? 225)%nat && (charCode d =? 154)%nat && (charCode e =? 128)%nat)
  || ((charCode c =? 226)%nat && (charCode d =? 128)%nat &&
      (between 128 138 e || between 168 169 e || (charCode e =? 175)%nat))
  || ((charCode c =? 226)%nat && (charCode d =? 129)%nat && (charCode e =? 159)%nat)
  || ((charCode c =? 227)%nat && (charCode d =? 128)%nat && (charCode e =? 128)%nat)
  || ((charCode c =? 239)%nat && (charCode d =? 187)%nat && (charCode e =? 191)%nat).

Fixpoint trimStart (s : string) : string :=
  match s with
  | EmptyString => EmptyString
  | String c r =>
      if isWhiteSpace c then trimStart r
      else match r with
           | String d r2 =>
               if isWhiteSpace2 c d then trimStart r2
               else match r2 with
                    | String e r3 =>
                        if isWhiteSpace3 c d e then trimStart r3 else s
                    | EmptyString => s
                    end
           | EmptyString => s
           end
  end.

(** Nothing but white space and line terminators. *)
Fixpoint blank (s : string) : bool :=
  match s with
  | EmptyString => true
  | String c r =>
      if isWhiteSpace c then blank r
      else match r with
           | String d r2 =>
               if isWhiteSpace2 c d then blank r2
               else match r2 with
                    | String e r3 => isWhiteSpace3 c d e && blank r3
                    | EmptyString => false
                    end
           | EmptyString => false
           end
  end.

(** The text up to the white space it ends with. *)
Fixpoint trimEnd (s : string) : string :=
  match s with
  | EmptyString => EmptyString
  | String c r => if blank s then EmptyString else String c (trimEnd r)
  end.

(** [String.prototype.trim]. *)
Definition trim (s : string) : string := trimEnd (trimStart s).

(** [s.includes(sub)]: [sub] occurs in [s] as a contiguous run. *)
Fixpoint includes (s sub : string) : bool :=
  prefix sub s ||
  match s with
  | EmptyString => false
  | String _ r => includes r sub
  end.

(** [s.substring(from, to)] for [from <= to]. *)
Definition substring (from to : nat) (s : string) : string :=
  String.substring from (to - from) s.

(** [!s] is false exactly for a non-empty string. *)
Definition nonEmpty (s : string) : bool := negb (s =? "").

(** [s || d] on strings. *)
Definition orElse (s d : string) : string := if nonEmpty s then s else d.

(** ** JSON values *)

(** A number is kept as the decimal it was written as:
    [JNumber m e] stands for [m * 10 ^ e].  Reading a member of a JSON
    value can give one thing that is not JSON, a function or object of
    the standard library found on the prototype chain: [JInherited k]
    is what was found there under the name [k]. *)
Local Unset Elimination Schemes.
Inductive json : Type :=
| JNull
| JBool (b : bool)
| JNumber (m e : Z)
| JString (s : string)
| JArray (items : list json)
| JObject (members : list (string * json))
| JInherited (k : string).
Local Set Elimination Schemes.

(** A decimal becomes the number zero when it is zero or so small that
    the nearest double is zero, that is at most [2 ^ -1075]. *)
Definition roundsToZero (m e : Z) : bool :=
  (m =? 0)%Z ||
  ((e <? 0)%Z && (Z.abs m * 2 ^ 1075 <=? 10 ^ (- e))%Z).

(** [ToBoolean]. *)
Definition truthy (v : json) : bool :=
  match v with
  | JNull => false
  | JBool b => b
  | JNumber m e => negb (roundsToZero m e)
  | JString s => nonEmpty s
  | JArray _ | JObject _ | JInherited _ => true
  end.

(** The last binding of a key wins, as in an object literal read by
    [JSON.parse]. *)
Fixpoint lookupLast (k : string) (ms : list (string * json)) : option json :=
  match ms with
  | [] => None
  | (k', v) :: r =>
      match lookupLast k r with
      | Some w => Some w
      | None => if k' =? k then Some v else None
      end
  end.

Fixpoint digitsValue (acc : nat) (s : string) : option nat :=
  match s with
  | EmptyString => Some acc
  | String c r =>
      if isDigit c then digitsValue (10 * acc + (charCode c - 48)) r else None
  end.

(** An array index written canonically: ["0"], or digits without a
    leading zero. *)
Definition parseIndex (k : string) : option nat :=
  match k with
  | EmptyString => None
  | String c r =>
      if (charCode c =? 48)%nat
      then match r with EmptyString => Some 0%nat | _ => None end
      else digitsValue 0 k
  end.

(** The characters of one UTF-16 code unit in UTF-8, last character
    first. *)
Definition codeUnitRev (u : nat) : list ascii :=
  if (u <? 128)%nat then [ascii_of_nat u]
  else if (u <? 2048)%nat
  then [ascii_of_nat (128 + u mod 64); ascii_of_nat (192 + u / 64)]
  else [ascii_of_nat (128 + u mod 64);
        ascii_of_nat (128 + (u / 64) mod 64);
        ascii_of_nat (224 + u / 4096)].

(** A code unit is added to the characters read so far, last character
    first: a low surrogate that follows a high surrogate makes with it
    one character of four bytes. *)
Definition pushUnit (u : nat) (acc : list ascii) : list ascii :=
  match acc with
  | b3 :: b2 :: b1 :: rest =>
      if (charCode b1 =? 237)%nat && between 160 175 b2 && between 128 191 b3
         && (56320 <=? Z.of_nat u)%Z && (Z.of_nat u <? 57344)%Z
      then
        let point :=
          (65536 + Z.of_nat ((charCode b2 - 160) * 64 + (charCode b3 - 128)) * 1024
           + (Z.of_nat u - 56320))%Z in
        [ascii_of_nat (128 + Z.to_nat (point mod 64));
         ascii_of_nat (128 + Z.to_nat ((point / 64) mod 64));
         ascii_of_nat (128 + Z.to_nat ((point / 4096) mod 64));
         ascii_of_nat (240 + Z.to_nat (point / 262144))] ++ rest
      else codeUnitRev u ++ acc
  | _ => codeUnitRev u ++ acc
  end.

(** The UTF-16 code units of a string, each as the string that holds
    it alone: a character of one, two or three bytes is one code unit; a
    character of four bytes is a pair of surrogates. *)
Definition unitString (u : nat) : string :=
  string_of_list_ascii (List.rev (codeUnitRev u)).

Fixpoint codeUnits (s : string) : list string :=
  match s with
  | EmptyString => []
  | String c r =>
      let one := String c EmptyString :: codeUnits r in
      if (charCode c <? 192)%nat then one
      else match r with
           | EmptyString => one
           | String d r2 =>
               if (charCode c <? 224)%nat
               then String c (String d EmptyString) :: codeUnits r2
               else match r2 with
                    | EmptyString => one
                    | String e r3 =>
                        if (charCode c <? 240)%nat
                        then String c (String d (String e EmptyString))
                             :: codeUnits r3
                        else match r3 with
                             | EmptyString => one
                             | String f r4 =>
                                 let point :=
                                   (Z.of_nat (charCode c mod 8) * 262144
                                    + Z.of_nat (charCode d mod 64) * 4096
                                    + Z.of_nat (charCode e mod 64) * 64
                                    + Z.of_nat (charCode f mod 64))%Z in
                                 unitString
                                   (Z.to_nat (55296 + (point - 65536) / 1024))
                                 :: unitString
                                      (Z.to_nat (56320 + (point - 65536) mod 1024))
                                 :: codeUnits r4
                             end
                    end
           end
  end.

(** The own property [k] of a value that is neither [null] nor
    [undefined]: a member of an object, an element or the length of an
    array or of a string.  This is all of [v[k]] for the names the
    components spell out ([url], [accessToken], [method], [requestField],
    [responseField], [content], [data], [message]), which no prototype of
    the standard library defines; [getProperty] below is [v[k]] for a
    name that is only known at run time. *)
Definition member (v : json) (k : string) : option json :=
  match v with
  | JObject ms => lookupLast k ms
  | JArray l =>
      if k =? "length" then Some (JNumber (Z.of_nat (List.length l)) 0)
      else match parseIndex k with
           | Some i => nth_error l i
           | None => None
           end
  | JString s =>
      if k =? "length"
      then Some (JNumber (Z.of_nat (List.length (codeUnits s))) 0)
      else match parseIndex k with
           | Some i => match nth_error (codeUnits s) i with
                       | Some u => Some (JString u)
                       | None => None
                       end
           | None => None
           end
  | _ => None
  end.

(** The own properties after [obj[k] = v], by the order of insertion. *)
Fixpoint defineMember (k : string) (v : json) (ms : list (string * json))
  : list (string * json) :=
  match ms with
  | [] => [(k, v)]
  | (k', w) :: r =>
      if k' =? k then (k', v) :: r else (k', w) :: defineMember k v r
  end.

(** [obj[k] = v] on an object literal under construction.  The name
    [__proto__] is the accessor of [Object.prototype]: assigning to it
    never creates a member (and leaves the prototype alone unless [v] is
    an object or [null]). *)
Definition setMember (k : string) (v : json) (ms : list (string * json))
  : list (string * json) :=
  if k =? "__proto__" then ms else defineMember k v ms.


(** ** [JSON.parse]

    The grammar of ECMA-404, read in two passes that both consume their
    input one item at a time: a lexer from characters to tokens, and a
    pushdown recogniser from tokens to a value. *)

Inductive token : Type :=
| TLBrace | TRBrace | TLBracket | TRBracket | TColon | TComma
| TString (s : string)
| TNumber (m e : Z)
| TTrue | TFalse | TNull.

Definition punctuation (c : ascii) : option token :=
  match charCode c with
  | 123 => Some TLBrace
  | 125 => Some TRBrace
  | 91 => Some TLBracket
  | 93 => Some TRBracket
  | 58 => Some TColon
  | 44 => Some TComma
  | _ => None
  end.

(** Insignificant white space: SPACE, TAB, LF and CR only. *)
Definition isJsonSpace (c : ascii) : bool :=
  match charCode c with
  | 32 | 9 | 10 | 13 => true
  | _ => false
  end.

(** The characters of [true], [false], [null] and of numbers. *)
Definition isWordChar (c : ascii) : bool :=
  isDigit c || between 97 122 c || between 65 90 c ||
  (charCode c =? 43)%nat || (charCode c =? 45)%nat || (charCode c =? 46)%nat.

Definition hexValue (c : ascii) : option nat :=
  if isDigit c then Some (charCode c - 48)
  else if between 97 102 c then Some (charCode c - 87)
  else if between 65 70 c then Some (charCode c - 55)
  else None.

Definition escapeChar (c : ascii) : option ascii :=
  match charCode c with
  | 34 | 92 | 47 => Some c            (* quote, backslash, slash *)
  | 98 => Some (ascii_of_nat 8)       (* b *)
  | 102 => Some (ascii_of_nat 12)     (* f *)
  | 110 => Some (ascii_of_nat 10)     (* n *)
  | 114 => Some (ascii_of_nat 13)     (* r *)
  | 116 => Some (ascii_of_nat 9)      (* t *)
  | _ => None
  end.

Fixpoint spanDigits (s : string) : string * string :=
  match s with
  | EmptyString => (EmptyString, EmptyString)
  | String c r =>
      if isDigit c
      then let (d, t) := spanDigits r in (String c d, t)
      else (EmptyString, s)
  end.

Fixpoint digitsZ (acc : Z) (s : string) : Z :=
  match s with
  | EmptyString => acc
  | String c r => digitsZ (10 * acc + Z.of_nat (charCode c - 48)) r
  end.

(** A number: an optional minus sign; an integer part that is 0 or
    starts with a non-zero digit; optionally a point and at least one
    digit; optionally e or E, an optional sign and at least one digit. *)
Definition parseNumber (w : string) : option token :=
  let (neg, w0) :=
    match w with
    | String c r => if (charCode c =? 45)%nat then (true, r) else (false, w)
    | EmptyString => (false, w)
    end in
  let (ip, w1) := spanDigits w0 in
  let intOk :=
    match ip with
    | EmptyString => false
    | String c EmptyString => true
    | String c _ => negb (charCode c =? 48)%nat
    end in
  let '(fp, w2, fracOk) :=
    match w1 with
    | String c r =>
        if (charCode c =? 46)%nat
        then let (d, t) := spanDigits r in (d, t, nonEmpty d)
        else (EmptyString, w1, true)
    | EmptyString => (EmptyString, w1, true)
    end in
  let expo : option Z :=
    match w2 with
    | EmptyString => Some 0%Z
    | String c r =>
        if (charCode c =? 101)%nat || (charCode c =? 69)%nat
        then
          let (eneg, r0) :=
            match r with
            | String s t =>
                if (charCode s =? 45)%nat then (true, t)
                else if (charCode s =? 43)%nat then (false, t)
                else (false, r)
            | EmptyString => (false, r)
            end in
          match spanDigits r0 with
          | (EmptyString, _) => None
          | (d, EmptyString) =>
              Some (if eneg then (- digitsZ 0 d)%Z else digitsZ 0 d)
          | (_, String _ _) => None
          end
        else None
    end in
  match expo with
  | Some x =>
      if intOk && fracOk
      then let m := digitsZ 0 (ip ++ fp) in
           Some (TNumber (if neg then (- m)%Z else m)
                         (x - Z.of_nat (String.length fp)))
      else None
  | None => None
  end.

Definition wordToken (w : string) : option token :=
  if w =? "true" then Some TTrue
  else if w =? "false" then Some TFalse
  else if w =? "null" then Some TNull
  else parseNumber w.

Definition ofRev (acc : list ascii) : string :=
  string_of_list_ascii (List.rev acc).

Inductive lexMode : Type :=
| LTop
| LWord (acc : list ascii)
| LStr (acc : list ascii)
| LEsc (acc : list ascii)
| LHex (acc : list ascii) (more : nat) (u : nat).

Definition consTok (t : token) (k : option (list token)) : option (list token) :=
  match k with Some ts => Some (t :: ts) | None => None end.

Definition quote : ascii := ascii_of_nat 34.
Definition backslash : ascii := ascii_of_nat 92.

(** One character is consumed at every call.  [acc] holds the
    characters of the token being read, last first. *)
Fixpoint lex (m : lexMode) (s : string) : option (list token) :=
  match s with
  | EmptyString =>
      match m with
      | LTop => Some []
      | LWord acc => match wordToken (ofRev acc) with Some t => Some [t] | None => None end
      | _ => None
      end
  | String c r =>
      let top (_ : unit) : option (list token) :=
        if isJsonSpace c then lex LTop r
        else match punctuation c with
             | Some t => consTok t (lex LTop r)
             | None =>
                 if Ascii.eqb c quote then lex (LStr []) r
                 else if isWordChar c then lex (LWord [c]) r
                 else None
             end in
      match m with
      | LTop => top tt
      | LWord acc =>
          if isWordChar c then lex (LWord (c :: acc)) r
          else match wordToken (ofRev acc) with
               | Some t => consTok t (top tt)
               | None => None
               end
      | LStr acc =>
          if Ascii.eqb c quote then consTok (TString (ofRev acc)) (lex LTop r)
          else if Ascii.eqb c backslash then lex (LEsc acc) r
          else if (charCode c <? 32)%nat then None
          else lex (LStr (c :: acc)) r
      | LEsc acc =>
          if (charCode c =? 117)%nat then lex (LHex acc 3 0) r
          else match escapeChar c with
               | Some e => lex (LStr (e :: acc)) r
               | None => None
               end
      | LHex acc more u =>
          match hexValue c with
          | Some h =>
              match more with
              | O => lex (LStr (pushUnit (16 * u + h) acc)) r
              | S more1 => lex (LHex acc more1 (16 * u + h)) r
              end
          | None => None
          end
      end
  end.

(** The containers still open, innermost first. *)
Inductive frame : Type :=
| FArray (acc : list json)
| FObject (acc : list (string * json)) (key : string).

Inductive parseState : Type :=
| PValue (stk : list frame)
| PArrayStart (stk : list frame)
| PObjectStart (stk : list frame)
| PKey (acc : list (string * json)) (stk : list frame)
| PColon (acc : list (string * json)) (key : string) (stk : list frame)
| PAfter (v : json) (stk : list frame).

Definition startValue (t : token) (stk : list frame) : option parseState :=
  match t with
  | TLBracket => Some (PArrayStart stk)
  | TLBrace => Some (PObjectStart stk)
  | TString s => Some (PAfter (JString s) stk)
  | TNumber m e => Some (PAfter (JNumber m e) stk)
  | TTrue => Some (PAfter (JBool true) stk)
  | TFalse => Some (PAfter (JBool false) stk)
  | TNull => Some (PAfter JNull stk)
  | _ => None
  end.

Definition parseStep (st : parseState) (t : token) : option parseState :=
  match st with
  | PValue stk => startValue t stk
  | PArrayStart stk =>
      match t with
      | TRBracket => Some (PAfter (JArray []) stk)
      | _ => startValue t (FArray [] :: stk)
      end
  | PObjectStart stk =>
      match t with
      | TRBrace => Some (PAfter (JObject []) stk)
      | TString k => Some (PColon [] k stk)
      | _ => None
      end
  | PKey acc stk =>
      match t with
      | TString k => Some (PColon acc k stk)
      | _ => None
      end
  | PColon acc k stk =>
      match t with
      | TColon => Some (PValue (FObject acc k :: stk))
      | _ => None
      end
  | PAfter v stk =>
      match stk, t with
      | FArray acc :: stk', TComma => Some (PValue (FArray (v :: acc) :: stk'))
      | FArray acc :: stk', TRBracket =>
          Some (PAfter (JArray (List.rev (v :: acc))) stk')
      | FObject acc k :: stk', TComma => Some (PKey ((k, v) :: acc) stk')
      | FObject acc k :: stk', TRBrace =>
          Some (PAfter (JObject (List.rev ((k, v) :: acc))) stk')
      | _, _ => None
      end
  end.

Fixpoint parseTokens (st : parseState) (ts : list token) : option json :=
  match ts with
  | [] => match st with PAfter v [] => Some v | _ => None end
  | t :: r =>
      match parseStep st t with
      | Some st' => parseTokens st' r
      | None => None
      end
  end.

(** [JSON.parse(text)]; [None] stands for the [SyntaxError] it throws. *)
Definition JSON_parse (text : string) : option json :=
  match lex LTop text with
  | Some ts => parseTokens (PValue []) ts
  | None => None
  end.

(** ** What the engine supplies

    [String.prototype.toLowerCase] follows the case mappings of the
    Unicode character database; the members a value finds on its
    prototype chain are those of the standard library at hand; and what
    [JSON.parse(JSON.stringify(v))] makes of a value depends on its
    kind: a number too large for a double comes back as [null], a
    function does not come back at all ([None]).  None of this is fixed
    by the sources, so all three are parameters.  What is used of them:
    in the ASCII range [toLowerCase] lower-cases the letters A to Z and
    nothing else, and a string and [null] come back from the text as
    they were. *)
Class Engine : Type := {
  toLowerCase : string -> string;
  toLowerCase_ascii :
    forall s, isAscii s = true -> toLowerCase s = lowerAscii s;
  inherits : json -> string -> bool;
  reread : json -> option json;
  reread_string : forall s, reread (JString s) = Some (JString s);
  reread_null : reread JNull = Some JNull
}.

(** [v[k]] for a value that is neither [null] nor [undefined]: an own
    property, or else what the prototype chain holds under that name. *)
Definition getProperty {engine : Engine} (v : json) (k : string)
  : option json :=
  match member v k with
  | Some x => Some x
  | None => if inherits v k then Some (JInherited k) else None
  end.

(** A decimal at or beyond [2 ^ 1024 - 2 ^ 970] is no finite double. *)
Definition overflows (m e : Z) : bool :=
  if (0 <=? e)%Z
  then (2 ^ 1024 - 2 ^ 970 <=? Z.abs m * 10 ^ e)%Z
  else ((2 ^ 1024 - 2 ^ 970) * 10 ^ (- e) <=? Z.abs m)%Z.

(** The names of the members of [Object.prototype]. *)
Definition objectPrototypeNames : list string :=
  ["__proto__"; "constructor"; "hasOwnProperty"; "isPrototypeOf";
   "propertyIsEnumerable"; "toLocaleString"; "toString"; "valueOf";
   "__defineGetter__"; "__defineSetter__"; "__lookupGetter__";
   "__lookupSetter__"].

(** The engine of the examples: no case mapping outside the ASCII
    range; on the prototype chain of every value the members of
    [Object.prototype]; and read back from its text, a number too large
    for a double as [null], what was inherited not at all, and every
    other value as it was (no array or object of the examples holds
    such a number). *)
Definition referenceEngine : Engine :=
  {| toLowerCase := lowerAscii;
     toLowerCase_ascii := fun s _ => eq_refl;
     inherits := fun v k =>
       match v with
       | JNull => false
       | _ => existsb (String.eqb k) objectPrototypeNames
       end;
     reread := fun v =>
       match v with
       | JNumber m e => Some (if overflows m e then JNull else v)
       | JInherited _ => None
       | _ => Some v
       end;
     reread_string := fun _ => eq_refl;
     reread_null := eq_refl |}.

(** ** Vocabulary of the properties *)

(** [s] contains [sub]: some text, then [sub], then some text. *)
Definition Contains (s sub : string) : Prop :=
  exists before after, s = before ++ sub ++ after.

End Js.

(* ================================================================== *)
(** * Effects: a trace of events and an exception                      *)
(* ================================================================== *)

Module Effect.

Section WithEvent.
Context {Event Exn : Type}.

(** A computation leaves a trace and either returns or throws. *)
Definition M (A : Type) : Type := list Event * (Exn + A).

Definition ret {A} (a : A) : M A := ([], inr a).

Definition bind {A B} (m : M A) (f : A -> M B) : M B :=
  match m with
  | (t, inl e) => (t, inl e)
  | (t, inr a) => let (t', r) := f a in ((t ++ t')%list, r)
  end.

Definition emit (ev : Event) : M unit := ([ev], inr tt).

Definition throw {A} (e : Exn) : M A := ([], inl e).

(** A call of a built-in that leaves no trace: it returns or throws. *)
Definition result {A} (outcome : Exn + A) : M A := ([], outcome).

(** [await] of a collaborator: the call is recorded and its outcome,
    a value or a rejection, is the one the environment gives. *)
Definition call {A} (ev : Event) (outcome : Exn + A) : M A := ([ev], outcome).

(** [try { m } catch (e) { h e }] *)
Definition tryCatch {A} (m : M A) (h : Exn -> M A) : M A :=
  match m with
  | (t, inl e) => let (t', r) := h e in ((t ++ t')%list, r)
  | (t, inr a) => (t, inr a)
  end.

(** [try { m } finally { fin }] *)
Definition tryFinally {A} (m : M A) (fin : M unit) : M A :=
  match m, fin with
  | (t, r), (t', inl e) => ((t ++ t')%list, inl e)
  | (t, r), (t', inr _) => ((t ++ t')%list, r)
  end.

Definition trace {A} (m : M A) : list Event := fst m.
End WithEvent.

Declare Scope effect_scope.
Delimit Scope effect_scope with effect.
Notation "x <- c1 ;; c2" := (bind c1 (fun x => c2))
  (at level 61, c1 at next level, right associativity) : effect_scope.
Notation "c1 ;; c2" := (bind c1 (fun _ => c2))
  (at level 61, right associativity) : effect_scope.

End Effect.

(* ================================================================== *)
(** * DaGenAI_Base.tsx                                                 *)
(* ================================================================== *)

Module DaGenAI_Base.
Import Js Effect.

Section WithEngine.
Context {engine : Engine}.

(** ** Descriptors *)

Inductive AddOnType : Type := GenAI_Python | GenAI_Dashboard | GenAI_Widget.

(** Modelled from the spec: the declaration of [AddOn]
    ([@/types/addon.type]) is not among the sources.  The fields are the
    ones this component reads and writes, typed as the generator
    descriptor of the data model: the members every literal of the
    component sets are plain, the members the component guards with
    [?.] or [||] are optional.  The descriptors come from untyped data,
    the marketplace and the blobs of the assets, and [method] is the one
    member on which the dispatcher calls a method of its own, so it is
    kept as the value found there, a string or not. *)
Record AddOn : Type := {
  id : string;
  type : AddOnType;
  name : string;
  description : string;
  apiKey : string;
  endpointUrl : string;
  customPayload : option (string -> json);
  method : option json;
  requestField : option string;
  responseField : option string;
  samples : option string;
  isMock : option bool
}.

(** [{ ...a, customPayload: f }] *)
Definition withCustomPayload (a : AddOn) (f : string -> json) : AddOn :=
  {| id := id a; type := type a; name := name a;
     description := description a; apiKey := apiKey a;
     endpointUrl := endpointUrl a; customPayload := Some f;
     method := method a; requestField := requestField a;
     responseField := responseField a; samples := samples a;
     isMock := isMock a |}.

(** [(prompt: string) => ({ prompt })] *)
Definition promptPayload : string -> json :=
  fun prompt => JObject [("prompt", JString prompt)].

(** [o || d] for an optional string member. *)
Definition optOr (o : option string) (d : string) : string :=
  match o with Some s => orElse s d | None => d end.

Definition sdvCopilot (url : string) : AddOn :=
  {| id := "sdv-copilot-builtin";
     type := GenAI_Python;
     name := "SDV Copilot";
     description := "Support develop basic SDV Python App";
     apiKey := "Empty";
     endpointUrl := url;
     customPayload := Some promptPayload;
     method := Some (JString "POST");
     requestField := Some "prompt";
     responseField := Some "data";
     samples := None;
     isMock := None |}.

(** The initial value of the [builtInAddOns] state. *)
Definition builtInAddOns (t : AddOnType) : list AddOn :=
  match t with
  | GenAI_Python => [sdvCopilot ""]
  | _ => []
  end.

(** The effect that loads the endpoint of the built-in from the site
    configuration: [answer] is what [getConfig] gave, a value or a
    rejection, which is only logged. *)
Definition loadBuiltInAddOnsEndpoint
    {E : Type} (t : AddOnType) (answer : E + string) (current : list AddOn)
  : list AddOn :=
  match t, answer with
  | GenAI_Python, inr configured => [sdvCopilot (orElse configured "")]
  | _, _ => current
  end.

(** ** The catalog *)

Definition mergedBuiltInAddOns
    (builtIns : list AddOn) (marketplaceAddOns : option (list AddOn))
  : list AddOn :=
  map (fun addOn =>
         let marketplaceMatch :=
           match marketplaceAddOns with
           | Some ms => find (fun marketAddOn => id marketAddOn =? id addOn) ms
           | None => None
           end in
         let payload :=
           match customPayload addOn with
           | Some f => f
           | None => promptPayload
           end in
         match marketplaceMatch with
         | Some m => withCustomPayload m payload
         | None => withCustomPayload addOn payload
         end)
      builtIns.

(** [xs.includes(x)] on an array of strings. *)
Definition arrayIncludes (xs : list string) (x : string) : bool :=
  existsb (String.eqb x) xs.

Definition filteredMarketplaceAddOns
    (marketplaceAddOns : option (list AddOn)) (merged : list AddOn)
  : list AddOn :=
  match marketplaceAddOns with
  | None => []
  | Some ms =>
      let builtInIds := map id merged in
      let builtInNames := map (fun addon => toLowerCase (name addon)) merged in
      filter (fun addon =>
                let addonNameLower := toLowerCase (name addon) in
                let isBuiltInById := arrayIncludes builtInIds (id addon) in
                let isBuiltInByName := arrayIncludes builtInNames addonNameLower in
                let isSDVCopilot :=
                  includes addonNameLower "sdv copilot" ||
                  includes addonNameLower "sdv-copilot" in
                negb isBuiltInById && negb isBuiltInByName && negb isSDVCopilot)
             ms
  end.

(** ** User-defined generators *)

(** Modelled from the spec: the asset records come from the [useAssets]
    hook, which is not among the sources; an asset has a name, a type
    tag and a JSON-encoded [data] blob. *)
Record Asset : Type := {
  asset_name : string;
  asset_type : string;
  asset_data : string
}.

(** [data.k || d], stored in a member that [AddOn] holds as a string:
    the endpoint, the API key and the two field names.  The blob is
    untyped: when the member is truthy and not a string the source
    stores it as it is, which no [AddOn] of this embedding represents;
    the result is [None] then. *)
Definition blobField (data : json) (k d : string) : option string :=
  match member data k with
  | None => Some d
  | Some v =>
      if truthy v
      then match v with JString s => Some s | _ => None end
      else Some d
  end.

(** [data.k || d], stored as it is. *)
Definition blobValue (data : json) (k d : string) : json :=
  match member data k with
  | None => JString d
  | Some v => if truthy v then v else JString d
  end.

Record Protocol : Type := {
  url : string;
  accessToken : string;
  method_ : json;
  requestField_ : string;
  responseField_ : string
}.

(** The values of the five [let]s before the [try]. *)
Definition initialProtocol : Protocol :=
  {| url := ""; accessToken := ""; method_ := JString "POST";
     requestField_ := ""; responseField_ := "" |}.

(** The [try] block over [asset.data].  [JSON.parse] throws on text that
    is not JSON and reading a member of [null] throws as well; either
    way the [catch] only logs and the five variables keep their
    values. *)
Definition readProtocol (text : string) : option Protocol :=
  match JSON_parse text with
  | None => Some initialProtocol
  | Some JNull => Some initialProtocol
  | Some data =>
      match blobField data "url" "",
            blobField data "accessToken" "",
            blobField data "requestField" "prompt",
            blobField data "responseField" "data" with
      | Some u, Some a, Some q, Some r =>
          Some {| url := u; accessToken := a;
                  method_ := blobValue data "method" "POST";
                  requestField_ := q; responseField_ := r |}
      | _, _, _, _ => None
      end
  end.

(** [Math.random().toString(36).substring(2, 8)], from the base-36
    rendering of the draw. *)
Definition randomSuffix (draw : string) : string := substring 2 8 draw.

(** The body of [pythonGenAIs.map]; [draw] is the rendering
    [Math.random().toString(36)] of the number drawn for this asset. *)
Definition pythonAIAddon (draw : string) (asset : Asset) : option AddOn :=
  match readProtocol (asset_data asset) with
  | Some p =>
      Some {| id := asset_name asset ++ "-" ++ randomSuffix draw;
              type := GenAI_Python;
              name := orElse (asset_name asset) "My python genAI";
              description := "";
              apiKey := accessToken p;
              endpointUrl := url p;
              customPayload := Some promptPayload;
              method := Some (method_ p);
              requestField := Some (requestField_ p);
              responseField := Some (responseField_ p);
              samples := None;
              isMock := None |}
  | None => None
  end.

Fixpoint mapDraws (draws : nat -> string) (i : nat) (assets : list Asset)
  : list (option AddOn) :=
  match assets with
  | [] => []
  | a :: r => pythonAIAddon (draws i) a :: mapDraws draws (S i) r
  end.

Record UserCatalog : Type := {
  userAIAddons : list (option AddOn);
  hasGenAIAssets : bool
}.

(** The effect on [[assets, type]].  [draws i] is the rendering of the
    [i]-th number [Math.random] returns during the effect. *)
Definition loadUserAIAddons
    (t : AddOnType) (assets : option (list Asset)) (draws : nat -> string)
    (st : UserCatalog) : UserCatalog :=
  match assets with
  | None => {| userAIAddons := []; hasGenAIAssets := hasGenAIAssets st |}
  | Some l =>
      match t with
      | GenAI_Python =>
          let pythonGenAIs :=
            filter (fun asset => asset_type asset =? "GENAI-PYTHON") l in
          {| userAIAddons := mapDraws draws 0 pythonGenAIs;
             hasGenAIAssets := (0 <? List.length pythonGenAIs)%nat |}
      | _ => st
      end
  end.

(** ** The dispatcher *)

Inductive Exn : Type :=
| Error (message : string)
| TypeError
| URIError
| AxiosError (responseData : option json)
| Rejected (reason : string).

Definition Headers : Type := list (string * string).

Inductive Event : Type :=
| OnCodeGenerated (code : json)
| SetLoading (loading : bool)
| OnLoadingChange (loading : bool)
| OnFinishChange (isFinished : bool)
| SetTimeout (ms : nat)
| GetConfig (key scope fallback : string)
| AxiosGet (target : string) (headers : Headers)
| AxiosPost (target : string) (body : json) (headers : Headers)
| ConsoleLog (err : Exn)
| ConsoleError (label : string) (err : Exn)
| ToastError (message : json).

(** What the component imports and calls but does not define: the
    canned text of the mock generator, two built-ins of the language
    whose results are only passed on ([encodeURIComponent] throws on a
    surrogate that stands alone), and the answers of the site
    configuration service and of the HTTP client ([response.data], or
    the rejection). *)
Record World : Type := {
  default_generated_code : string;
  encodeURIComponent : string -> Exn + string;
  JSON_stringify : json -> nat -> string;
  getConfig : string -> string -> string -> Exn + string;
  axios_get : string -> Headers -> Exn + json;
  axios_post : string -> json -> Headers -> Exn + json
}.

Local Open Scope effect_scope.
Local Open Scope string_scope.

Definition crlf : string :=
  String (ascii_of_nat 13) (String (ascii_of_nat 10) EmptyString).

Definition authHeaders (a : AddOn) : Headers :=
  [("Authorization", apiKey a); ("Content-Type", "application/json")].

(** The [if]/[else] on [response.data] shared by the GET and POST
    cases. *)
Definition emitResponse (w : World) (a : AddOn) (data : json)
  : M (Event := Event) (Exn := Exn) unit :=
  let found :=
    if truthy data then getProperty data (optOr (responseField a) "data")
    else None in
  match found with
  | Some v =>
      if truthy v then emit (OnCodeGenerated v)
      else emit (OnCodeGenerated
                   (JString ("Error: Receive incorrect format data" ++ crlf
                             ++ JSON_stringify w data 4)))
  | None =>
      emit (OnCodeGenerated
              (JString ("Error: Receive incorrect format data" ++ crlf
                        ++ JSON_stringify w data 4)))
  end.

Definition notConfigured : string :=
  "GENAI_SDV_APP_ENDPOINT is not configured. Please configure it in Site Management.".

(** [response.data.content || response.data.data
     || JSON.stringify(response.data)] *)
Definition fallbackText (w : World) (data : json)
  : M (Event := Event) (Exn := Exn) json :=
  match data with
  | JNull => throw TypeError
  | _ =>
      match member data "content" with
      | Some v => if truthy v then ret v else
          match member data "data" with
          | Some d => if truthy d then ret d
                      else ret (JString (JSON_stringify w data 0))
          | None => ret (JString (JSON_stringify w data 0))
          end
      | None =>
          match member data "data" with
          | Some d => if truthy d then ret d
                      else ret (JString (JSON_stringify w data 0))
          | None => ret (JString (JSON_stringify w data 0))
          end
      end
  end.

(** [switch (selectedAddOn.method?.toLowerCase().trim())].  The [?.]
    stops at [undefined] and [null]; any other value that is not a
    string has no [toLowerCase], and the call throws outside the [try]
    blocks of the cases. *)
Definition dispatchByMethod (w : World) (a : AddOn) (prompt : string)
  : M (Event := Event) (Exn := Exn) unit :=
  match method a with
  | None | Some JNull => ret tt
  | Some (JString m) =>
      let verb := trim (toLowerCase m) in
      if verb =? "get" then
        tryCatch
          (encoded <- result (encodeURIComponent w prompt) ;;
           let target :=
             endpointUrl a ++ "?" ++ optOr (requestField a) "prompt" ++ "="
             ++ encoded in
           data <- call (AxiosGet target (authHeaders a))
                        (axios_get w target (authHeaders a)) ;;
           emitResponse w a data)
          (fun err => emit (ConsoleLog err))
      else if verb =? "post" then
        tryCatch
          (let payload :=
             JObject (setMember (optOr (requestField a) "prompt")
                                (JString prompt)
                                [("systemMessage", JString (optOr (samples a) ""))]) in
           data <- call (AxiosPost (endpointUrl a) payload (authHeaders a))
                        (axios_post w (endpointUrl a) payload (authHeaders a)) ;;
           emitResponse w a data)
          (fun err => emit (ConsoleLog err))
      else ret tt
  | Some _ => throw TypeError
  end.

(** The last [try] of the function: the SDV App endpoint. *)
Definition dispatchFallback (w : World) (a : AddOn) (prompt : string)
  : M (Event := Event) (Exn := Exn) unit :=
  tryCatch
    (configured <- call (GetConfig "GENAI_SDV_APP_ENDPOINT" "site" "")
                        (getConfig w "GENAI_SDV_APP_ENDPOINT" "site" "") ;;
     if nonEmpty configured then
       let body :=
         JObject [("systemMessage", JString (optOr (samples a) ""));
                  ("message", JString prompt)] in
       let headers := [("Content-Type", "application/json")] in
       data <- call (AxiosPost configured body headers)
                    (axios_post w configured body headers) ;;
       text <- fallbackText w data ;;
       emit (OnCodeGenerated text)
     else throw (Error notConfigured))
    (fun err => emit (ConsoleLog err)).

(** The outer [catch].  The [timeouts] ref it clears is never written
    by the component, so clearing it does nothing. *)
Definition reportFailure (error : Exn)
  : M (Event := Event) (Exn := Exn) unit :=
  emit (ConsoleError "Error generating AI content:" error) ;;
  match error with
  | AxiosError (Some data) =>
      match member data "message" with
      | Some msg =>
          if truthy msg then emit (ToastError msg)
          else emit (ToastError (JString "Error generating AI content"))
      | None => emit (ToastError (JString "Error generating AI content"))
      end
  | _ => emit (ToastError (JString "Error generating AI content"))
  end.

Definition handleGenerate
    (w : World) (selectedAddOn : option AddOn) (prompt : string)
  : M (Event := Event) (Exn := Exn) unit :=
  match selectedAddOn with
  | None => ret tt
  | Some a =>
      emit (OnCodeGenerated (JString "")) ;;
      emit (SetLoading true) ;;
      emit (OnLoadingChange true) ;;
      tryFinally
        (tryCatch
           (match isMock a with
            | Some true =>
                emit (SetTimeout 1000) ;;
                emit (OnCodeGenerated (JString (default_generated_code w)))
            | _ =>
                if nonEmpty (endpointUrl a) && negb (name a =? "SDV Copilot")
                then dispatchByMethod w a prompt
                else dispatchFallback w a prompt
            end)
           reportFailure)
        (emit (SetLoading false) ;;
         emit (OnLoadingChange false) ;;
         emit (OnFinishChange true))
  end.

(** ** What a run shows to the outside *)

Definition isRequest (ev : Event) : bool :=
  match ev with
  | AxiosGet _ _ | AxiosPost _ _ _ => true
  | _ => false
  end.

Definition requests (t : list Event) : list Event := filter isRequest t.

(** The values handed to [onCodeGenerated], in order. *)
Fixpoint generated (t : list Event) : list json :=
  match t with
  | [] => []
  | OnCodeGenerated c :: r => c :: generated r
  | _ :: r => generated r
  end.

Fixpoint toasts (t : list Event) : list json :=
  match t with
  | [] => []
  | ToastError m :: r => m :: toasts r
  | _ :: r => toasts r
  end.

Definition finishedCount (t : list Event) : nat :=
  List.length (filter (fun ev => match ev with
                                 | OnFinishChange true => true
                                 | _ => false
                                 end) t).

(** Every member but [customPayload] agrees. *)
Definition sameVisibleFields (e m : AddOn) : Prop :=
  id e = id m /\ type e = type m /\ name e = name m /\
  description e = description m /\ apiKey e = apiKey m /\
  endpointUrl e = endpointUrl m /\ method e = method m /\
  requestField e = requestField m /\ responseField e = responseField m /\
  samples e = samples m /\ isMock e = isMock m.

(** [addOn.customPayload || ((prompt) => ({ prompt }))] *)
Definition payloadOf (b : AddOn) : string -> json :=
  match customPayload b with Some f => f | None => promptPayload end.

(** The name under which the built-in [b] is listed after the merge:
    the name of the first marketplace entry with its id when there is
    one, its own name otherwise. *)
Definition listedName (market : list AddOn) (b : AddOn) : string :=
  match find (fun marketAddOn => id marketAddOn =? id b) market with
  | Some m => name m
  | None => name b
  end.

(** The events of a run that does nothing between its prologue and its
    [finally]. *)
Definition idleRun (middle : list Event) : list Event :=
  ([OnCodeGenerated (JString ""); SetLoading true; OnLoadingChange true]
     ++ middle
     ++ [SetLoading false; OnLoadingChange false; OnFinishChange true])%list.

(** The method of [a] is a string, or is [undefined] or [null]: the
    values on which the head of the [switch] does not throw. *)
Definition textMethod (a : AddOn) : bool :=
  match method a with
  | None | Some JNull | Some (JString _) => true
  | Some _ => false
  end.

(** The method of [a] is missing or [null], or it is a string that is
    neither GET nor POST, whatever its case and the white space around
    it. *)
Definition unsupportedMethod (a : AddOn) : Prop :=
  textMethod a = true /\
  forall m, method a = Some (JString m) ->
            trim (toLowerCase m) <> "get" /\ trim (toLowerCase m) <> "post".

End WithEngine.

End DaGenAI_Base.

(* ================================================================== *)
(** * PrototypeTabCode.tsx                                             *)
(* ================================================================== *)

(** Modelled from the spec: the declaration of [Prototype]
  ([@/types/model.type]) is not among the sources.  These are the
  members the component reads: the identity of the document, its name
  and language, and its persisted text. *)
Module Prototype.
Record t : Type := {
  id : string;
  name : string;
  language : option string;
  code : option string
}.

(** [newPrototype.code = c] on a copy of [p]. *)
Definition withCode (p : t) (c : string) : t :=
  {| id := id p; name := name p; language := language p; code := Some c |}.
End Prototype.

Module PrototypeTabCode.
Import Js.

Inductive EditorType : Type := Editor_project | Editor_code.

Definition getEditorType (content : string) : EditorType :=
  if negb (nonEmpty content) || (trim content =? "") then Editor_code
  else match JSON_parse content with
       | Some (JArray _) => Editor_project
       | _ => Editor_code
       end.

(** The state of the component: the active prototype of the model
    store and the values of the [useState] cells. *)
Record State : Type := {
  prototype : option Prototype.t;
  savedCode : option string;
  code : option string;
  ticker : nat;
  editorType : EditorType
}.

Definition setCodes (st : State) (c : option string) : State :=
  {| prototype := prototype st; savedCode := c; code := c;
     ticker := ticker st; editorType := editorType st |}.

Definition setEditorType (st : State) (e : EditorType) : State :=
  {| prototype := prototype st; savedCode := savedCode st; code := code st;
     ticker := ticker st; editorType := e |}.

Definition setActivePrototype (st : State) (p : Prototype.t) : State :=
  {| prototype := Some p; savedCode := savedCode st; code := code st;
     ticker := ticker st; editorType := editorType st |}.

(** [setCode] alone, as the editors and the generator dialog call it. *)
Definition setCode (st : State) (c : string) : State :=
  {| prototype := prototype st; savedCode := savedCode st; code := Some c;
     ticker := ticker st; editorType := editorType st |}.

(** The effect on [[prototype]]. *)
Definition onPrototypeChange (st : State) : State :=
  match prototype st with
  | None => setEditorType (setCodes st None) Editor_code
  | Some p =>
      let prototypeCode :=
        match Prototype.code p with Some c => c | None => "" end in
      setEditorType (setCodes st (Some prototypeCode))
                    (getEditorType prototypeCode)
  end.

Inductive Event : Type :=
| UpdatePrototypeService (id : string) (code : string)
| ConsoleError (label : string).

(** The answer of the remote store to [update(id, { code })]: the
    promise resolves ([true]) or rejects ([false]). *)
Definition Remote : Type := string -> string -> bool.

Definition sameText (a b : option string) : bool :=
  match a, b with
  | Some x, Some y => x =? y
  | None, None => true
  | _, _ => false
  end.

(** The first half of [saveCodeToDb]: what is to be saved, if
    anything. *)
Definition dataToSave (codeToSave : option string) (st : State)
  : option string :=
  match codeToSave with
  | Some c =>
      (* explicit save from the editor: always persist, do not skip *)
      if nonEmpty c then Some c else None
  | None =>
      (* periodic auto-save: skip if unchanged *)
      match code st with
      | Some c =>
          if negb (nonEmpty c) || sameText (code st) (savedCode st)
          then None else Some c
      | None => None
      end
  end.

(** The second half: the write to the remote store and, only after
    it succeeded, the updates of the state.  The copy
    [JSON.parse(JSON.stringify(prototype))] of a record of strings is
    the record. *)
Definition persist (remote : Remote) (text : string) (st : State)
  : State * list Event :=
  match prototype st with
  | None => (st, [])
  | Some p =>
      if nonEmpty (Prototype.id p) then
        if remote (Prototype.id p) (orElse text "") then
          (setActivePrototype (setCodes st (Some text))
                              (Prototype.withCode p (orElse text "")),
           [UpdatePrototypeService (Prototype.id p) (orElse text "")])
        else
          (st, [UpdatePrototypeService (Prototype.id p) (orElse text "");
                ConsoleError "Error saving code:"])
      else (st, [])
  end.

Definition saveCodeToDb (remote : Remote) (codeToSave : option string)
    (st : State) : State * list Event :=
  match dataToSave codeToSave st with
  | Some text => persist remote text st
  | None => (st, [])
  end.

(** One period of the 3000 ms interval: the ticker moves and the
    effect on [[ticker]] saves. *)
Definition tick (st : State) : State :=
  {| prototype := prototype st; savedCode := savedCode st;
     code := code st; ticker := S (ticker st);
     editorType := editorType st |}.

Definition heartbeat (remote : Remote) (st : State) : State * list Event :=
  saveCodeToDb remote None (tick st).

(** The texts handed to the remote store, in order. *)
Fixpoint persisted (t : list Event) : list (string * string) :=
  match t with
  | [] => []
  | UpdatePrototypeService i c :: r => (i, c) :: persisted r
  | _ :: r => persisted r
  end.

(** The state once the effect on the prototype has run again. *)
Definition reloaded (st : State) : State := onPrototypeChange st.

End PrototypeTabCode.

(* ================================================================== *)
(** * Sample data                                                      *)
(* ================================================================== *)

Module Samples.
Import Js DaGenAI_Base PrototypeTabCode.
Local Open Scope string_scope.

(** Two marketplace entries used in the examples. *)
Definition messagePayload : string -> json :=
  fun prompt => JObject [("message", JString prompt)].

Definition marketCopilot : AddOn :=
  {| id := "sdv-copilot-builtin"; type := GenAI_Python;
     name := "Copilot from the marketplace"; description := "";
     apiKey := "token"; endpointUrl := "https://market.example/generate";
     customPayload := Some messagePayload;
     method := Some (JString "POST"); requestField := Some "message";
     responseField := Some "content"; samples := None; isMock := None |}.

Definition copilotPro : AddOn :=
  {| id := "pro"; type := GenAI_Python;
     name := "SDV-Copilot Pro"; description := "";
     apiKey := ""; endpointUrl := "https://pro.example";
     customPayload := None;
     method := Some (JString "POST"); requestField := None;
     responseField := None; samples := None; isMock := None |}.

(** A marketplace entry that carries the id of the built-in under a
    name of its own, and another entry of that name. *)
Definition assistant : AddOn :=
  {| id := "sdv-copilot-builtin"; type := GenAI_Python;
     name := "Assistant"; description := "";
     apiKey := "token"; endpointUrl := "https://assistant.example";
     customPayload := None;
     method := Some (JString "POST"); requestField := None;
     responseField := None; samples := None; isMock := None |}.

Definition namesake : AddOn :=
  {| id := "namesake"; type := GenAI_Python;
     name := "assistant"; description := "";
     apiKey := ""; endpointUrl := "https://namesake.example";
     customPayload := None;
     method := Some (JString "POST"); requestField := None;
     responseField := None; samples := None; isMock := None |}.

(** An asset whose blob is cut off after the opening brace. *)
Definition brokenAsset : Asset :=
  {| asset_name := "mine"; asset_type := "GENAI-PYTHON"; asset_data := "{" |}.

Definition emptyCatalog : UserCatalog :=
  {| userAIAddons := []; hasGenAIAssets := false |}.

(** The descriptor the catalog builds for it when the draw is 0.5. *)
Definition brokenDescriptor : AddOn :=
  {| id := "mine-i"; type := GenAI_Python; name := "mine";
     description := ""; apiKey := ""; endpointUrl := "";
     customPayload := Some promptPayload; method := Some (JString "POST");
     requestField := Some ""; responseField := Some "";
     samples := None; isMock := None |}.

(** A world without a configured fallback endpoint, in which every
    request would be answered. *)
Definition unconfigured : World :=
  {| default_generated_code := "print('hello')";
     encodeURIComponent := fun s => inr s;
     JSON_stringify := fun _ _ => "{}";
     getConfig := fun _ _ _ => inr "";
     axios_get := fun _ _ => inr (JObject [("data", JString "code")]);
     axios_post := fun _ _ _ => inr (JObject [("data", JString "code")]) |}.

Definition putAddOn (mock : option bool) : AddOn :=
  {| id := "put"; type := GenAI_Python; name := "Put generator";
     description := ""; apiKey := "token";
     endpointUrl := "https://put.example";
     customPayload := None; method := Some (JString "PUT");
     requestField := None; responseField := None;
     samples := None; isMock := mock |}.

(** The double quote, as a string. *)
Definition dq : string := String quote EmptyString.

(** An asset whose blob gives an endpoint and the number 5 as method,
    [{"url":"https://five.example","method":5}], and the descriptor the
    catalog builds for it when the draw is 0.5. *)
Definition numericAsset : Asset :=
  {| asset_name := "five"; asset_type := "GENAI-PYTHON";
     asset_data :=
       "{" ++ dq ++ "url" ++ dq ++ ":" ++ dq ++ "https://five.example" ++ dq
       ++ "," ++ dq ++ "method" ++ dq ++ ":5}" |}.

Definition numericDescriptor : AddOn :=
  {| id := "five-i"; type := GenAI_Python; name := "five";
     description := ""; apiKey := ""; endpointUrl := "https://five.example";
     customPayload := Some promptPayload; method := Some (JNumber 5 0);
     requestField := Some "prompt"; responseField := Some "data";
     samples := None; isMock := None |}.

(** The same descriptor with a method that is a number too large for a
    double, as the blob [{"method":1e400}] gives it. *)
Definition hugeDescriptor : AddOn :=
  {| id := "five-i"; type := GenAI_Python; name := "five";
     description := ""; apiKey := ""; endpointUrl := "https://five.example";
     customPayload := Some promptPayload; method := Some (JNumber 1 400);
     requestField := Some "prompt"; responseField := Some "data";
     samples := None; isMock := None |}.

(** An open session used in the examples: an edited buffer over a
    saved one. *)
Definition demoPrototype : Prototype.t :=
  {| Prototype.id := "p1"; Prototype.name := "Demo";
     Prototype.language := Some "python";
     Prototype.code := Some "print(1)" |}.

Definition demoState : State :=
  {| prototype := Some demoPrototype; savedCode := Some "print(1)";
     code := Some "print(2)"; ticker := 0; editorType := Editor_code |}.

Definition accepting : Remote := fun _ _ => true.
Definition rejecting : Remote := fun _ _ => false.

(** A GET generator and a world that answers it. *)
Definition getAddOn : AddOn :=
  {| id := "g"; type := GenAI_Python; name := "Getter"; description := "";
     apiKey := "token"; endpointUrl := "https://e";
     customPayload := None; method := Some (JString "GET");
     requestField := Some "q"; responseField := Some "out";
     samples := None; isMock := None |}.

Definition answering : World :=
  {| default_generated_code := "print('hello')";
     encodeURIComponent := fun s => inr s;
     JSON_stringify := fun _ _ => "{}";
     getConfig := fun _ _ _ => inr "";
     axios_get := fun _ _ => inr (JObject [("out", JString "CODE")]);
     axios_post := fun _ _ _ => inl (AxiosError None) |}.

End Samples.

(* ================================================================== *)
(** * DaGenAI_Base.tsx: selection, storage and controls                *)
(* ================================================================== *)

Module Selector.
Import Js Effect DaGenAI_Base.
Local Open Scope string_scope.

Section WithEngine.
Context {engine : Engine}.

(** The body of the outer [try] of [handleGenerate]. *)
Definition attempt (w : World) (a : AddOn) (prompt : string)
  : M (Event := Event) (Exn := Exn) unit :=
  match isMock a with
  | Some true =>
      bind (emit (SetTimeout 1000))
           (fun _ => emit (OnCodeGenerated (JString (default_generated_code w))))
  | _ =>
      if nonEmpty (endpointUrl a) && negb (name a =? "SDV Copilot")
      then dispatchByMethod w a prompt
      else dispatchFallback w a prompt
  end.

(** The events of the prologue, of the outer [catch] and of the
    [finally]: everything that is not part of a dispatch. *)
Definition isFrameEvent (ev : Event) : bool :=
  match ev with
  | SetLoading _ | OnLoadingChange _ | OnFinishChange _
  | ConsoleError _ _ | ToastError _ => true
  | _ => false
  end.

Definition isConfigLookup (ev : Event) : bool :=
  match ev with GetConfig _ _ _ => true | _ => false end.

(** The text inserted when the response lacks the expected field. *)
Definition incorrectFormat (w : World) (data : json) : json :=
  JString ("Error: Receive incorrect format data" ++ crlf
           ++ JSON_stringify w data 4).

(** What the GET and POST cases hand to [onCodeGenerated] for a
    response. *)
Definition responseText (w : World) (a : AddOn) (data : json) : json :=
  match (if truthy data
         then getProperty data (optOr (responseField a) "data")
         else None) with
  | Some v => if truthy v then v else incorrectFormat w data
  | None => incorrectFormat w data
  end.

(** [x || y] on values that may be [undefined]; [None] when both are
    falsy. *)
Definition firstTruthy (x y : option json) : option json :=
  match x with
  | Some v => if truthy v then Some v else
                match y with
                | Some u => if truthy u then Some u else None
                | None => None
                end
  | None => match y with
            | Some u => if truthy u then Some u else None
            | None => None
            end
  end.

(** What the fallback case does with a response. *)
Definition fallbackEvent (w : World) (data : json) : Event :=
  match data with
  | JNull => ConsoleLog TypeError
  | _ =>
      match firstTruthy (member data "content") (member data "data") with
      | Some v => OnCodeGenerated v
      | None => OnCodeGenerated (JString (JSON_stringify w data 0))
      end
  end.

(** The request of the GET case, for the encoded prompt. *)
Definition getTarget (a : AddOn) (encoded : string) : string :=
  endpointUrl a ++ "?" ++ optOr (requestField a) "prompt" ++ "="
  ++ encoded.

(** The body of the POST case. *)
Definition postPayload (a : AddOn) (prompt : string) : json :=
  JObject (setMember (optOr (requestField a) "prompt") (JString prompt)
                     [("systemMessage", JString (optOr (samples a) ""))]).

(** The events of the GET case. *)
Definition getEvents (w : World) (a : AddOn) (prompt : string)
  : list Event :=
  match encodeURIComponent w prompt with
  | inl err => [ConsoleLog err]
  | inr encoded =>
      [AxiosGet (getTarget a encoded) (authHeaders a);
       match axios_get w (getTarget a encoded) (authHeaders a) with
       | inr data => OnCodeGenerated (responseText w a data)
       | inl err => ConsoleLog err
       end]
  end.

(** The events of the POST case. *)
Definition postEvents (w : World) (a : AddOn) (prompt : string)
  : list Event :=
  [AxiosPost (endpointUrl a) (postPayload a prompt) (authHeaders a);
   match axios_post w (endpointUrl a) (postPayload a prompt)
                    (authHeaders a) with
   | inr data => OnCodeGenerated (responseText w a data)
   | inl err => ConsoleLog err
   end].

(** The events of the dispatch by method. *)
Definition ownEvents (w : World) (a : AddOn) (prompt : string)
  : list Event :=
  match method a with
  | Some (JString m) =>
      let verb := trim (toLowerCase m) in
      if verb =? "get" then getEvents w a prompt
      else if verb =? "post" then postEvents w a prompt
      else []
  | _ => []
  end.

(** What the HTTP client answers to the request of the GET or POST
    case; [None] when no request is made: the method is neither, or
    the prompt cannot be encoded. *)
Definition ownAnswer (w : World) (a : AddOn) (prompt : string)
  : option (Exn + json) :=
  match method a with
  | Some (JString m) =>
      let verb := trim (toLowerCase m) in
      if verb =? "get"
      then match encodeURIComponent w prompt with
           | inr encoded =>
               Some (axios_get w (getTarget a encoded) (authHeaders a))
           | inl _ => None
           end
      else if verb =? "post"
      then Some (axios_post w (endpointUrl a) (postPayload a prompt)
                            (authHeaders a))
      else None
  | _ => None
  end.

(** The run reaches the [switch] with a method on which its head
    throws: the descriptor is not a mock, it has an endpoint, it is not
    the fallback product, and its method is neither a string nor
    [undefined] nor [null]. *)
Definition throwsAtSwitch (a : AddOn) : bool :=
  match isMock a with
  | Some true => false
  | _ =>
      nonEmpty (endpointUrl a) && negb (name a =? "SDV Copilot") &&
      negb (textMethod a)
  end.

(** What the outer [catch] does with the error thrown on a method that
    is not a string. *)
Definition failureReport : list Event :=
  [ConsoleError "Error generating AI content:" TypeError;
   ToastError (JString "Error generating AI content")].

(** [field] is what [data.k || d] gives for a member that is a string
    or is falsy or missing. *)
Definition readsAs (data : json) (k d field : string) : Prop :=
  (forall s, member data k = Some (JString s) -> s <> "" -> field = s) /\
  (member data k = None \/
   (exists v, member data k = Some v /\ truthy v = false) ->
   field = d).

(** [field] is what [data.k || d] gives, whatever the member is. *)
Definition keepsValue (data : json) (k d : string) (field : json) : Prop :=
  (forall v, member data k = Some v -> truthy v = true -> field = v) /\
  (member data k = None \/
   (exists v, member data k = Some v /\ truthy v = false) ->
   field = JString d).

(** The HTTP client rejects every request. *)
Definition rejectsAll (w : World) : Prop :=
  (forall target headers, exists err, axios_get w target headers = inl err) /\
  (forall target body headers,
      exists err, axios_post w target body headers = inl err).

(** The body and the headers of the fallback case. *)
Definition fallbackBody (a : AddOn) (prompt : string) : json :=
  JObject [("systemMessage", JString (optOr (samples a) ""));
           ("message", JString prompt)].

Definition jsonHeaders : Headers := [("Content-Type", "application/json")].

(** A descriptor as [JSON.parse] reads it back from the text that
    [JSON.stringify] wrote: members that are functions are left out,
    members that are [undefined] stay so, strings and booleans come back
    as they were, and the method comes back as the engine rereads a
    value of its kind. *)
Definition readBack (a : AddOn) : AddOn :=
  {| id := id a; type := type a; name := name a;
     description := description a; apiKey := apiKey a;
     endpointUrl := endpointUrl a; customPayload := None;
     method := match method a with Some v => reread v | None => None end;
     requestField := requestField a;
     responseField := responseField a; samples := samples a;
     isMock := isMock a |}.

(** The selection of the component and the item
    [lastUsed_GenAIGenerator] of the local storage, which only this
    component writes; the item is given by the descriptor its text
    denotes, [None] when there is no item. *)
Record Selection : Type := {
  selectedAddOn : option AddOn;
  lastUsed_GenAIGenerator : option AddOn
}.

(** [onSelectedGeneratorChange] of the generator selector. *)
Definition onSelectedGeneratorChange (addOn : AddOn) (s : Selection)
  : Selection :=
  {| selectedAddOn := Some addOn;
     lastUsed_GenAIGenerator := Some (readBack addOn) |}.

(** The effect on [[addonsLoaded, mergedBuiltInAddOns]]. *)
Definition restoreSelection
    (addonsLoaded : bool) (merged : list AddOn) (s : Selection) : Selection :=
  if addonsLoaded then
    match lastUsed_GenAIGenerator s with
    | Some lastUsedGenAI =>
        {| selectedAddOn := Some lastUsedGenAI;
           lastUsed_GenAIGenerator := lastUsed_GenAIGenerator s |}
    | None =>
        match merged with
        | first :: _ =>
            {| selectedAddOn := Some first;
               lastUsed_GenAIGenerator := lastUsed_GenAIGenerator s |}
        | [] => s
        end
    end
  else s.

(** The two effects that set [addonsLoaded]; it is never reset. *)
Definition markLoaded
    (t : AddOnType) (builtIns : list AddOn)
    (marketplaceAddOns : option (list AddOn)) (addonsLoaded : bool) : bool :=
  addonsLoaded ||
  match marketplaceAddOns with Some _ => true | None => false end ||
  match t with
  | GenAI_Python => (0 <? List.length builtIns)%nat
  | _ => false
  end.

(** What the prompt area and the button look at. *)
Record Controls : Type := {
  prompt : string;
  loading : bool;
  addonsLoaded : bool;
  canUseGenAI : bool;
  hasGenAIAssets : bool
}.

(** The [disabled] attribute of the Generate button. *)
Definition buttonDisabled (c : Controls) : bool :=
  negb (nonEmpty (prompt c)) || loading c || negb (addonsLoaded c) ||
  (negb (canUseGenAI c) && negb (hasGenAIAssets c)).

(** [onKeyDown] of the prompt area: whether it calls
    [handleGenerate]. *)
Definition onKeyDown (key : string) (shiftKey : bool) (c : Controls) : bool :=
  (key =? "Enter") && negb shiftKey &&
  (negb (loading c) && nonEmpty (prompt c) && addonsLoaded c).

(** The [marketplaceAddOns] property handed to the generator selector. *)
Definition offeredMarketplace
    (canUse : bool) (marketplaceAddOns : option (list AddOn))
    (merged : list AddOn) : list AddOn :=
  match marketplaceAddOns with
  | Some _ =>
      if canUse then filteredMarketplaceAddOns marketplaceAddOns merged else []
  | None => []
  end.

End WithEngine.

End Selector.

(* ================================================================== *)
(** * PrototypeTabCode.tsx: the states of a session                    *)
(* ================================================================== *)

Module Session.
Import Js PrototypeTabCode.
Local Open Scope string_scope.

(** No document is open: there is no prototype, or it has no id. *)
Definition closed (st : State) : Prop :=
  prototype st = None \/
  exists p, prototype st = Some p /\ Prototype.id p = "".

(** The document [p] is open. *)
Definition opened (st : State) (p : Prototype.t) : Prop :=
  prototype st = Some p /\ Prototype.id p <> "".

(** The buffer holds the non-empty text [c], which is not the saved
    one. *)
Definition dirty (st : State) (c : string) : Prop :=
  code st = Some c /\ c <> "" /\ code st <> savedCode st.

(** The text of a prototype, as the effect on the prototype reads it. *)
Definition textOf (p : Prototype.t) : string :=
  match Prototype.code p with Some c => c | None => "" end.

End Session.

(* ================================================================== *)
(** * More sample data                                                 *)
(* ================================================================== *)

Module MoreSamples.
Import Js DaGenAI_Base PrototypeTabCode Selector Samples.
Local Open Scope string_scope.

Definition postAddOn : AddOn :=
  {| id := "p"; type := GenAI_Python; name := "Poster"; description := "";
     apiKey := "token"; endpointUrl := "https://post.example";
     customPayload := None; method := Some (JString " Post ");
     requestField := None; responseField := Some "out";
     samples := Some "examples"; isMock := None |}.

(** A world with a configured fallback endpoint that answers with a
    [content] member. *)
Definition configured : World :=
  {| default_generated_code := "print('hello')";
     encodeURIComponent := fun s => inr s;
     JSON_stringify := fun _ _ => "{}";
     getConfig := fun _ _ _ => inr "https://fallback.example";
     axios_get := fun _ _ => inr (JObject [("out", JString "CODE")]);
     axios_post := fun _ _ _ =>
       inr (JObject [("content", JString "generated");
                     ("out", JString "posted")]) |}.

(** A world in which every request is rejected. *)
Definition offline : World :=
  {| default_generated_code := "print('hello')";
     encodeURIComponent := fun s => inr s;
     JSON_stringify := fun _ _ => "{}";
     getConfig := fun _ _ _ => inr "https://fallback.example";
     axios_get := fun _ _ => inl (AxiosError None);
     axios_post := fun _ _ _ => inl (AxiosError None) |}.

(** A session with unsaved edits and one whose document has no id. *)
Definition orphanState : State :=
  {| prototype := None; savedCode := None; code := Some "print(3)";
     ticker := 0; editorType := Editor_code |}.

Definition pythonAsset : Asset :=
  {| asset_name := "ok"; asset_type := "GENAI-PYTHON"; asset_data := "{}" |}.

Definition widgetAsset : Asset :=
  {| asset_name := "w"; asset_type := "GENAI-WIDGET"; asset_data := "{}" |}.

End MoreSamples.

(* ================================================================== *)
(** * Facts about the built-ins                                        *)
(* ================================================================== *)

Module JsFacts.
Import Js.
Local Open Scope string_scope.

Lemma prefix_iff (p s : string) :
  prefix p s = true <-> exists rest, s = p ++ rest.
Proof.
  revert s; induction p as [|a p IH]; intros s; simpl.
  - destruct s; simpl; split; eauto.
  - destruct s as [|b s]; simpl.
    + split; [discriminate | intros [r Hr]; discriminate].
    + destruct (ascii_dec a b) as [->|Hab].
      * rewrite IH. split; intros [r Hr]; exists r; congruence.
      * split; [discriminate | intros [r Hr]; congruence].
Qed.

Lemma includes_iff (s sub : string) :
  includes s sub = true <-> Contains s sub.
Proof.
  unfold Contains. induction s as [|c s IH].
  - change (includes "" sub) with (prefix sub "" || false).
    rewrite orb_false_r, prefix_iff. split.
    + intros [r Hr]. exists "", r. exact Hr.
    + intros [[|x b] [a Ha]]; simpl in Ha; [eauto | discriminate].
  - change (includes (String c s) sub)
      with (prefix sub (String c s) || includes s sub).
    rewrite orb_true_iff, prefix_iff, IH. split.
    + intros [[r Hr] | [b [a Ha]]].
      * exists "", r. exact Hr.
      * exists (String c b), a. simpl. now rewrite Ha.
    + intros [[|x b] [a Ha]]; simpl in Ha.
      * left; eauto.
      * right. exists b, a. congruence.
Qed.

Lemma orElse_empty (s : string) : orElse s "" = s.
Proof.
  unfold orElse, nonEmpty. destruct (s =? "") eqn:E; simpl; auto.
  apply String.eqb_eq in E. now subst.
Qed.

Lemma nonEmpty_true (s : string) : nonEmpty s = true <-> s <> "".
Proof.
  unfold nonEmpty. rewrite negb_true_iff. apply String.eqb_neq.
Qed.

Lemma nonEmpty_false (s : string) : nonEmpty s = false <-> s = "".
Proof.
  unfold nonEmpty. rewrite negb_false_iff. apply String.eqb_eq.
Qed.

Lemma append_cancel (p a b : string) : p ++ a = p ++ b -> a = b.
Proof.
  induction p as [|c p IH]; simpl; intros H; [exact H | apply IH; congruence].
Qed.

Lemma substring_length_le (n m : nat) (s : string) :
  (String.length (String.substring n m s) <= m)%nat.
Proof.
  revert n m; induction s as [|c s IH]; intros [|n] [|m]; simpl;
    try lia.
  - specialize (IH 0%nat m). lia.
  - apply (IH n 0%nat).
  - apply (IH n (S m)).
Qed.

Lemma trimEnd_empty (s : string) : trimEnd s = "" -> blank s = true.
Proof.
  destruct s as [|c r]; [reflexivity|]. cbn [trimEnd].
  destruct (blank (String c r)); [reflexivity | discriminate].
Qed.

Lemma blank_trimEnd (s : string) : blank s = true -> trimEnd s = "".
Proof.
  destruct s as [|c r]; [reflexivity|]. cbn [trimEnd]. now intros ->.
Qed.

(** What [trimStart] drops is white space. *)
Lemma blank_trimStart_upto (n : nat) :
  forall s, (String.length s <= n)%nat -> blank (trimStart s) = blank s.
Proof.
  induction n as [|n IH]; intros s Hn.
  - destruct s; [reflexivity | simpl in Hn; lia].
  - destruct s as [|c r]; [reflexivity|]. simpl in Hn.
    cbn [trimStart]. destruct (isWhiteSpace c) eqn:Hc.
    + cbn [blank]. rewrite Hc. apply IH. lia.
    + destruct r as [|d r2]; [reflexivity|]. simpl in Hn.
      destruct (isWhiteSpace2 c d) eqn:H2.
      * cbn [blank]. rewrite Hc, H2. apply IH. lia.
      * destruct r2 as [|e r3]; [reflexivity|]. simpl in Hn.
        destruct (isWhiteSpace3 c d e) eqn:H3; [|reflexivity].
        cbn [blank]. rewrite Hc, H2, H3. apply IH. lia.
Qed.

Lemma blank_trimStart (s : string) : blank (trimStart s) = blank s.
Proof. now apply (blank_trimStart_upto (String.length s)). Qed.

Lemma trim_empty_blank (s : string) : trim s = "" -> blank s = true.
Proof.
  unfold trim. intros H. apply trimEnd_empty in H.
  now rewrite blank_trimStart in H.
Qed.

Lemma blank_trim_empty (s : string) : blank s = true -> trim s = "".
Proof.
  unfold trim. intros H. apply blank_trimEnd. now rewrite blank_trimStart.
Qed.

(** A white-space character of the ASCII range is skipped by the lexer
    or refused by it. *)
Lemma whiteSpace_lex (c : ascii) :
  isWhiteSpace c = true ->
  isJsonSpace c = true \/
  (isJsonSpace c = false /\ punctuation c = None /\
   Ascii.eqb c quote = false /\ isWordChar c = false).
Proof.
  destruct c as [[|] [|] [|] [|] [|] [|] [|] [|]];
    vm_compute; intros H; try discriminate H; auto.
Qed.

(** A character outside the ASCII range starts no token. *)
Lemma high_lex (c : ascii) :
  (128 <=? charCode c)%nat = true ->
  isJsonSpace c = false /\ punctuation c = None /\
  Ascii.eqb c quote = false /\ isWordChar c = false.
Proof.
  destruct c as [[|] [|] [|] [|] [|] [|] [|] [|]];
    vm_compute; intros H; try discriminate H; auto.
Qed.

(** White space that is not of the ASCII range starts with a character
    outside it. *)
Lemma blank_head (c : ascii) (r : string) :
  blank (String c r) = true ->
  isWhiteSpace c = false ->
  (128 <=? charCode c)%nat = true.
Proof.
  cbn [blank]. intros H Hc. rewrite Hc in H.
  destruct r as [|d r2]; [discriminate|].
  destruct (isWhiteSpace2 c d) eqn:H2.
  - unfold isWhiteSpace2 in H2. apply andb_true_iff in H2.
    destruct H2 as [E _]. apply Nat.eqb_eq in E. now rewrite E.
  - destruct r2 as [|e r3]; [discriminate|].
    apply andb_true_iff in H. destruct H as [H3 _].
    unfold isWhiteSpace3 in H3.
    repeat (apply orb_true_iff in H3; destruct H3 as [H3 | H3]);
      repeat (apply andb_true_iff in H3; destruct H3 as [H3 _]);
      apply Nat.eqb_eq in H3; now rewrite H3.
Qed.

Lemma lex_blank (s : string) :
  blank s = true -> lex LTop s = Some [] \/ lex LTop s = None.
Proof.
  induction s as [|c r IH]; [now left|]. intros H.
  destruct (isWhiteSpace c) eqn:Hc.
  - assert (Hr : blank r = true) by (cbn [blank] in H; now rewrite Hc in H).
    simpl. destruct (whiteSpace_lex c Hc) as [-> | (-> & -> & -> & ->)]; auto.
  - destruct (high_lex c (blank_head c r H Hc)) as (E1 & E2 & E3 & E4).
    simpl. rewrite E1, E2, E3, E4. now right.
Qed.

Lemma JSON_parse_blank (s : string) : blank s = true -> JSON_parse s = None.
Proof.
  intros H. unfold JSON_parse.
  destruct (lex_blank s H) as [-> | ->]; reflexivity.
Qed.

End JsFacts.

(* ================================================================== *)
(** * Properties of the prototype code tab                             *)
(* ================================================================== *)

Module PrototypeTabCodeProps.
Import Js JsFacts PrototypeTabCode Samples.
Local Open Scope string_scope.

(** The guard at the head of [getEditorType] only ever cuts short
    texts that would not parse. *)
Lemma guard_never_parses (content : string) :
  negb (nonEmpty content) || (trim content =? "") = true ->
  JSON_parse content = None.
Proof.
  rewrite orb_true_iff, negb_true_iff, nonEmpty_false, String.eqb_eq.
  intros [-> | H]; [reflexivity|].
  now apply JSON_parse_blank, trim_empty_blank.
Qed.

(** C5.  The content mode is a function of the text alone:
    [getEditorType] answers project exactly when the text parses as
    JSON and the value is an array; it answers code when the text does
    not parse, when it parses to anything that is not an array, and
    when it is empty.  The text [[]] is a project, the empty text and
    [print(1)] are code. *)
Theorem getEditorType_spec :
  (forall content,
      getEditorType content = Editor_project <->
      exists items, JSON_parse content = Some (JArray items)) /\
  (forall content,
      JSON_parse content = None -> getEditorType content = Editor_code) /\
  (forall content v,
      JSON_parse content = Some v ->
      (forall items, v <> JArray items) ->
      getEditorType content = Editor_code) /\
  getEditorType "" = Editor_code /\
  getEditorType "[]" = Editor_project /\
  getEditorType "print(1)" = Editor_code.
Proof.
  repeat split.
  - unfold getEditorType.
    destruct (negb (nonEmpty content) || (trim content =? "")) eqn:G.
    + discriminate.
    + destruct (JSON_parse content) as [[]|]; try discriminate. eauto.
  - intros [items H]. unfold getEditorType.
    destruct (negb (nonEmpty content) || (trim content =? "")) eqn:G.
    + apply guard_never_parses in G. congruence.
    + now rewrite H.
  - intros content H. unfold getEditorType. rewrite H.
    now destruct (negb (nonEmpty content) || (trim content =? "")).
  - intros content v H Hv. unfold getEditorType. rewrite H.
    destruct (negb (nonEmpty content) || (trim content =? "")); auto.
    destruct v; auto. now destruct (Hv items).
Qed.

(** C1.  While a document is open, that is while the store holds a
    prototype with an id, [persist text] does the following.  When the
    remote update succeeds, [code] and [savedCode] both become [text]
    and the active prototype is the old one with [text] as its code,
    and they stay so when the effect on the prototype has run again.
    When the remote update fails, the state is the state before the
    call: [code], [savedCode] and the active prototype are unchanged. *)
Theorem persist_spec
    (remote : Remote) (st : State) (p : Prototype.t) (text : string) :
  prototype st = Some p ->
  Prototype.id p <> "" ->
  let st' := fst (persist remote text st) in
  (remote (Prototype.id p) text = true ->
     code st' = Some text /\
     savedCode st' = Some text /\
     prototype st' = Some (Prototype.withCode p text) /\
     Prototype.code (Prototype.withCode p text) = Some text /\
     code (reloaded st') = Some text /\
     savedCode (reloaded st') = Some text /\
     prototype (reloaded st') = prototype st') /\
  (remote (Prototype.id p) text = false ->
     st' = st /\
     code st' = code st /\ savedCode st' = savedCode st /\
     prototype st' = prototype st).
Proof.
  intros Hp Hid. apply nonEmpty_true in Hid.
  unfold persist. rewrite Hp, Hid, orElse_empty.
  split; intros Hr; rewrite Hr; simpl.
  - unfold reloaded, onPrototypeChange; simpl. repeat split.
  - repeat split; assumption.
Qed.

Lemma sameText_iff (a b : option string) : sameText a b = true <-> a = b.
Proof.
  destruct a, b; simpl; try rewrite String.eqb_eq; split; congruence.
Qed.

(** Whatever the answer of the remote store, [persist] on an open
    document hands the text over exactly once. *)
Lemma persisted_persist
    (remote : Remote) (p : Prototype.t) (Hid : Prototype.id p <> "")
    (text : string) (st : State) :
  prototype st = Some p ->
  persisted (snd (persist remote text st)) = [(Prototype.id p, text)].
Proof.
  intros Hp. apply nonEmpty_true in Hid.
  unfold persist. rewrite Hp, Hid, orElse_empty.
  now destruct (remote (Prototype.id p) text).
Qed.

(** The ticker plays no part in what a heartbeat saves. *)
Lemma heartbeat_choice (remote : Remote) (st : State) :
  match dataToSave None (tick st) with
  | Some text => persist remote text (tick st)
  | None => (tick st, [])
  end
  = match code st with
    | Some c =>
        if negb (nonEmpty c) || sameText (Some c) (savedCode st)
        then (tick st, [])
        else persist remote c (tick st)
    | None => (tick st, [])
    end.
Proof.
  unfold dataToSave.
  change (code (tick st)) with (code st).
  change (savedCode (tick st)) with (savedCode st).
  destruct (code st) as [c|]; [|reflexivity].
  now destruct (negb (nonEmpty c) || sameText (Some c) (savedCode st)).
Qed.

(** C3.  For every state of an open document session, with [p] the
    active prototype: a heartbeat hands [code] to the remote store
    exactly when [code] is a non-empty text different from
    [savedCode], and hands over nothing otherwise; an explicit save of
    a non-empty [value] always hands over [value], also when it is
    [savedCode]; an explicit save of the empty text hands over
    nothing. *)
Theorem saveCodeToDb_triggers
    (remote : Remote) (st : State) (p : Prototype.t) :
  prototype st = Some p ->
  Prototype.id p <> "" ->
  (forall text,
      persisted (snd (heartbeat remote st)) = [(Prototype.id p, text)] <->
      code st = Some text /\ text <> "" /\ code st <> savedCode st) /\
  ((forall text,
       ~ (code st = Some text /\ text <> "" /\ code st <> savedCode st)) ->
   snd (heartbeat remote st) = []) /\
  (forall value,
      value <> "" ->
      persisted (snd (saveCodeToDb remote (Some value) st))
      = [(Prototype.id p, value)]) /\
  snd (saveCodeToDb remote (Some "") st) = [].
Proof.
  intros Hp Hid.
  assert (Hp' : prototype (tick st) = Some p) by exact Hp.
  pose proof (fun text => persisted_persist remote p Hid text (tick st) Hp')
    as Hbeat.
  unfold heartbeat, saveCodeToDb. rewrite heartbeat_choice.
  split; [|split; [|split]].
  - intros text. destruct (code st) as [c|] eqn:Hc.
    + destruct (negb (nonEmpty c) || sameText (Some c) (savedCode st)) eqn:G.
      * split; [discriminate|]. intros (E & Hne & Hd).
        injection E as ->. apply orb_true_iff in G. destruct G as [G|G].
        -- apply negb_true_iff, nonEmpty_false in G. contradiction.
        -- apply sameText_iff in G. contradiction.
      * rewrite Hbeat. apply orb_false_iff in G. destruct G as [G1 G2].
        apply negb_false_iff, nonEmpty_true in G1.
        split.
        -- intros E. injection E as ->. repeat split; auto.
           intros E. apply sameText_iff in E. congruence.
        -- intros (E & _). congruence.
    + split; [discriminate | intros (E & _); discriminate].
  - intros Hno. destruct (code st) as [c|] eqn:Hc; [|reflexivity].
    destruct (negb (nonEmpty c) || sameText (Some c) (savedCode st)) eqn:G;
      [reflexivity|].
    exfalso. apply (Hno c). apply orb_false_iff in G. destruct G as [G1 G2].
    apply negb_false_iff, nonEmpty_true in G1.
    repeat split; auto. intros E. apply sameText_iff in E. congruence.
  - intros value Hv. apply nonEmpty_true in Hv.
    unfold dataToSave. rewrite Hv.
    now apply (persisted_persist remote p Hid).
  - reflexivity.
Qed.

Lemma getEditorType_spec_witness : getEditorType "{}" = Editor_code.
Proof.
  apply (proj1 (proj2 (proj2 getEditorType_spec)) "{}" (JObject [])).
  - reflexivity.
  - discriminate.
Defined.

Lemma persist_spec_witness :
  code (fst (persist accepting "print(2)" demoState)) = Some "print(2)" /\
  fst (persist rejecting "print(2)" demoState) = demoState.
Proof.
  assert (Hid : Prototype.id demoPrototype <> "") by discriminate.
  split.
  - exact (proj1 (proj1 (persist_spec accepting demoState demoPrototype
                                      "print(2)" eq_refl Hid) eq_refl)).
  - exact (proj1 (proj2 (persist_spec rejecting demoState demoPrototype
                                      "print(2)" eq_refl Hid) eq_refl)).
Defined.

Lemma saveCodeToDb_triggers_witness :
  persisted (snd (saveCodeToDb rejecting (Some "print(1)") demoState))
  = [("p1", "print(1)")].
Proof.
  assert (Hid : Prototype.id demoPrototype <> "") by discriminate.
  assert (Hv : "print(1)" <> "") by discriminate.
  exact (proj1 (proj2 (proj2 (saveCodeToDb_triggers
                                rejecting demoState demoPrototype
                                eq_refl Hid))) "print(1)" Hv).
Defined.

End PrototypeTabCodeProps.

(* ================================================================== *)
(** * Properties of the catalog                                        *)
(* ================================================================== *)

Module CatalogProps.
Import Js JsFacts DaGenAI_Base Samples.
Local Open Scope string_scope.

Lemma withCustomPayload_visible (m : AddOn) (f : string -> json) :
  sameVisibleFields (withCustomPayload m f) m.
Proof. repeat split. Qed.

Lemma arrayIncludes_In (xs : list string) (x : string) :
  arrayIncludes xs x = true <-> In x xs.
Proof.
  unfold arrayIncludes. rewrite existsb_exists. split.
  - intros [y [Hy E]]. apply String.eqb_eq in E. now subst.
  - intros H. exists x. split; [exact H | apply String.eqb_refl].
Qed.

(** C2, as stated, fails: a marketplace entry that shares the id of the
    built-in and supplies its own payload builder does not keep it.  The
    merged entry carries the builder of the built-in, which is a
    different function. *)
Lemma merged_drops_marketplace_payload :
  id marketCopilot = id (sdvCopilot "") /\
  customPayload marketCopilot = Some messagePayload /\
  mergedBuiltInAddOns [sdvCopilot ""] (Some [marketCopilot])
  = [withCustomPayload marketCopilot promptPayload] /\
  customPayload (withCustomPayload marketCopilot promptPayload)
  <> customPayload marketCopilot.
Proof.
  repeat split. simpl. intros E. injection E as E.
  apply (f_equal (fun f => f "")) in E. discriminate E.
Qed.

(** C2, amended.  For a built-in [b] and the first marketplace entry
    [m] whose id is the id of [b], the merged list has an entry with
    all the visible fields of [m] and with the payload builder of [b]
    (the default builder when [b] has none), whether or not [m]
    supplies a builder of its own. *)
Theorem mergedBuiltInAddOns_match
    (builtIns market : list AddOn) (b m : AddOn) :
  In b builtIns ->
  find (fun marketAddOn => id marketAddOn =? id b) market = Some m ->
  exists e,
    In e (mergedBuiltInAddOns builtIns (Some market)) /\
    id e = id b /\
    sameVisibleFields e m /\
    customPayload e = Some (payloadOf b) /\
    (forall B, customPayload b = Some B -> customPayload e = Some B).
Proof.
  intros Hb Hm. exists (withCustomPayload m (payloadOf b)).
  split; [|split; [|split; [|split]]].
  - unfold mergedBuiltInAddOns. apply in_map_iff. exists b.
    split; [|exact Hb]. rewrite Hm. reflexivity.
  - apply find_some in Hm. destruct Hm as [_ E].
    apply String.eqb_eq in E. exact E.
  - apply withCustomPayload_visible.
  - reflexivity.
  - intros B HB. unfold payloadOf. simpl. now rewrite HB.
Qed.

Lemma mergedBuiltInAddOns_match_witness :
  exists e,
    In e (mergedBuiltInAddOns [sdvCopilot ""] (Some [copilotPro; marketCopilot])) /\
    id e = id (sdvCopilot "") /\
    sameVisibleFields e marketCopilot /\
    customPayload e = Some (payloadOf (sdvCopilot "")) /\
    (forall B, customPayload (sdvCopilot "") = Some B -> customPayload e = Some B).
Proof.
  apply (mergedBuiltInAddOns_match
           [sdvCopilot ""] [copilotPro; marketCopilot]
           (sdvCopilot "") marketCopilot).
  - simpl. left. reflexivity.
  - reflexivity.
Defined.

Lemma merged_entry_id
    (marketplaceAddOns : option (list AddOn)) (b : AddOn) :
  id (match
         match marketplaceAddOns with
         | Some ms => find (fun marketAddOn => id marketAddOn =? id b) ms
         | None => None
         end
       with
       | Some m => withCustomPayload m (payloadOf b)
       | None => withCustomPayload b (payloadOf b)
       end) = id b.
Proof.
  destruct marketplaceAddOns as [ms|]; [|reflexivity].
  destruct (find _ ms) as [m|] eqn:E; [|reflexivity].
  apply find_some in E. destruct E as [_ E]. now apply String.eqb_eq in E.
Qed.

Lemma merged_ids
    (builtIns : list AddOn) (marketplaceAddOns : option (list AddOn)) :
  map id (mergedBuiltInAddOns builtIns marketplaceAddOns) = map id builtIns.
Proof.
  unfold mergedBuiltInAddOns. rewrite map_map. apply map_ext. intros b.
  apply (merged_entry_id marketplaceAddOns b).
Qed.

Lemma merged_names (builtIns market : list AddOn) :
  map name (mergedBuiltInAddOns builtIns (Some market))
  = map (listedName market) builtIns.
Proof.
  unfold mergedBuiltInAddOns, listedName. rewrite map_map. apply map_ext.
  intros b. now destruct (find _ market).
Qed.

Section WithEngine.
Context {engine : Engine}.

(** The filter against any list of entries: an entry of the
    marketplace is dropped exactly when its id is the id of an entry of
    the list, or its lower-cased name is the lower-cased name of such an
    entry, or its lower-cased name contains one of the reserved
    spellings of the built-in product. *)
Lemma filtered_against
    (market entries : list AddOn) (m : AddOn) :
  In m market ->
  (~ In m (filteredMarketplaceAddOns (Some market) entries) <->
   (exists b, In b entries /\ id m = id b) \/
   (exists b, In b entries /\
              toLowerCase (name m) = toLowerCase (name b)) \/
   Contains (toLowerCase (name m)) "sdv copilot" \/
   Contains (toLowerCase (name m)) "sdv-copilot").
Proof.
  intros Hm.
  assert (Hin : In m (filteredMarketplaceAddOns (Some market) entries) <->
                arrayIncludes (map id entries) (id m) = false /\
                arrayIncludes (map (fun a => toLowerCase (name a)) entries)
                              (toLowerCase (name m)) = false /\
                includes (toLowerCase (name m)) "sdv copilot" = false /\
                includes (toLowerCase (name m)) "sdv-copilot" = false).
  { unfold filteredMarketplaceAddOns. rewrite filter_In.
    rewrite !andb_true_iff, !negb_true_iff, orb_false_iff. tauto. }
  assert (Hid : arrayIncludes (map id entries) (id m) = true <->
                exists b, In b entries /\ id m = id b).
  { rewrite arrayIncludes_In, in_map_iff.
    split; intros [b Hb]; exists b; intuition congruence. }
  assert (Hname :
            arrayIncludes (map (fun a => toLowerCase (name a)) entries)
                          (toLowerCase (name m)) = true <->
            exists b, In b entries /\
                      toLowerCase (name m) = toLowerCase (name b)).
  { rewrite arrayIncludes_In, in_map_iff.
    split; intros [b Hb]; exists b; intuition congruence. }
  rewrite Hin, <- Hid, <- Hname, <- !includes_iff.
  destruct (arrayIncludes (map id entries) (id m));
    destruct (arrayIncludes (map (fun a => toLowerCase (name a)) entries)
                            (toLowerCase (name m)));
    destruct (includes (toLowerCase (name m)) "sdv copilot");
    destruct (includes (toLowerCase (name m)) "sdv-copilot");
    intuition congruence.
Qed.

(** C8, amended.  The component filters the marketplace against the
    merged built-in list.  A marketplace entry [m] is missing from the
    visible marketplace list exactly when its id is the id of a
    built-in, or its lower-cased name is the lower-cased name under which
    a built-in is listed after the merge (the name of the first
    marketplace entry with the id of that built-in when there is one, the
    name of the built-in otherwise), or its lower-cased name contains one
    of the reserved spellings of the built-in product.  An entry named
    SDV-Copilot Pro is missing when a built-in named SDV Copilot
    exists. *)
Theorem filteredMarketplaceAddOns_spec
    (builtIns market : list AddOn) (m : AddOn) :
  In m market ->
  (~ In m (filteredMarketplaceAddOns
             (Some market) (mergedBuiltInAddOns builtIns (Some market))) <->
   (exists b, In b builtIns /\ id m = id b) \/
   (exists b, In b builtIns /\
              toLowerCase (name m) = toLowerCase (listedName market b)) \/
   Contains (toLowerCase (name m)) "sdv copilot" \/
   Contains (toLowerCase (name m)) "sdv-copilot") /\
  (name m = "SDV-Copilot Pro" ->
   (exists b, In b builtIns /\ name b = "SDV Copilot") ->
   ~ In m (filteredMarketplaceAddOns
             (Some market) (mergedBuiltInAddOns builtIns (Some market)))).
Proof.
  intros Hm.
  pose proof (filtered_against
                market (mergedBuiltInAddOns builtIns (Some market)) m Hm) as H.
  assert (Hid : (exists e, In e (mergedBuiltInAddOns builtIns (Some market)) /\
                           id m = id e) <->
                exists b, In b builtIns /\ id m = id b).
  { split.
    - intros [e [He E]]. apply (in_map id) in He. rewrite merged_ids in He.
      apply in_map_iff in He. destruct He as [b [Eb Hb]].
      exists b. split; [exact Hb | congruence].
    - intros [b [Hb E]]. apply (in_map id) in Hb.
      rewrite <- (merged_ids builtIns (Some market)) in Hb.
      apply in_map_iff in Hb. destruct Hb as [e [Ee He]].
      exists e. split; [exact He | congruence]. }
  assert (Hname :
            (exists e, In e (mergedBuiltInAddOns builtIns (Some market)) /\
                       toLowerCase (name m) = toLowerCase (name e)) <->
            exists b, In b builtIns /\
                      toLowerCase (name m) = toLowerCase (listedName market b)).
  { split.
    - intros [e [He E]]. apply (in_map name) in He. rewrite merged_names in He.
      apply in_map_iff in He. destruct He as [b [Eb Hb]].
      exists b. split; [exact Hb | congruence].
    - intros [b [Hb E]]. apply (in_map (listedName market)) in Hb.
      rewrite <- merged_names in Hb.
      apply in_map_iff in Hb. destruct Hb as [e [Ee He]].
      exists e. split; [exact He | congruence]. }
  rewrite Hid, Hname in H. split; [exact H|].
  intros Hn _. apply H. right. right. right.
  rewrite Hn, (toLowerCase_ascii "SDV-Copilot Pro" eq_refl).
  apply includes_iff. reflexivity.
Qed.

(** Whatever the engine, the entry named assistant is hidden once the
    marketplace holds an entry named Assistant with the id of the
    built-in. *)
Lemma namesake_is_hidden :
  ~ In namesake
       (filteredMarketplaceAddOns
          (Some [assistant; namesake])
          (mergedBuiltInAddOns (builtInAddOns GenAI_Python)
                               (Some [assistant; namesake]))).
Proof.
  apply filtered_against; [simpl; auto|]. right. left.
  exists (withCustomPayload assistant promptPayload).
  split; [simpl; auto|]. cbn [name withCustomPayload namesake assistant].
  now rewrite (toLowerCase_ascii "assistant" eq_refl),
              (toLowerCase_ascii "Assistant" eq_refl).
Qed.

End WithEngine.

#[local] Existing Instance referenceEngine.

(** C8, as stated, fails: the names the filter compares with are those
    of the merged list, not those of the built-ins.  With the built-in
    of the component and a marketplace entry that carries its id under
    the name Assistant, the marketplace entry named assistant is hidden,
    although its id is the id of no built-in, its lower-cased name is
    the lower-cased name of no built-in, and it contains none of the
    reserved spellings. *)
Lemma namesake_of_merged_entry_is_hidden :
  In namesake [assistant; namesake] /\
  ~ In namesake
       (filteredMarketplaceAddOns
          (Some [assistant; namesake])
          (mergedBuiltInAddOns (builtInAddOns GenAI_Python)
                               (Some [assistant; namesake]))) /\
  (forall b, In b (builtInAddOns GenAI_Python) ->
             id namesake <> id b /\
             toLowerCase (name namesake) <> toLowerCase (name b)) /\
  ~ Contains (toLowerCase (name namesake)) "sdv copilot" /\
  ~ Contains (toLowerCase (name namesake)) "sdv-copilot".
Proof.
  split; [simpl; auto|]. split; [vm_compute; tauto|]. split.
  - intros b [<- | []]. split; discriminate.
  - rewrite <- !includes_iff. split; discriminate.
Qed.

Lemma filteredMarketplaceAddOns_spec_witness :
  ~ In copilotPro
       (filteredMarketplaceAddOns
          (Some [marketCopilot; copilotPro])
          (mergedBuiltInAddOns [sdvCopilot ""]
                               (Some [marketCopilot; copilotPro]))).
Proof.
  apply (filteredMarketplaceAddOns_spec
           [sdvCopilot ""] [marketCopilot; copilotPro] copilotPro).
  - simpl. right. left. reflexivity.
  - reflexivity.
  - exists (sdvCopilot ""). split; [simpl; left|]; reflexivity.
Defined.

End CatalogProps.

(* ================================================================== *)
(** * Properties of the user-defined generators                        *)
(* ================================================================== *)

Module UserCatalogProps.
Import Js JsFacts DaGenAI_Base Samples.
Local Open Scope string_scope.

Lemma mapDraws_In (draws : nat -> string) (a : Asset) (l : list Asset) :
  In a l ->
  forall k, exists i, In (pythonAIAddon (draws i) a) (mapDraws draws k l).
Proof.
  induction l as [|x l IH]; simpl; [contradiction|].
  intros [-> | H] k.
  - exists k. now left.
  - destruct (IH H (S k)) as [i Hi]. exists i. now right.
Qed.

Lemma mapDraws_length (draws : nat -> string) (l : list Asset) :
  forall k, List.length (mapDraws draws k l) = List.length l.
Proof.
  induction l as [|x l IH]; simpl; intros k; [reflexivity|].
  now rewrite IH.
Qed.

(** C6, as stated, fails: the descriptor built from an unparseable blob
    holds empty request and response field names, not [prompt] and
    [data]. *)
Lemma broken_blob_leaves_names_empty :
  JSON_parse (asset_data brokenAsset) = None /\
  exists d,
    pythonAIAddon "0.3lllllllllm" brokenAsset = Some d /\
    requestField d = Some "" /\ requestField d <> Some "prompt" /\
    responseField d = Some "" /\ responseField d <> Some "data".
Proof.
  split; [reflexivity|]. eexists. split; [reflexivity|].
  repeat split; discriminate.
Qed.

(** C6, amended.  For every asset of type GENAI-PYTHON whose blob does
    not parse, the catalog built for GenAI_Python still has a
    descriptor for it, carrying its name in its id: building the catalog
    does not abort.  In that descriptor the method has its default
    value POST, while the request field name and the response field
    name are the empty string. *)
Theorem unparseable_asset_descriptor
    (assets : list Asset) (asset : Asset) (draws : nat -> string)
    (st : UserCatalog) :
  In asset assets ->
  asset_type asset = "GENAI-PYTHON" ->
  JSON_parse (asset_data asset) = None ->
  exists d i,
    In (Some d)
       (userAIAddons (loadUserAIAddons GenAI_Python (Some assets) draws st)) /\
    id d = asset_name asset ++ "-" ++ randomSuffix (draws i) /\
    method d = Some (JString "POST") /\
    requestField d = Some "" /\
    responseField d = Some "".
Proof.
  intros Hin Hty Hbad.
  assert (Hf : In asset
                  (filter (fun a => asset_type a =? "GENAI-PYTHON") assets)).
  { apply filter_In. split; [exact Hin|]. rewrite Hty. reflexivity. }
  destruct (mapDraws_In draws asset _ Hf 0) as [i Hi].
  unfold pythonAIAddon, readProtocol in Hi. rewrite Hbad in Hi.
  eexists. exists i. split; [exact Hi|]. repeat split.
Qed.

Lemma unparseable_asset_descriptor_witness :
  exists (d : AddOn) (i : nat),
    In (Some d)
       (userAIAddons
          (loadUserAIAddons GenAI_Python (Some [brokenAsset])
                            (fun _ => "0.3lllllllllm") emptyCatalog)) /\
    id d = asset_name brokenAsset ++ "-" ++ randomSuffix "0.3lllllllllm" /\
    method d = Some (JString "POST") /\
    requestField d = Some "" /\
    responseField d = Some "".
Proof.
  apply (unparseable_asset_descriptor
           [brokenAsset] brokenAsset (fun _ => "0.3lllllllllm") emptyCatalog).
  - simpl. left. reflexivity.
  - reflexivity.
  - reflexivity.
Defined.

(** C10, as stated, fails: two loads with different draws, here 0.3 and
    0.3 + 1e-12 in their base-36 renderings, give an asset the same id,
    so that an id remembered from the first load is found again in the
    second; and the draw 0.5, written 0.i in base 36, gives a suffix of
    one character. *)
Lemma different_draws_same_id :
  "0.asssssssssp" <> "0.assssssvmct" /\
  option_map id (pythonAIAddon "0.asssssssssp" brokenAsset)
  = option_map id (pythonAIAddon "0.assssssvmct" brokenAsset) /\
  option_map id (pythonAIAddon "0.asssssssssp" brokenAsset) = Some "mine-asssss" /\
  option_map id (pythonAIAddon "0.i" brokenAsset) = Some "mine-i".
Proof.
  repeat split. discriminate.
Qed.

(** C10, amended.  The id of a user-defined descriptor is the asset
    name, a dash, and the characters at positions 2 to 7 of the base-36
    rendering of a number drawn for it at that load, at most six of
    them.  So the ids are not stable: for some asset two evaluations
    with different draws give different ids.  Two evaluations give an
    asset the same id exactly when the draws agree on those
    characters. *)
Theorem user_ids_follow_the_draw :
  (forall draw asset d,
      pythonAIAddon draw asset = Some d ->
      id d = asset_name asset ++ "-" ++ randomSuffix draw /\
      (String.length (randomSuffix draw) <= 6)%nat) /\
  (exists asset draw1 draw2 d1 d2,
      draw1 <> draw2 /\
      pythonAIAddon draw1 asset = Some d1 /\
      pythonAIAddon draw2 asset = Some d2 /\
      id d1 <> id d2) /\
  (forall draw1 draw2 asset d1 d2,
      pythonAIAddon draw1 asset = Some d1 ->
      pythonAIAddon draw2 asset = Some d2 ->
      (id d1 = id d2 <-> randomSuffix draw1 = randomSuffix draw2)).
Proof.
  assert (Hid : forall draw asset d,
             pythonAIAddon draw asset = Some d ->
             id d = asset_name asset ++ "-" ++ randomSuffix draw).
  { intros draw asset d. unfold pythonAIAddon.
    destruct (readProtocol (asset_data asset)); [|discriminate].
    intros E. injection E as <-. reflexivity. }
  split; [|split].
  - intros draw asset d H. split; [now apply Hid|].
    unfold randomSuffix, substring. apply substring_length_le.
  - exists brokenAsset, "0.asssssssssp", "0.p777777777".
    eexists. eexists. repeat split. discriminate. discriminate.
  - intros draw1 draw2 asset d1 d2 H1 H2.
    rewrite (Hid _ _ _ H1), (Hid _ _ _ H2). split.
    + intros E. apply append_cancel in E. simpl in E. congruence.
    + now intros ->.
Qed.

Lemma user_ids_follow_the_draw_witness :
  id brokenDescriptor = asset_name brokenAsset ++ "-" ++ randomSuffix "0.i" /\
  (String.length (randomSuffix "0.i") <= 6)%nat.
Proof.
  exact (proj1 user_ids_follow_the_draw "0.i" brokenAsset brokenDescriptor
               eq_refl).
Defined.

End UserCatalogProps.

(* ================================================================== *)
(** * Properties of the dispatcher                                     *)
(* ================================================================== *)

Module DispatcherProps.
Import Js JsFacts Effect DaGenAI_Base Samples.
Local Open Scope string_scope.

Section WithEngine.
Context {engine : Engine}.

Lemma trace_emit_bind {A} (ev : Event)
    (f : unit -> M (Event := Event) (Exn := Exn) A) :
  trace (bind (emit ev) f) = ev :: trace (f tt).
Proof.
  unfold trace, bind, emit. now destruct (f tt).
Qed.

(** C9.  For every generate call with a selected descriptor, in every
    world, the first event of the run is the empty string handed to
    [onCodeGenerated]: it precedes the timer, the configuration
    lookup and every request, so it is the first value emitted; and
    when the rest of the run emits nothing, the empty string is all
    the consumer ever receives. *)
Theorem handleGenerate_clears_first
    (w : World) (a : AddOn) (prompt : string) :
  exists rest,
    trace (handleGenerate w (Some a) prompt)
    = OnCodeGenerated (JString "") :: rest /\
    generated (trace (handleGenerate w (Some a) prompt))
    = JString "" :: generated rest /\
    (generated rest = [] ->
     generated (trace (handleGenerate w (Some a) prompt)) = [JString ""]).
Proof.
  unfold handleGenerate. rewrite trace_emit_bind.
  set (rest := trace _). exists rest.
  split; [reflexivity|]. split; [reflexivity|].
  intros H. change (JString "" :: generated rest = [JString ""]).
  now rewrite H.
Qed.

(** C4, amended.  For every generate call on a descriptor that is not
    a mock and has an empty endpoint or is named SDV Copilot, when the
    fallback endpoint resolves to the empty string: the configuration
    is looked up, no request is issued, the not-configured error is
    raised and caught inside the call, where it is logged to the
    console; nothing but the initial empty string is emitted as code,
    and the finished callback fires once. *)
Theorem unconfigured_fallback
    (w : World) (a : AddOn) (prompt : string) :
  isMock a <> Some true ->
  endpointUrl a = "" \/ name a = "SDV Copilot" ->
  getConfig w "GENAI_SDV_APP_ENDPOINT" "site" "" = inr "" ->
  trace (handleGenerate w (Some a) prompt)
  = idleRun [GetConfig "GENAI_SDV_APP_ENDPOINT" "site" "";
             ConsoleLog (Error notConfigured)] /\
  requests (trace (handleGenerate w (Some a) prompt)) = [] /\
  generated (trace (handleGenerate w (Some a) prompt)) = [JString ""] /\
  finishedCount (trace (handleGenerate w (Some a) prompt)) = 1%nat.
Proof.
  intros Hmock Hsel Hcfg.
  assert (Hbranch :
            nonEmpty (endpointUrl a) && negb (name a =? "SDV Copilot") = false).
  { destruct Hsel as [-> | ->]; [reflexivity|].
    rewrite String.eqb_refl. apply andb_false_r. }
  assert (E : trace (handleGenerate w (Some a) prompt)
              = idleRun [GetConfig "GENAI_SDV_APP_ENDPOINT" "site" "";
                         ConsoleLog (Error notConfigured)]).
  { unfold handleGenerate. rewrite Hbranch.
    unfold dispatchFallback. rewrite Hcfg.
    destruct (isMock a) as [[|]|]; [congruence | reflexivity | reflexivity]. }
  rewrite E. repeat split.
Qed.

(** C7, amended.  For every generate call that reaches the dispatch by
    method, on a descriptor that is not a mock, has a non-empty
    endpoint and is not named SDV Copilot, and whose method is missing
    or [null] or is a string that, lower-cased and trimmed, is neither
    get nor post: the run is the prologue followed at once by the
    [finally]; no request is issued, nothing but the initial empty
    string is emitted as code, no notification is shown, and the
    finished callback fires exactly once. *)
Theorem unsupported_method_is_silent
    (w : World) (a : AddOn) (prompt : string) :
  isMock a <> Some true ->
  endpointUrl a <> "" ->
  name a <> "SDV Copilot" ->
  unsupportedMethod a ->
  trace (handleGenerate w (Some a) prompt) = idleRun [] /\
  requests (trace (handleGenerate w (Some a) prompt)) = [] /\
  generated (trace (handleGenerate w (Some a) prompt)) = [JString ""] /\
  toasts (trace (handleGenerate w (Some a) prompt)) = [] /\
  finishedCount (trace (handleGenerate w (Some a) prompt)) = 1%nat.
Proof.
  intros Hmock Hurl Hname [Htext Hm].
  assert (Hbranch :
            nonEmpty (endpointUrl a) && negb (name a =? "SDV Copilot") = true).
  { apply andb_true_iff. split.
    - now apply nonEmpty_true.
    - apply negb_true_iff. now apply String.eqb_neq. }
  assert (Hd : dispatchByMethod w a prompt = ret tt).
  { unfold dispatchByMethod, textMethod in *.
    destruct (method a) as [[| | |m| | |]|]; try discriminate Htext;
      try reflexivity.
    destruct (Hm m eq_refl) as [Hg Hp].
    apply String.eqb_neq in Hg, Hp. now rewrite Hg, Hp. }
  assert (E : trace (handleGenerate w (Some a) prompt) = idleRun []).
  { unfold handleGenerate. rewrite Hbranch, Hd.
    destruct (isMock a) as [[|]|]; [congruence | reflexivity | reflexivity]. }
  rewrite E. repeat split.
Qed.

(** Whatever the engine, the world and the prompt, a run on the
    descriptor whose method is the number 5 is the prologue, the report
    of the outer [catch] and the [finally]. *)
Lemma numeric_method_is_reported (w : World) (prompt : string) :
  trace (handleGenerate w (Some numericDescriptor) prompt)
  = idleRun [ConsoleError "Error generating AI content:" TypeError;
             ToastError (JString "Error generating AI content")].
Proof. reflexivity. Qed.

End WithEngine.

#[local] Existing Instance referenceEngine.

(** C4, as stated, fails: with the built-in SDV Copilot selected and
    no fallback endpoint configured, no request is issued, but the
    error is only written to the console; no notification reaches the
    user. *)
Lemma not_configured_is_not_shown :
  endpointUrl (sdvCopilot "") = "" /\
  getConfig unconfigured "GENAI_SDV_APP_ENDPOINT" "site" "" = inr "" /\
  requests (trace (handleGenerate unconfigured (Some (sdvCopilot "")) "hi")) = [] /\
  toasts (trace (handleGenerate unconfigured (Some (sdvCopilot "")) "hi")) = [] /\
  In (ConsoleLog (Error notConfigured))
     (trace (handleGenerate unconfigured (Some (sdvCopilot "")) "hi")).
Proof.
  repeat split. vm_compute. tauto.
Qed.

Lemma unconfigured_fallback_witness :
  trace (handleGenerate unconfigured (Some (sdvCopilot "")) "hi")
  = idleRun [GetConfig "GENAI_SDV_APP_ENDPOINT" "site" "";
             ConsoleLog (Error notConfigured)].
Proof.
  apply (unconfigured_fallback unconfigured (sdvCopilot "") "hi").
  - discriminate.
  - left. reflexivity.
  - reflexivity.
Defined.

(** C7, as stated, fails: a method need not be a string.  The asset
    blob [{"url":"https://five.example","method":5}] gives a descriptor
    that is not a mock, has an endpoint and whose method 5 is neither
    GET nor POST; a generate call on it throws at the head of the
    [switch], and the outer [catch] writes the error to the console and
    shows the notification Error generating AI content. *)
Lemma method_that_is_no_string_is_reported :
  pythonAIAddon "0.i" numericAsset = Some numericDescriptor /\
  isMock numericDescriptor <> Some true /\
  endpointUrl numericDescriptor <> "" /\
  name numericDescriptor <> "SDV Copilot" /\
  method numericDescriptor = Some (JNumber 5 0) /\
  trace (handleGenerate unconfigured (Some numericDescriptor) "hi")
  = idleRun [ConsoleError "Error generating AI content:" TypeError;
             ToastError (JString "Error generating AI content")] /\
  toasts (trace (handleGenerate unconfigured (Some numericDescriptor) "hi"))
  = [JString "Error generating AI content"].
Proof.
  split; [reflexivity|]. split; [discriminate|]. split; [discriminate|].
  split; [discriminate|]. repeat split.
Qed.

Lemma unsupported_method_is_silent_witness :
  trace (handleGenerate unconfigured (Some (putAddOn None)) "hi") = idleRun [].
Proof.
  apply (unsupported_method_is_silent unconfigured (putAddOn None) "hi").
  - discriminate.
  - discriminate.
  - discriminate.
  - split; [reflexivity|]. intros m E. injection E as <-. split; discriminate.
Defined.

End DispatcherProps.

(* ================================================================== *)
(** * Further checks                                                   *)
(* ================================================================== *)

Module Checks.
Import Js JsFacts Effect DaGenAI_Base PrototypeTabCode Samples.
Local Open Scope string_scope.

(** Without a selected descriptor nothing happens at all. *)
Lemma handleGenerate_unselected
    {engine : Engine} (w : World) (prompt : string) :
  trace (handleGenerate w None prompt) = [].
Proof. reflexivity. Qed.

#[local] Existing Instance referenceEngine.

(** White space outside the ASCII range is trimmed as well: a
    no-break space, U+00A0, after the method. *)
Example trim_no_break_space :
  trim (String (ascii_of_nat 194) (String (ascii_of_nat 160) " get"
        ++ String (ascii_of_nat 226) (String (ascii_of_nat 128)
             (String (ascii_of_nat 168) EmptyString)))) = "get".
Proof. reflexivity. Qed.

Example parse_nested :
  JSON_parse " [1, -2.50e3, true, {}, [[]], null ] "
  = Some (JArray [JNumber 1 0; JNumber (-250) 1; JBool true; JObject [];
                  JArray [JArray []]; JNull]).
Proof. reflexivity. Qed.

Example parse_refuses :
  map JSON_parse ["[1,]"; "[1 2]"; "01"; "1."; "-"; "nul"; "[1]x"; "{}}"; "+1"]
  = [None; None; None; None; None; None; None; None; None].
Proof. reflexivity. Qed.

Example tiny_number_is_falsy :
  truthy (JNumber 1 (-400)) = false /\ truthy (JNumber 5 (-324)) = true.
Proof. split; vm_compute; reflexivity. Qed.

(** A GET descriptor sends the prompt in the query string and hands
    the response field over. *)
Example dispatcher_get :
  trace (handleGenerate answering (Some getAddOn) "hi")
  = idleRun [AxiosGet "https://e?q=hi"
                      [("Authorization", "token");
                       ("Content-Type", "application/json")];
             OnCodeGenerated (JString "CODE")].
Proof. reflexivity. Qed.

(** A mock descriptor is answered after the timer, without a request. *)
Example dispatcher_mock :
  trace (handleGenerate answering (Some (putAddOn (Some true))) "hi")
  = idleRun [SetTimeout 1000; OnCodeGenerated (JString "print('hello')")].
Proof. reflexivity. Qed.

(** A request that fails is logged, not shown. *)
Example dispatcher_post_failure :
  toasts (trace (handleGenerate answering
                   (Some (sdvCopilot "https://configured")) "hi")) = [] /\
  generated (trace (handleGenerate answering
                      (Some (sdvCopilot "https://configured")) "hi"))
  = [JString ""].
Proof. split; reflexivity. Qed.

(** Two heartbeats in a row, with a remote store that accepts every
    write and no edit in between: the second one writes nothing. *)
Lemma heartbeat_eq (remote : Remote) (st : State) :
  heartbeat remote st
  = match code st with
    | Some c =>
        if negb (nonEmpty c) || sameText (Some c) (savedCode st)
        then (tick st, [])
        else persist remote c (tick st)
    | None => (tick st, [])
    end.
Proof.
  unfold heartbeat, saveCodeToDb.
  apply PrototypeTabCodeProps.heartbeat_choice.
Qed.

Lemma heartbeat_twice (st : State) :
  persisted (snd (heartbeat accepting (fst (heartbeat accepting st)))) = [].
Proof.
  rewrite (heartbeat_eq accepting st).
  destruct (code st) as [c|] eqn:Hc.
  - destruct (negb (nonEmpty c) || sameText (Some c) (savedCode st)) eqn:G.
    + cbn [fst]. rewrite heartbeat_eq.
      change (code (tick st)) with (code st).
      change (savedCode (tick st)) with (savedCode st).
      now rewrite Hc, G.
    + unfold persist. change (prototype (tick st)) with (prototype st).
      destruct (prototype st) as [p|] eqn:Hp.
      * destruct (nonEmpty (Prototype.id p)) eqn:Hid.
        -- unfold accepting at 2. cbn [fst]. rewrite heartbeat_eq.
           cbn [code savedCode setActivePrototype setCodes sameText].
           now rewrite String.eqb_refl, orb_true_r.
        -- cbn [fst]. rewrite heartbeat_eq.
           change (code (tick st)) with (code st).
           change (savedCode (tick st)) with (savedCode st).
           rewrite Hc, G. unfold persist.
           change (prototype (tick (tick st))) with (prototype st).
           now rewrite Hp, Hid.
      * cbn [fst]. rewrite heartbeat_eq.
        change (code (tick st)) with (code st).
        change (savedCode (tick st)) with (savedCode st).
        rewrite Hc, G. unfold persist.
        change (prototype (tick (tick st))) with (prototype st).
        now rewrite Hp.
  - cbn [fst]. rewrite heartbeat_eq.
    change (code (tick st)) with (code st). now rewrite Hc.
Qed.

(** An explicit save of the saved text still reaches the remote
    store. *)
Example explicit_save_of_saved_text :
  persisted (snd (saveCodeToDb accepting (Some "print(1)") demoState))
  = [("p1", "print(1)")].
Proof. reflexivity. Qed.

End Checks.

(* ================================================================== *)
(** * The dispatcher, branch by branch                                 *)
(* ================================================================== *)

Module DispatcherRuns.
Import Js JsFacts Effect DaGenAI_Base Selector Samples MoreSamples.
Local Open Scope string_scope.

Section WithEngine.
Context {engine : Engine}.

(** A [try] whose [catch] only logs always completes. *)
Lemma logged_completes
    (m : M (Event := Event) (Exn := Exn) unit) :
  exists t, tryCatch m (fun err => emit (ConsoleLog err)) = (t, inr tt).
Proof.
  destruct m as [t [e | []]]; simpl; eauto.
Qed.

(** The dispatch by method completes on a method that is a string or
    is missing; on any other it throws before anything has happened. *)
Lemma byMethod_outcome (w : World) (a : AddOn) (prompt : string) :
  exists t,
    dispatchByMethod w a prompt
    = (t, if textMethod a then inr tt else inl TypeError) /\
    (textMethod a = false -> t = []).
Proof.
  unfold dispatchByMethod, textMethod.
  destruct (method a) as [[| | |m| | |]|];
    try (exists []; split; reflexivity).
  cbv zeta. destruct (trim (toLowerCase m) =? "get").
  - match goal with
    | |- context [tryCatch ?c _] => destruct (logged_completes c) as [t Ht]
    end.
    exists t. split; [exact Ht | discriminate].
  - destruct (trim (toLowerCase m) =? "post").
    + match goal with
      | |- context [tryCatch ?c _] => destruct (logged_completes c) as [t Ht]
      end.
      exists t. split; [exact Ht | discriminate].
    + exists []. split; [reflexivity | discriminate].
Qed.

Lemma attempt_outcome (w : World) (a : AddOn) (prompt : string) :
  exists t,
    attempt w a prompt
    = (t, if throwsAtSwitch a then inl TypeError else inr tt) /\
    (throwsAtSwitch a = true -> t = []).
Proof.
  unfold attempt, throwsAtSwitch.
  assert (Hf : exists t, dispatchFallback w a prompt = (t, inr tt))
    by apply logged_completes.
  destruct Hf as [tf Hf].
  destruct (byMethod_outcome w a prompt) as [tm [Hm Hnil]].
  assert (Hrest :
            exists t,
              (if nonEmpty (endpointUrl a) && negb (name a =? "SDV Copilot")
               then dispatchByMethod w a prompt
               else dispatchFallback w a prompt)
              = (t, if nonEmpty (endpointUrl a)
                       && negb (name a =? "SDV Copilot")
                       && negb (textMethod a)
                    then inl TypeError else inr tt) /\
              (nonEmpty (endpointUrl a) && negb (name a =? "SDV Copilot")
               && negb (textMethod a) = true -> t = [])).
  { destruct (nonEmpty (endpointUrl a) && negb (name a =? "SDV Copilot")).
    - exists tm. rewrite Hm. cbn [andb].
      destruct (textMethod a); cbn [negb]; split; auto; discriminate.
    - exists tf. rewrite Hf. split; [reflexivity | discriminate]. }
  destruct (isMock a) as [[|]|]; try exact Hrest.
  eexists. split; [reflexivity | discriminate].
Qed.

(** Every run with a selected descriptor is the prologue, the
    dispatch, the report of the outer [catch] when the head of the
    [switch] threw, and the [finally]. *)
Lemma handleGenerate_run (w : World) (a : AddOn) (prompt : string) :
  handleGenerate w (Some a) prompt
  = (idleRun (trace (attempt w a prompt)
              ++ if throwsAtSwitch a then failureReport else []),
     inr tt).
Proof.
  destruct (attempt_outcome w a prompt) as [t [Ht Hnil]].
  unfold handleGenerate. fold (attempt w a prompt). rewrite Ht.
  cbn [trace fst]. destruct (throwsAtSwitch a).
  - rewrite (Hnil eq_refl). reflexivity.
  - rewrite app_nil_r. reflexivity.
Qed.

Lemma no_throw_mock (a : AddOn) :
  isMock a = Some true -> throwsAtSwitch a = false.
Proof. unfold throwsAtSwitch. now intros ->. Qed.

Lemma no_throw_fallback (a : AddOn) :
  endpointUrl a = "" \/ name a = "SDV Copilot" -> throwsAtSwitch a = false.
Proof.
  unfold throwsAtSwitch. intros Hsel.
  assert (nonEmpty (endpointUrl a) && negb (name a =? "SDV Copilot") = false)
    as ->.
  { destruct Hsel as [-> | ->]; [reflexivity|].
    rewrite String.eqb_refl. apply andb_false_r. }
  now destruct (isMock a) as [[|]|].
Qed.

Lemma no_throw_text (a : AddOn) :
  textMethod a = true -> throwsAtSwitch a = false.
Proof.
  unfold throwsAtSwitch. intros ->. cbn [negb]. rewrite andb_false_r.
  now destruct (isMock a) as [[|]|].
Qed.

(** A run whose [switch] does not throw. *)
Lemma run_plain (w : World) (a : AddOn) (prompt : string) :
  throwsAtSwitch a = false ->
  handleGenerate w (Some a) prompt
  = (idleRun (trace (attempt w a prompt)), inr tt).
Proof.
  intros H. rewrite handleGenerate_run, H. now rewrite app_nil_r.
Qed.

Lemma emitResponse_eq (w : World) (a : AddOn) (data : json) :
  emitResponse w a data = emit (OnCodeGenerated (responseText w a data)).
Proof.
  unfold emitResponse, responseText, incorrectFormat.
  destruct (if truthy data
            then getProperty data (optOr (responseField a) "data")
            else None) as [v|]; [|reflexivity].
  now destruct (truthy v).
Qed.

Lemma byMethod_trace (w : World) (a : AddOn) (prompt : string) :
  trace (dispatchByMethod w a prompt) = ownEvents w a prompt.
Proof.
  unfold dispatchByMethod, ownEvents.
  destruct (method a) as [[| | |m| | |]|]; try reflexivity.
  cbv zeta. destruct (trim (toLowerCase m) =? "get").
  - unfold getEvents, getTarget.
    destruct (encodeURIComponent w prompt) as [e|encoded]; [reflexivity|].
    unfold result, bind, tryCatch, call. cbn [app].
    destruct (axios_get w _ _) as [e|data]; [reflexivity|].
    rewrite emitResponse_eq. reflexivity.
  - destruct (trim (toLowerCase m) =? "post"); [|reflexivity].
    unfold postEvents, postPayload.
    unfold bind, tryCatch, call.
    destruct (axios_post w _ _ _) as [e|data]; [reflexivity|].
    rewrite emitResponse_eq. reflexivity.
Qed.

Lemma byMethod_get (w : World) (a : AddOn) (prompt m : string) :
  method a = Some (JString m) ->
  trim (toLowerCase m) = "get" ->
  trace (dispatchByMethod w a prompt) = getEvents w a prompt.
Proof.
  intros Hm Hv. rewrite byMethod_trace. unfold ownEvents.
  now rewrite Hm, Hv.
Qed.

Lemma byMethod_post (w : World) (a : AddOn) (prompt m : string) :
  method a = Some (JString m) ->
  trim (toLowerCase m) = "post" ->
  trace (dispatchByMethod w a prompt) = postEvents w a prompt.
Proof.
  intros Hm Hv. rewrite byMethod_trace. unfold ownEvents.
  now rewrite Hm, Hv.
Qed.

Lemma ownEvents_cases (w : World) (a : AddOn) (prompt : string) :
  ownEvents w a prompt = getEvents w a prompt \/
  ownEvents w a prompt = postEvents w a prompt \/
  ownEvents w a prompt = [].
Proof.
  unfold ownEvents. destruct (method a) as [[| | |m| | |]|]; auto.
  cbv zeta. destruct (trim (toLowerCase m) =? "get"); auto.
  destruct (trim (toLowerCase m) =? "post"); auto.
Qed.

Lemma fallback_run (w : World) (a : AddOn) (prompt : string) :
  trace (dispatchFallback w a prompt)
  = GetConfig "GENAI_SDV_APP_ENDPOINT" "site" "" ::
    match getConfig w "GENAI_SDV_APP_ENDPOINT" "site" "" with
    | inl err => [ConsoleLog err]
    | inr configured =>
        if nonEmpty configured then
          [AxiosPost configured (fallbackBody a prompt) jsonHeaders;
           match axios_post w configured (fallbackBody a prompt) jsonHeaders with
           | inl err => ConsoleLog err
           | inr data => fallbackEvent w data
           end]
        else [ConsoleLog (Error notConfigured)]
    end.
Proof.
  unfold dispatchFallback, fallbackBody, jsonHeaders.
  unfold call, bind, tryCatch, trace, emit, throw.
  destruct (getConfig w "GENAI_SDV_APP_ENDPOINT" "site" "") as [e|configured];
    [reflexivity|].
  destruct (nonEmpty configured); [|reflexivity].
  destruct (axios_post w configured _ _) as [e|data]; [reflexivity|].
  unfold fallbackText, fallbackEvent, firstTruthy, ret, throw.
  destruct data;
    repeat match goal with
           | |- context [match member ?d ?k with _ => _ end] =>
               destruct (member d k)
           | |- context [if truthy ?v then _ else _] => destruct (truthy v)
           end; reflexivity.
Qed.

Lemma attempt_mock (w : World) (a : AddOn) (prompt : string) :
  isMock a = Some true ->
  trace (attempt w a prompt)
  = [SetTimeout 1000; OnCodeGenerated (JString (default_generated_code w))].
Proof. unfold attempt. now intros ->. Qed.

Lemma attempt_own (w : World) (a : AddOn) (prompt : string) :
  isMock a <> Some true ->
  endpointUrl a <> "" ->
  name a <> "SDV Copilot" ->
  attempt w a prompt = dispatchByMethod w a prompt.
Proof.
  intros Hmock Hurl Hname. unfold attempt.
  apply nonEmpty_true in Hurl. apply String.eqb_neq in Hname.
  rewrite Hurl, Hname. now destruct (isMock a) as [[|]|].
Qed.

Lemma attempt_fallback (w : World) (a : AddOn) (prompt : string) :
  isMock a <> Some true ->
  endpointUrl a = "" \/ name a = "SDV Copilot" ->
  attempt w a prompt = dispatchFallback w a prompt.
Proof.
  intros Hmock Hsel. unfold attempt.
  assert (nonEmpty (endpointUrl a) && negb (name a =? "SDV Copilot") = false)
    as ->.
  { destruct Hsel as [-> | ->]; [reflexivity|].
    rewrite String.eqb_refl. apply andb_false_r. }
  now destruct (isMock a) as [[|]|].
Qed.

Lemma fallbackEvent_kind (w : World) (data : json) :
  isFrameEvent (fallbackEvent w data) = false /\
  isRequest (fallbackEvent w data) = false /\
  isConfigLookup (fallbackEvent w data) = false.
Proof.
  unfold fallbackEvent.
  destruct data; try (repeat split; reflexivity);
    destruct (firstTruthy _ _); repeat split; reflexivity.
Qed.

(** The events of a dispatch: none of the frame, at most one request,
    at most one configuration lookup, at most one value handed over. *)
Lemma attempt_events (w : World) (a : AddOn) (prompt : string) :
  forallb (fun ev => negb (isFrameEvent ev)) (trace (attempt w a prompt)) = true /\
  (List.length (requests (trace (attempt w a prompt))) <= 1)%nat /\
  (List.length (filter isConfigLookup (trace (attempt w a prompt))) <= 1)%nat /\
  (List.length (generated (trace (attempt w a prompt))) <= 1)%nat.
Proof.
  assert (Hm : forall t : list Event,
             t = trace (dispatchByMethod w a prompt) ->
             forallb (fun ev => negb (isFrameEvent ev)) t = true /\
             (List.length (requests t) <= 1)%nat /\
             (List.length (filter isConfigLookup t) <= 1)%nat /\
             (List.length (generated t) <= 1)%nat).
  { intros t ->. rewrite byMethod_trace.
    destruct (ownEvents_cases w a prompt) as [-> | [-> | ->]].
    - unfold getEvents.
      destruct (encodeURIComponent w prompt); [simpl; repeat split; lia|].
      destruct (axios_get w _ _); simpl; repeat split; lia.
    - unfold postEvents.
      destruct (axios_post w _ _ _); simpl; repeat split; lia.
    - simpl; repeat split; lia. }
  assert (Hf : forall t : list Event,
             t = trace (dispatchFallback w a prompt) ->
             forallb (fun ev => negb (isFrameEvent ev)) t = true /\
             (List.length (requests t) <= 1)%nat /\
             (List.length (filter isConfigLookup t) <= 1)%nat /\
             (List.length (generated t) <= 1)%nat).
  { intros t ->. rewrite fallback_run.
    destruct (getConfig w _ _ _) as [e|c]; [simpl; repeat split; lia|].
    destruct (nonEmpty c); [|simpl; repeat split; lia].
    destruct (axios_post w _ _ _) as [e|data]; [simpl; repeat split; lia|].
    destruct (fallbackEvent_kind w data) as (H1 & H2 & H3).
    unfold requests. simpl. rewrite H1, H2, H3. simpl.
    repeat split; try lia.
    destruct (fallbackEvent w data); simpl; lia. }
  unfold attempt. destruct (isMock a) as [[|]|].
  - simpl. repeat split; lia.
  - destruct (nonEmpty (endpointUrl a) && negb (name a =? "SDV Copilot"));
      [now apply Hm | now apply Hf].
  - destruct (nonEmpty (endpointUrl a) && negb (name a =? "SDV Copilot"));
      [now apply Hm | now apply Hf].
Qed.

Lemma idleRun_counts (middle : list Event) :
  forallb (fun ev => negb (isFrameEvent ev)) middle = true ->
  toasts (idleRun middle) = [] /\
  finishedCount (idleRun middle) = 1%nat /\
  requests (idleRun middle) = requests middle /\
  generated (idleRun middle) = JString "" :: generated middle.
Proof.
  intros H. unfold idleRun, finishedCount, requests. simpl.
  induction middle as [|ev r IH]; simpl in *; [repeat split|].
  apply andb_true_iff in H. destruct H as [Hev Hr].
  destruct (IH Hr) as (I1 & I2 & I3 & I4).
  destruct ev; try discriminate Hev; simpl; repeat split; auto;
    try (f_equal; assumption);
    injection I4 as I4; f_equal; try f_equal; assumption.
Qed.

Lemma idleRun_lookups (middle : list Event) :
  filter isConfigLookup (idleRun middle) = filter isConfigLookup middle.
Proof.
  unfold idleRun. cbn [app filter isConfigLookup].
  rewrite filter_app. cbn [filter isConfigLookup]. apply app_nil_r.
Qed.

(** What a run shows, from what its dispatch shows. *)
Lemma run_shape (w : World) (a : AddOn) (prompt : string) :
  trace (handleGenerate w (Some a) prompt)
  = idleRun (trace (attempt w a prompt)
             ++ if throwsAtSwitch a then failureReport else []) /\
  (throwsAtSwitch a = true -> trace (attempt w a prompt) = []) /\
  finishedCount (trace (handleGenerate w (Some a) prompt)) = 1%nat /\
  toasts (trace (handleGenerate w (Some a) prompt))
  = (if throwsAtSwitch a
     then [JString "Error generating AI content"] else []) /\
  requests (trace (handleGenerate w (Some a) prompt))
  = requests (trace (attempt w a prompt)) /\
  generated (trace (handleGenerate w (Some a) prompt))
  = JString "" :: generated (trace (attempt w a prompt)) /\
  filter isConfigLookup (trace (handleGenerate w (Some a) prompt))
  = filter isConfigLookup (trace (attempt w a prompt)).
Proof.
  rewrite handleGenerate_run. change (trace (?t, inr tt)) with t.
  destruct (attempt_outcome w a prompt) as [t [Ht Hnil]].
  assert (Et : trace (attempt w a prompt) = t) by now rewrite Ht.
  rewrite Et. destruct (throwsAtSwitch a) eqn:Hthrow.
  - rewrite (Hnil eq_refl). repeat split.
  - rewrite app_nil_r.
    destruct (attempt_events w a prompt) as (Hq & _). rewrite Et in Hq.
    destruct (idleRun_counts _ Hq) as (H1 & H2 & H3 & H4).
    repeat split; auto; try discriminate. apply idleRun_lookups.
Qed.

(** X1.  [handleGenerate] never rejects: in every world, for every
    selection and prompt, whatever the site configuration and the HTTP
    client answer or throw, the call returns normally; without a
    selected descriptor it does nothing at all. *)
Theorem handleGenerate_never_rejects
    (w : World) (selected : option AddOn) (prompt : string) :
  snd (handleGenerate w selected prompt) = inr tt /\
  (selected = None -> trace (handleGenerate w selected prompt) = []).
Proof.
  destruct selected as [a|].
  - rewrite handleGenerate_run. split; [reflexivity | discriminate].
  - split; reflexivity.
Qed.

(** X2.  Every run with a selected descriptor has the same frame: the
    empty string is handed over and loading is switched on, then come
    the events of the dispatch, then loading is switched off and
    finished is reported.  The dispatch holds no loading or finished
    event, so finished fires exactly once and last.  The outer [catch]
    is entered in one case only, when the descriptor is dispatched by
    its own method and that method is neither a string nor missing: the
    head of the [switch] throws before the dispatch has done anything,
    the error is written with [console.error] and the toast Error
    generating AI content is shown.  In every other run no toast is
    shown. *)
Theorem handleGenerate_frame (w : World) (a : AddOn) (prompt : string) :
  exists middle,
    trace (handleGenerate w (Some a) prompt)
    = idleRun (middle ++ if throwsAtSwitch a then failureReport else []) /\
    forallb (fun ev => negb (isFrameEvent ev)) middle = true /\
    (throwsAtSwitch a = true -> middle = []) /\
    finishedCount (trace (handleGenerate w (Some a) prompt)) = 1%nat /\
    toasts (trace (handleGenerate w (Some a) prompt))
    = (if throwsAtSwitch a
       then [JString "Error generating AI content"] else []) /\
    List.last (trace (handleGenerate w (Some a) prompt)) (SetLoading true)
    = OnFinishChange true.
Proof.
  exists (trace (attempt w a prompt)).
  destruct (run_shape w a prompt) as (E & Hnil & Hf & Ht & _).
  destruct (attempt_events w a prompt) as (Hq & _).
  split; [exact E|]. split; [exact Hq|]. split; [exact Hnil|].
  split; [exact Hf|]. split; [exact Ht|].
  rewrite E. unfold idleRun.
  change [SetLoading false; OnLoadingChange false; OnFinishChange true]
    with ([SetLoading false; OnLoadingChange false] ++ [OnFinishChange true])%list.
  rewrite !app_assoc. apply last_last.
Qed.

(** X3.  A run issues at most one HTTP request and looks the site
    configuration up at most once, and besides the initial empty string
    it hands at most one value to [onCodeGenerated]. *)
Theorem handleGenerate_at_most_one_request
    (w : World) (a : AddOn) (prompt : string) :
  (List.length (requests (trace (handleGenerate w (Some a) prompt))) <= 1)%nat /\
  (List.length (filter isConfigLookup
                       (trace (handleGenerate w (Some a) prompt))) <= 1)%nat /\
  (List.length (generated (trace (handleGenerate w (Some a) prompt))) <= 2)%nat.
Proof.
  destruct (run_shape w a prompt) as (_ & _ & _ & _ & Er & Eg & El).
  destruct (attempt_events w a prompt) as (_ & Hr & Hc & Hg).
  rewrite Er, Eg, El. repeat split; simpl; lia.
Qed.

Lemma own_run (w : World) (a : AddOn) (prompt m : string) :
  isMock a <> Some true ->
  endpointUrl a <> "" ->
  name a <> "SDV Copilot" ->
  method a = Some (JString m) ->
  trace (handleGenerate w (Some a) prompt) = idleRun (ownEvents w a prompt).
Proof.
  intros Hmock Hurl Hname Hm.
  rewrite run_plain by (apply no_throw_text; unfold textMethod; now rewrite Hm).
  change (trace (?t, _)) with t.
  rewrite attempt_own by assumption. now rewrite byMethod_trace.
Qed.

(** X4.  The GET case.  For a descriptor that is not a mock, has an
    endpoint, is not named SDV Copilot and whose method is a string
    that lower-cases and trims to get: when the prompt can be encoded,
    the one request is a GET of the endpoint followed by a question
    mark, the request field name ([prompt] when the descriptor has
    none), an equals sign and the encoded prompt, with the API key as
    the Authorization header; a response is handed over as
    [responseText] reads it, a rejection is logged.  When
    [encodeURIComponent] throws, no request is made and the error is
    logged.  The site configuration is not consulted. *)
Theorem get_run (w : World) (a : AddOn) (prompt m : string) :
  isMock a <> Some true ->
  endpointUrl a <> "" ->
  name a <> "SDV Copilot" ->
  method a = Some (JString m) ->
  trim (toLowerCase m) = "get" ->
  (forall encoded,
      encodeURIComponent w prompt = inr encoded ->
      trace (handleGenerate w (Some a) prompt)
      = idleRun
          [AxiosGet (endpointUrl a ++ "?" ++ optOr (requestField a) "prompt"
                     ++ "=" ++ encoded)
                    [("Authorization", apiKey a);
                     ("Content-Type", "application/json")];
           match axios_get w (getTarget a encoded) (authHeaders a) with
           | inr data => OnCodeGenerated (responseText w a data)
           | inl err => ConsoleLog err
           end]) /\
  (forall err,
      encodeURIComponent w prompt = inl err ->
      trace (handleGenerate w (Some a) prompt) = idleRun [ConsoleLog err]).
Proof.
  intros Hmock Hurl Hname Hm Hv.
  rewrite (own_run w a prompt m) by assumption.
  unfold ownEvents. rewrite Hm, Hv. cbv zeta.
  change ("get" =? "get") with true. cbv iota. unfold getEvents.
  split; intros x Hx; now rewrite Hx.
Qed.

Lemma postPayload_members (a : AddOn) (prompt : string) :
  (optOr (requestField a) "prompt" <> "__proto__" ->
   member (postPayload a prompt) (optOr (requestField a) "prompt")
   = Some (JString prompt)) /\
  (optOr (requestField a) "prompt" = "__proto__" ->
   postPayload a prompt
   = JObject [("systemMessage", JString (optOr (samples a) ""))]) /\
  (optOr (requestField a) "prompt" <> "systemMessage" ->
   member (postPayload a prompt) "systemMessage"
   = Some (JString (optOr (samples a) ""))).
Proof.
  unfold postPayload, setMember.
  generalize (optOr (requestField a) "prompt") as k.
  generalize (optOr (samples a) "") as sm. intros sm k.
  destruct (k =? "__proto__") eqn:P.
  - apply String.eqb_eq in P. repeat split; congruence.
  - apply String.eqb_neq in P. unfold member. cbn [defineMember].
    destruct ("systemMessage" =? k) eqn:E.
    + cbn [lookupLast]. rewrite E. split; [reflexivity|].
      apply String.eqb_eq in E. split; congruence.
    + cbn [lookupLast]. rewrite String.eqb_refl. split; [reflexivity|].
      split; [congruence|]. intros _. rewrite String.eqb_sym, E. reflexivity.
Qed.

(** X5.  The POST case.  For a descriptor that is not a mock, has an
    endpoint, is not named SDV Copilot and whose method is a string
    that lower-cases and trims to post: the one request is a POST to
    the endpoint with the API key as the Authorization header.  In its
    body the member named by the request field ([prompt] when the
    descriptor has none) is the prompt, except when that name is
    [__proto__], which names the prototype and creates no member: the
    body then holds [systemMessage] alone.  [systemMessage] is the
    samples of the descriptor (the empty string when it has none) unless
    the request field is itself called systemMessage, in which case the
    prompt replaces it. *)
Theorem post_run (w : World) (a : AddOn) (prompt m : string) :
  isMock a <> Some true ->
  endpointUrl a <> "" ->
  name a <> "SDV Copilot" ->
  method a = Some (JString m) ->
  trim (toLowerCase m) = "post" ->
  exists body,
    trace (handleGenerate w (Some a) prompt)
    = idleRun
        [AxiosPost (endpointUrl a) body
                   [("Authorization", apiKey a);
                    ("Content-Type", "application/json")];
         match axios_post w (endpointUrl a) body (authHeaders a) with
         | inr data => OnCodeGenerated (responseText w a data)
         | inl err => ConsoleLog err
         end] /\
    (optOr (requestField a) "prompt" <> "__proto__" ->
     member body (optOr (requestField a) "prompt") = Some (JString prompt)) /\
    (optOr (requestField a) "prompt" = "__proto__" ->
     body = JObject [("systemMessage", JString (optOr (samples a) ""))]) /\
    (optOr (requestField a) "prompt" <> "systemMessage" ->
     member body "systemMessage" = Some (JString (optOr (samples a) ""))).
Proof.
  intros Hmock Hurl Hname Hm Hv. exists (postPayload a prompt).
  split; [|apply postPayload_members].
  rewrite (own_run w a prompt m) by assumption.
  unfold ownEvents. rewrite Hm, Hv. reflexivity.
Qed.

Lemma ownEvents_generated (w : World) (a : AddOn) (prompt : string) :
  generated (ownEvents w a prompt)
  = match ownAnswer w a prompt with
    | Some (inr data) => [responseText w a data]
    | _ => []
    end /\
  (forall err, ownAnswer w a prompt = Some (inl err) ->
               In (ConsoleLog err) (ownEvents w a prompt)) /\
  (requests (ownEvents w a prompt) <> [] -> ownAnswer w a prompt <> None).
Proof.
  unfold ownAnswer, ownEvents.
  destruct (method a) as [[| | |m| | |]|];
    try (split; [reflexivity | split; [discriminate | now intros []]]).
  cbv zeta. destruct (trim (toLowerCase m) =? "get").
  - unfold getEvents.
    destruct (encodeURIComponent w prompt) as [e|encoded].
    + split; [reflexivity | split; [discriminate | now intros []]].
    + destruct (axios_get w _ _) as [e|d];
        (split; [reflexivity | split; [|discriminate]]);
        intros err E; [injection E as <-; simpl; auto | discriminate].
  - destruct (trim (toLowerCase m) =? "post").
    + unfold postEvents. destruct (axios_post w _ _ _) as [e|d];
        (split; [reflexivity | split; [|discriminate]]);
        intros err E; [injection E as <-; simpl; auto | discriminate].
    + split; [reflexivity | split; [discriminate | now intros []]].
Qed.

Lemma ownAnswer_text (w : World) (a : AddOn) (prompt : string) :
  ownAnswer w a prompt <> None -> exists m, method a = Some (JString m).
Proof.
  unfold ownAnswer. destruct (method a) as [[| | |m| | |]|];
    try (intros H; now destruct H). eauto.
Qed.

(** X6.  What becomes of a response in the GET and POST cases.  When
    the response is truthy and the value read under the name of the
    response field ([data] when the descriptor has none) is truthy,
    that value is handed to [onCodeGenerated]; the value is a member of
    the response or, when the response has no member of that name but
    its prototype chain has one, as for [constructor] or [toString],
    the inherited function or object.  In every other case, a falsy
    response, nothing under that name or a falsy value, the text handed
    over is the line Error: Receive incorrect format data followed by
    the response printed with indentation 4: a malformed response
    travels in the code channel and is not reported as an error. *)
Theorem own_response_normalised
    (w : World) (a : AddOn) (prompt : string) (data : json) :
  isMock a <> Some true ->
  endpointUrl a <> "" ->
  name a <> "SDV Copilot" ->
  ownAnswer w a prompt = Some (inr data) ->
  (forall v,
      truthy data = true ->
      getProperty data (optOr (responseField a) "data") = Some v ->
      truthy v = true ->
      generated (trace (handleGenerate w (Some a) prompt)) = [JString ""; v]) /\
  (truthy data = true ->
   member data (optOr (responseField a) "data") = None ->
   inherits data (optOr (responseField a) "data") = true ->
   generated (trace (handleGenerate w (Some a) prompt))
   = [JString ""; JInherited (optOr (responseField a) "data")]) /\
  (truthy data = false \/
   getProperty data (optOr (responseField a) "data") = None \/
   (exists v, getProperty data (optOr (responseField a) "data") = Some v /\
              truthy v = false) ->
   generated (trace (handleGenerate w (Some a) prompt))
   = [JString "";
      JString ("Error: Receive incorrect format data" ++ crlf
               ++ JSON_stringify w data 4)]) /\
  toasts (trace (handleGenerate w (Some a) prompt)) = [].
Proof.
  intros Hmock Hurl Hname Hans.
  destruct (ownAnswer_text w a prompt) as [m Hm]; [congruence|].
  assert (Hno : throwsAtSwitch a = false)
    by (apply no_throw_text; unfold textMethod; now rewrite Hm).
  destruct (run_shape w a prompt) as (_ & _ & _ & Et & _ & Eg & _).
  rewrite Hno in Et. rewrite Eg, attempt_own, byMethod_trace by assumption.
  destruct (ownEvents_generated w a prompt) as [Hgen _].
  rewrite Hgen, Hans. unfold responseText, incorrectFormat.
  split; [|split; [|split; [|exact Et]]].
  - intros v Hd Hp Hv. now rewrite Hd, Hp, Hv.
  - intros Hd Hown Hinh. rewrite Hd. unfold getProperty.
    now rewrite Hown, Hinh.
  - intros [Hd | [Hp | [v [Hp Hv]]]].
    + now rewrite Hd.
    + rewrite Hp. now destruct (truthy data).
    + rewrite Hp. destruct (truthy data); [now rewrite Hv | reflexivity].
Qed.

(** X7.  The fallback case.  For a descriptor that is not a mock and
    has no endpoint or is named SDV Copilot, when the site configuration
    gives a non-empty endpoint: the one request is a POST to that
    endpoint whose body has exactly the members [systemMessage] (the
    samples of the descriptor, the empty string without) and [message]
    (the prompt), with a content-type header and no Authorization
    header; neither the endpoint nor the API key, the method or the
    field names of the descriptor are used. *)
Theorem fallback_request
    (w : World) (a : AddOn) (prompt endpoint : string) :
  isMock a <> Some true ->
  endpointUrl a = "" \/ name a = "SDV Copilot" ->
  getConfig w "GENAI_SDV_APP_ENDPOINT" "site" "" = inr endpoint ->
  endpoint <> "" ->
  trace (handleGenerate w (Some a) prompt)
  = idleRun
      [GetConfig "GENAI_SDV_APP_ENDPOINT" "site" "";
       AxiosPost endpoint
                 (JObject [("systemMessage", JString (optOr (samples a) ""));
                           ("message", JString prompt)])
                 [("Content-Type", "application/json")];
       match axios_post w endpoint (fallbackBody a prompt) jsonHeaders with
       | inl err => ConsoleLog err
       | inr data => fallbackEvent w data
       end].
Proof.
  intros Hmock Hsel Hcfg Hne.
  rewrite run_plain by now apply no_throw_fallback.
  change (trace (?t, _)) with t.
  rewrite attempt_fallback by assumption.
  rewrite fallback_run, Hcfg.
  apply nonEmpty_true in Hne. now rewrite Hne.
Qed.

Lemma fallback_generated (w : World) (a : AddOn) (prompt endpoint : string)
    (data : json) :
  isMock a <> Some true ->
  endpointUrl a = "" \/ name a = "SDV Copilot" ->
  getConfig w "GENAI_SDV_APP_ENDPOINT" "site" "" = inr endpoint ->
  endpoint <> "" ->
  axios_post w endpoint (fallbackBody a prompt) jsonHeaders = inr data ->
  generated (trace (handleGenerate w (Some a) prompt))
  = JString "" :: generated [fallbackEvent w data] /\
  In (fallbackEvent w data) (trace (handleGenerate w (Some a) prompt)).
Proof.
  intros Hmock Hsel Hcfg Hne Hpost.
  destruct (run_shape w a prompt) as (_ & _ & _ & _ & _ & Eg & _).
  rewrite Eg, run_plain by now apply no_throw_fallback.
  change (trace (?t, _)) with t.
  rewrite attempt_fallback by assumption.
  rewrite fallback_run, Hcfg.
  apply nonEmpty_true in Hne. rewrite Hne, Hpost.
  split; [reflexivity|]. unfold idleRun. simpl. auto 10.
Qed.

(** X8.  What becomes of a response in the fallback case.  The value
    handed to [onCodeGenerated] is the [content] member of the response
    when it is truthy, else its [data] member when that is truthy, else
    the whole response printed as text.  A [null] response hands
    nothing over: reading a member of it throws, and the error is
    logged. *)
Theorem fallback_response_normalised
    (w : World) (a : AddOn) (prompt endpoint : string) (data : json) :
  isMock a <> Some true ->
  endpointUrl a = "" \/ name a = "SDV Copilot" ->
  getConfig w "GENAI_SDV_APP_ENDPOINT" "site" "" = inr endpoint ->
  endpoint <> "" ->
  axios_post w endpoint (fallbackBody a prompt) jsonHeaders = inr data ->
  (forall v,
      data <> JNull -> member data "content" = Some v -> truthy v = true ->
      generated (trace (handleGenerate w (Some a) prompt)) = [JString ""; v]) /\
  (forall v,
      data <> JNull ->
      (member data "content" = None \/
       exists c, member data "content" = Some c /\ truthy c = false) ->
      member data "data" = Some v -> truthy v = true ->
      generated (trace (handleGenerate w (Some a) prompt)) = [JString ""; v]) /\
  (data <> JNull ->
   firstTruthy (member data "content") (member data "data") = None ->
   generated (trace (handleGenerate w (Some a) prompt))
   = [JString ""; JString (JSON_stringify w data 0)]) /\
  (data = JNull ->
   generated (trace (handleGenerate w (Some a) prompt)) = [JString ""] /\
   In (ConsoleLog TypeError) (trace (handleGenerate w (Some a) prompt))).
Proof.
  intros Hmock Hsel Hcfg Hne Hpost.
  destruct (fallback_generated w a prompt endpoint data
                               Hmock Hsel Hcfg Hne Hpost) as [Eg Hin].
  rewrite Eg. clear Eg.
  assert (Hev : data <> JNull ->
                fallbackEvent w data
                = match firstTruthy (member data "content")
                                    (member data "data") with
                  | Some v => OnCodeGenerated v
                  | None => OnCodeGenerated (JString (JSON_stringify w data 0))
                  end).
  { intros Hn. unfold fallbackEvent. destruct data; congruence. }
  split; [|split; [|split]].
  - intros v Hn Hc Hv. rewrite (Hev Hn). unfold firstTruthy.
    now rewrite Hc, Hv.
  - intros v Hn Hc Hd Hv. rewrite (Hev Hn). unfold firstTruthy.
    destruct Hc as [-> | [c [-> ->]]]; now rewrite Hd, Hv.
  - intros Hn Hf. rewrite (Hev Hn), Hf. reflexivity.
  - intros ->. split; [reflexivity | exact Hin].
Qed.

(** X9.  Transport failures are swallowed.  When the HTTP client
    rejects every request, a run on a descriptor that is not a mock
    hands nothing but the initial empty string to [onCodeGenerated],
    still reports finished once, and whenever it issued a request it
    wrote an error to the console with [console.log].  It shows no
    toast, unless the descriptor is dispatched by its own method and
    that method is neither a string nor missing: then no request is
    issued and the toast Error generating AI content is shown. *)
Theorem rejected_requests_are_only_logged
    (w : World) (a : AddOn) (prompt : string) :
  rejectsAll w ->
  isMock a <> Some true ->
  generated (trace (handleGenerate w (Some a) prompt)) = [JString ""] /\
  toasts (trace (handleGenerate w (Some a) prompt))
  = (if throwsAtSwitch a
     then [JString "Error generating AI content"] else []) /\
  (throwsAtSwitch a = true ->
   requests (trace (handleGenerate w (Some a) prompt)) = []) /\
  finishedCount (trace (handleGenerate w (Some a) prompt)) = 1%nat /\
  (requests (trace (handleGenerate w (Some a) prompt)) <> [] ->
   exists err, In (ConsoleLog err) (trace (handleGenerate w (Some a) prompt))).
Proof.
  intros [Hget Hpost] Hmock.
  destruct (run_shape w a prompt) as (Etr & Hnil & Hfin & Ht & Er & Eg & _).
  assert (Hrej : forall x, ownAnswer w a prompt = Some x ->
                           exists err, x = inl err).
  { intros x. unfold ownAnswer.
    destruct (method a) as [[| | |m| | |]|]; try discriminate.
    cbv zeta. destruct (trim (toLowerCase m) =? "get").
    - destruct (encodeURIComponent w prompt) as [e|q]; [discriminate|].
      destruct (Hget (getTarget a q) (authHeaders a)) as [e He].
      intros E. injection E as <-. eauto.
    - destruct (trim (toLowerCase m) =? "post"); [|discriminate].
      destruct (Hpost (endpointUrl a) (postPayload a prompt) (authHeaders a))
        as [e He].
      intros E. injection E as <-. eauto. }
  assert (Hm : generated (ownEvents w a prompt) = [] /\
               (requests (ownEvents w a prompt) <> [] ->
                exists err, In (ConsoleLog err) (ownEvents w a prompt))).
  { destruct (ownEvents_generated w a prompt) as (Hgen & Hlog & Hreq).
    rewrite Hgen. destruct (ownAnswer w a prompt) as [x|] eqn:Hx.
    - destruct (Hrej x eq_refl) as [err ->]. split; [reflexivity|].
      intros _. exists err. now apply Hlog.
    - split; [reflexivity|]. intros H. now destruct (Hreq H). }
  assert (Hf : generated (trace (dispatchFallback w a prompt)) = [] /\
               (requests (trace (dispatchFallback w a prompt)) <> [] ->
                exists err, In (ConsoleLog err)
                               (trace (dispatchFallback w a prompt)))).
  { rewrite fallback_run. destruct (getConfig w _ _ _) as [e|c].
    - split; [reflexivity|]. intros _. exists e. simpl. auto.
    - destruct (nonEmpty c).
      + destruct (Hpost c (fallbackBody a prompt) jsonHeaders) as [e ->].
        split; [reflexivity|]. intros _. exists e. simpl. auto.
      + split; [reflexivity|]. intros _. eexists. simpl. eauto. }
  assert (Ha : generated (trace (attempt w a prompt)) = [] /\
               (requests (trace (attempt w a prompt)) <> [] ->
                exists err, In (ConsoleLog err) (trace (attempt w a prompt)))).
  { unfold attempt. rewrite <- byMethod_trace in Hm.
    destruct (isMock a) as [[|]|]; [congruence | |];
      destruct (nonEmpty (endpointUrl a) && negb (name a =? "SDV Copilot"));
      assumption. }
  destruct Ha as [Hgen Hlog].
  split; [rewrite Eg, Hgen; reflexivity|]. split; [exact Ht|].
  split; [intros H; rewrite Er, (Hnil H); reflexivity|].
  split; [exact Hfin|].
  rewrite Er, Etr. intros Hreq. destruct (Hlog Hreq) as [err Hin].
  exists err. unfold idleRun.
  apply in_or_app. right. apply in_or_app. left.
  apply in_or_app. now left.
Qed.

(** Reading a descriptor back keeps a method that is a string, is
    [null] or is missing. *)
Lemma readBack_method (a : AddOn) :
  textMethod a = true -> method (readBack a) = method a.
Proof.
  unfold textMethod. cbn [readBack method].
  destruct (method a) as [[| | |m| | |]|]; try discriminate; intros _.
  - apply reread_null.
  - apply reread_string.
  - reflexivity.
Qed.

Lemma readBack_run (w : World) (a : AddOn) (prompt : string) :
  textMethod a = true ->
  handleGenerate w (Some (readBack a)) prompt
  = handleGenerate w (Some a) prompt.
Proof.
  intros Ht. pose proof (readBack_method a Ht) as Hm.
  unfold handleGenerate, dispatchByMethod. rewrite Hm. reflexivity.
Qed.

(** X10.  The dispatcher never calls the payload builder: a run does
    not depend on [customPayload].  Replacing the builder of a
    descriptor changes nothing in what [handleGenerate] does, and
    neither does dropping it as reading the descriptor back from the
    local storage does, for a descriptor whose method is a string, is
    [null] or is missing, which is read back as it was. *)
Theorem handleGenerate_ignores_customPayload
    (w : World) (a : AddOn) (f : string -> json) (prompt : string) :
  handleGenerate w (Some (withCustomPayload a f)) prompt
  = handleGenerate w (Some a) prompt /\
  (textMethod a = true ->
   handleGenerate w (Some (readBack a)) prompt
   = handleGenerate w (Some a) prompt).
Proof. split; [reflexivity | apply readBack_run]. Qed.

(** X11.  A mock descriptor never touches the network: whatever its
    endpoint, name and method, the run sets the one-second timer and
    hands the canned text over; it issues no request and does not look
    the site configuration up. *)
Theorem mock_run (w : World) (a : AddOn) (prompt : string) :
  isMock a = Some true ->
  trace (handleGenerate w (Some a) prompt)
  = idleRun [SetTimeout 1000;
             OnCodeGenerated (JString (default_generated_code w))] /\
  requests (trace (handleGenerate w (Some a) prompt)) = [] /\
  filter isConfigLookup (trace (handleGenerate w (Some a) prompt)) = [].
Proof.
  intros Hmock. rewrite run_plain by now apply no_throw_mock.
  change (trace (?t, _)) with t.
  rewrite (attempt_mock w a prompt Hmock). repeat split.
Qed.

(** X12.  A descriptor named SDV Copilot is dispatched by its name
    alone: two such descriptors with the same samples and the same mock
    flag give the same run in every world, whatever their endpoints,
    API keys, methods and field names.  In particular the endpoint that
    the built-in carries after the configuration was loaded plays no
    part in the dispatch. *)
Theorem sdv_copilot_dispatch_by_name
    (w : World) (a b : AddOn) (prompt : string) :
  name a = "SDV Copilot" ->
  name b = "SDV Copilot" ->
  samples a = samples b ->
  isMock a = isMock b ->
  handleGenerate w (Some a) prompt = handleGenerate w (Some b) prompt.
Proof.
  intros Ha Hb Hs Hm.
  rewrite !run_plain by (apply no_throw_fallback; now right).
  f_equal. f_equal.
  destruct (isMock a) as [[|]|] eqn:Ea.
  - now rewrite !attempt_mock.
  - rewrite !attempt_fallback; auto; try congruence.
    now rewrite !fallback_run; unfold fallbackBody; rewrite Hs.
  - rewrite !attempt_fallback; auto; try congruence.
    now rewrite !fallback_run; unfold fallbackBody; rewrite Hs.
Qed.

End WithEngine.

#[local] Existing Instance referenceEngine.

Lemma get_run_witness :
  trace (handleGenerate answering (Some getAddOn) "hi")
  = idleRun
      [AxiosGet "https://e?q=hi"
                [("Authorization", "token");
                 ("Content-Type", "application/json")];
       OnCodeGenerated (JString "CODE")].
Proof.
  assert (H1 : isMock getAddOn <> Some true) by discriminate.
  assert (H2 : endpointUrl getAddOn <> "") by discriminate.
  assert (H3 : name getAddOn <> "SDV Copilot") by discriminate.
  exact (proj1 (get_run answering getAddOn "hi" "GET" H1 H2 H3
                        eq_refl eq_refl)
               "hi" eq_refl).
Defined.

Lemma post_run_witness :
  exists body,
    trace (handleGenerate configured (Some postAddOn) "hi")
    = idleRun
        [AxiosPost "https://post.example" body
                   [("Authorization", "token");
                    ("Content-Type", "application/json")];
         match axios_post configured "https://post.example" body
                          (authHeaders postAddOn) with
         | inr data => OnCodeGenerated (responseText configured postAddOn data)
         | inl err => ConsoleLog err
         end] /\
    ("prompt" <> "__proto__" ->
     member body "prompt" = Some (JString "hi")) /\
    ("prompt" = "__proto__" ->
     body = JObject [("systemMessage", JString "examples")]) /\
    ("prompt" <> "systemMessage" ->
     member body "systemMessage" = Some (JString "examples")).
Proof.
  assert (H1 : isMock postAddOn <> Some true) by discriminate.
  assert (H2 : endpointUrl postAddOn <> "") by discriminate.
  assert (H3 : name postAddOn <> "SDV Copilot") by discriminate.
  exact (post_run configured postAddOn "hi" " Post " H1 H2 H3 eq_refl eq_refl).
Defined.

Lemma own_response_normalised_witness :
  generated (trace (handleGenerate configured (Some postAddOn) "hi"))
  = [JString ""; JString "posted"].
Proof.
  assert (H1 : isMock postAddOn <> Some true) by discriminate.
  assert (H2 : endpointUrl postAddOn <> "") by discriminate.
  assert (H3 : name postAddOn <> "SDV Copilot") by discriminate.
  exact (proj1 (own_response_normalised
                  configured postAddOn "hi"
                  (JObject [("content", JString "generated");
                            ("out", JString "posted")])
                  H1 H2 H3 eq_refl)
               (JString "posted") eq_refl eq_refl eq_refl).
Defined.

Lemma fallback_request_witness :
  trace (handleGenerate configured (Some (sdvCopilot "https://ignored")) "hi")
  = idleRun
      [GetConfig "GENAI_SDV_APP_ENDPOINT" "site" "";
       AxiosPost "https://fallback.example"
                 (JObject [("systemMessage", JString "");
                           ("message", JString "hi")])
                 [("Content-Type", "application/json")];
       OnCodeGenerated (JString "generated")].
Proof.
  assert (H1 : isMock (sdvCopilot "https://ignored") <> Some true)
    by discriminate.
  assert (H2 : "https://fallback.example" <> "") by discriminate.
  exact (fallback_request configured (sdvCopilot "https://ignored") "hi"
                          "https://fallback.example"
                          H1 (or_intror eq_refl) eq_refl H2).
Defined.

Lemma fallback_response_normalised_witness :
  generated (trace (handleGenerate configured (Some (sdvCopilot "")) "hi"))
  = [JString ""; JString "generated"].
Proof.
  assert (H1 : isMock (sdvCopilot "") <> Some true) by discriminate.
  assert (H2 : "https://fallback.example" <> "") by discriminate.
  assert (H3 : JObject [("content", JString "generated");
                        ("out", JString "posted")] <> JNull) by discriminate.
  exact (proj1 (fallback_response_normalised
                  configured (sdvCopilot "") "hi" "https://fallback.example"
                  (JObject [("content", JString "generated");
                            ("out", JString "posted")])
                  H1 (or_introl eq_refl) eq_refl H2 eq_refl)
               (JString "generated") H3 eq_refl eq_refl).
Defined.

Lemma rejected_requests_are_only_logged_witness :
  generated (trace (handleGenerate offline (Some postAddOn) "hi"))
  = [JString ""].
Proof.
  assert (H0 : rejectsAll offline)
    by (split; intros; exists (AxiosError None); reflexivity).
  assert (H1 : isMock postAddOn <> Some true) by discriminate.
  exact (proj1 (rejected_requests_are_only_logged
                  offline postAddOn "hi" H0 H1)).
Defined.

Lemma handleGenerate_ignores_customPayload_witness :
  handleGenerate configured (Some (readBack postAddOn)) "hi"
  = handleGenerate configured (Some postAddOn) "hi".
Proof.
  exact (proj2 (handleGenerate_ignores_customPayload
                  configured postAddOn messagePayload "hi")
               eq_refl).
Defined.

Lemma mock_run_witness :
  requests (trace (handleGenerate offline (Some (putAddOn (Some true))) "hi"))
  = [].
Proof.
  exact (proj1 (proj2 (mock_run offline (putAddOn (Some true)) "hi" eq_refl))).
Defined.

Lemma sdv_copilot_dispatch_by_name_witness :
  handleGenerate configured (Some (sdvCopilot "")) "hi"
  = handleGenerate configured (Some (sdvCopilot "https://elsewhere")) "hi".
Proof.
  exact (sdv_copilot_dispatch_by_name
           configured (sdvCopilot "") (sdvCopilot "https://elsewhere") "hi"
           eq_refl eq_refl eq_refl eq_refl).
Defined.

End DispatcherRuns.

(* ================================================================== *)
(** * The catalog as a whole                                           *)
(* ================================================================== *)

Module CatalogWhole.
Import Js JsFacts Effect DaGenAI_Base Selector Samples MoreSamples.
Local Open Scope string_scope.

Section WithEngine.
Context {engine : Engine}.

(** X13.  Merging keeps the built-in list in shape: the merged list has
    the ids of the built-ins, in their order, hence their number,
    whatever the marketplace holds; and every merged entry has a
    payload builder. *)
Theorem merged_keeps_ids
    (builtIns : list AddOn) (marketplaceAddOns : option (list AddOn)) :
  map id (mergedBuiltInAddOns builtIns marketplaceAddOns) = map id builtIns /\
  List.length (mergedBuiltInAddOns builtIns marketplaceAddOns)
  = List.length builtIns /\
  (forall e, In e (mergedBuiltInAddOns builtIns marketplaceAddOns) ->
             customPayload e <> None).
Proof.
  split; [apply CatalogProps.merged_ids|]. unfold mergedBuiltInAddOns. split.
  - apply length_map.
  - intros e He. apply in_map_iff in He. destruct He as [b [<- _]].
    destruct (match marketplaceAddOns with
              | Some ms => find (fun marketAddOn => id marketAddOn =? id b) ms
              | None => None
              end); discriminate.
Qed.

Lemma withCustomPayload_same (b : AddOn) (f : string -> json) :
  customPayload b = Some f -> withCustomPayload b f = b.
Proof. destruct b; simpl; intros ->; reflexivity. Qed.

(** X14.  Without a marketplace entry of the same id a built-in that
    has a payload builder passes through the merge unchanged: when
    every built-in has a builder and no marketplace entry carries the
    id of a built-in (or the marketplace list is not loaded), the
    merged list is the built-in list. *)
Theorem merged_without_match
    (builtIns : list AddOn) (marketplaceAddOns : option (list AddOn)) :
  (forall b, In b builtIns -> customPayload b <> None) ->
  (forall ms b m, marketplaceAddOns = Some ms ->
                  In b builtIns -> In m ms -> id m <> id b) ->
  mergedBuiltInAddOns builtIns marketplaceAddOns = builtIns.
Proof.
  intros Hpay Hno. unfold mergedBuiltInAddOns.
  rewrite <- (map_id builtIns) at 2. apply map_ext_in. intros b Hb.
  assert (Hfind : match marketplaceAddOns with
                  | Some ms => find (fun marketAddOn => id marketAddOn =? id b) ms
                  | None => None
                  end = None).
  { destruct marketplaceAddOns as [ms|]; [|reflexivity].
    destruct (find _ ms) as [m|] eqn:E; [|reflexivity].
    apply find_some in E. destruct E as [Hin E].
    apply String.eqb_eq in E. now destruct (Hno ms b m eq_refl Hb Hin). }
  rewrite Hfind. apply withCustomPayload_same.
  specialize (Hpay b Hb). now destruct (customPayload b).
Qed.

Lemma visible_entry
    (builtIns market : list AddOn) (m : AddOn) :
  In m (filteredMarketplaceAddOns
          (Some market) (mergedBuiltInAddOns builtIns (Some market))) ->
  In m market /\
  ~ In (id m) (map id builtIns) /\
  ~ In (toLowerCase (name m))
       (map (fun e => toLowerCase (name e))
            (mergedBuiltInAddOns builtIns (Some market))) /\
  includes (toLowerCase (name m)) "sdv copilot" = false.
Proof.
  unfold filteredMarketplaceAddOns. rewrite filter_In.
  rewrite !andb_true_iff, !negb_true_iff, orb_false_iff.
  intros (Hin & (Hid & Hname) & Hsdv & _).
  rewrite CatalogProps.merged_ids in Hid.
  repeat split; auto.
  - intros H. apply CatalogProps.arrayIncludes_In in H. congruence.
  - intros H. apply CatalogProps.arrayIncludes_In in H. congruence.
Qed.

(** X15.  The two lists the selector shows never overlap: an entry of
    the visible marketplace list, computed against the merged built-in
    list as the component does, has the id of no built-in and the
    lower-cased name of no merged built-in entry, and it is not named
    SDV Copilot. *)
Theorem visible_marketplace_disjoint
    (builtIns market : list AddOn) (m : AddOn) :
  In m (filteredMarketplaceAddOns
          (Some market) (mergedBuiltInAddOns builtIns (Some market))) ->
  In m market /\
  (forall b, In b builtIns -> id m <> id b) /\
  (forall e, In e (mergedBuiltInAddOns builtIns (Some market)) ->
             id m <> id e /\
             toLowerCase (name m) <> toLowerCase (name e)) /\
  name m <> "SDV Copilot".
Proof.
  intros H. destruct (visible_entry builtIns market m H)
    as (Hin & Hid & Hname & Hsdv).
  split; [exact Hin|]. split; [|split].
  - intros b Hb E. apply Hid. rewrite E. now apply in_map.
  - intros e He. split.
    + intros E. apply Hid. rewrite <- (CatalogProps.merged_ids builtIns (Some market)).
      rewrite E. now apply in_map.
    + intros E. apply Hname. rewrite E.
      apply (in_map (fun e => toLowerCase (name e))). exact He.
  - intros E. rewrite E, (toLowerCase_ascii "SDV Copilot" eq_refl) in Hsdv.
    discriminate.
Qed.



(** ** User-defined generators *)

Lemma mapDraws_nth (draws : nat -> string) (l : list Asset) :
  forall k i,
    nth_error (mapDraws draws k l) i
    = option_map (pythonAIAddon (draws (k + i))) (nth_error l i).
Proof.
  induction l as [|x l IH]; intros k [|i]; simpl; try reflexivity.
  - now rewrite Nat.add_0_r.
  - rewrite IH. now rewrite Nat.add_succ_r.
Qed.

(** X17.  The user catalog for GenAI_Python has one entry for each
    asset of type GENAI-PYTHON, in the order of the assets, the
    [i]-th built from the [i]-th such asset with the [i]-th number
    drawn; assets of other types leave no entry; and [hasGenAIAssets]
    is set exactly when there is an asset of that type. *)
Theorem user_catalog_one_per_python_asset
    (assets : list Asset) (draws : nat -> string) (st : UserCatalog) :
  let pythonGenAIs :=
    filter (fun asset => asset_type asset =? "GENAI-PYTHON") assets in
  let loaded := loadUserAIAddons GenAI_Python (Some assets) draws st in
  List.length (userAIAddons loaded) = List.length pythonGenAIs /\
  (forall i,
      nth_error (userAIAddons loaded) i
      = option_map (pythonAIAddon (draws i)) (nth_error pythonGenAIs i)) /\
  (DaGenAI_Base.hasGenAIAssets loaded = true <->
   exists asset, In asset assets /\ asset_type asset = "GENAI-PYTHON").
Proof.
  cbv zeta. unfold loadUserAIAddons. cbn [userAIAddons DaGenAI_Base.hasGenAIAssets].
  split; [|split].
  - apply UserCatalogProps.mapDraws_length.
  - intros i. apply (mapDraws_nth draws _ 0 i).
  - rewrite Nat.ltb_lt. split.
    + destruct (filter _ assets) as [|x r] eqn:E; simpl; [lia|]. intros _.
      assert (Hx : In x (filter (fun asset => asset_type asset =? "GENAI-PYTHON")
                                assets)) by (rewrite E; now left).
      apply filter_In in Hx. destruct Hx as [Hin Ht].
      apply String.eqb_eq in Ht. eauto.
    + intros [asset [Hin Ht]].
      assert (Hx : In asset
                      (filter (fun asset => asset_type asset =? "GENAI-PYTHON")
                              assets)).
      { apply filter_In. split; [exact Hin|]. rewrite Ht. reflexivity. }
      destruct (filter _ assets); [contradiction | simpl; lia].
Qed.

(** X18.  [hasGenAIAssets] can go stale, and the button with it.  When
    the assets become undefined after a load that found an asset of type
    GENAI-PYTHON, the list of user generators is emptied but the flag
    stays set; so, with a prompt entered and the generators loaded, the
    Generate button stays enabled for a user without permission although
    no user generator is left.  For the other two kinds of component a
    load changes neither the list nor the flag. *)
Theorem hasGenAIAssets_goes_stale
    (assets : list Asset) (asset : Asset) (draws draws' : nat -> string)
    (st : UserCatalog) (c : Controls) :
  In asset assets ->
  asset_type asset = "GENAI-PYTHON" ->
  let after :=
    loadUserAIAddons GenAI_Python None draws'
      (loadUserAIAddons GenAI_Python (Some assets) draws st) in
  userAIAddons after = [] /\
  DaGenAI_Base.hasGenAIAssets after = true /\
  (hasGenAIAssets c = DaGenAI_Base.hasGenAIAssets after ->
   prompt c <> "" -> loading c = false -> addonsLoaded c = true ->
   buttonDisabled c = false) /\
  (forall t, t <> GenAI_Python ->
             loadUserAIAddons t (Some assets) draws st = st).
Proof.
  intros Hin Hty. cbv zeta.
  assert (Hflag : DaGenAI_Base.hasGenAIAssets
                    (loadUserAIAddons GenAI_Python None draws'
                       (loadUserAIAddons GenAI_Python (Some assets) draws st))
                  = true).
  { unfold loadUserAIAddons. cbn [DaGenAI_Base.hasGenAIAssets].
    apply Nat.ltb_lt.
    assert (Hx : In asset
                    (filter (fun asset => asset_type asset =? "GENAI-PYTHON")
                            assets)).
    { apply filter_In. split; [exact Hin|]. rewrite Hty. reflexivity. }
    destruct (filter _ assets); [contradiction | simpl; lia]. }
  split; [reflexivity|]. split; [exact Hflag|]. split.
  - rewrite Hflag. intros Hh Hp Hl Ha. unfold buttonDisabled.
    apply nonEmpty_true in Hp. rewrite Hp, Hl, Ha, Hh.
    now destruct (canUseGenAI c).
  - intros t Ht. now destruct t.
Qed.

Lemma blobField_nonempty (data : json) (k d s : string) :
  d <> "" -> blobField data k d = Some s -> s <> "".
Proof.
  intros Hd. unfold blobField. destruct (member data k) as [v|].
  - destruct (truthy v) eqn:Hv; [|congruence].
    destruct v; try discriminate. intros E. injection E as <-.
    simpl in Hv. now apply nonEmpty_true.
  - congruence.
Qed.

Lemma blobValue_truthy (data : json) (k d : string) :
  d <> "" -> truthy (blobValue data k d) = true.
Proof.
  intros Hd. apply nonEmpty_true in Hd. unfold blobValue.
  destruct (member data k) as [v|]; [|exact Hd].
  destruct (truthy v) eqn:Hv; [exact Hv | exact Hd].
Qed.

Lemma readProtocol_cases (text : string) (p : Protocol) :
  readProtocol text = Some p ->
  ((JSON_parse text = None \/ JSON_parse text = Some JNull) /\
   p = initialProtocol) \/
  (~ (JSON_parse text = None \/ JSON_parse text = Some JNull) /\
   truthy (method_ p) = true /\
   requestField_ p <> "" /\ responseField_ p <> "").
Proof.
  unfold readProtocol.
  destruct (JSON_parse text) as [data|]; [|intros E; injection E as <-; auto].
  destruct data; try (intros E; injection E as <-; now auto);
    (destruct (blobField _ "url" "") as [bu|]; [|discriminate]);
    (destruct (blobField _ "accessToken" "") as [bt|]; [|discriminate]);
    (destruct (blobField _ "requestField" "prompt") as [bq|] eqn:Eq;
     [|discriminate]);
    (destruct (blobField _ "responseField" "data") as [br|] eqn:Er;
     [|discriminate]);
    intros E; injection E as <-; right; cbn [method_ requestField_ responseField_];
    apply blobField_nonempty in Eq, Er; try discriminate;
    (split; [intros [H|H]; discriminate|]);
    (split; [apply blobValue_truthy; discriminate | auto]).
Qed.

(** X19.  In a user-defined descriptor the method is never missing and
    never empty (nor otherwise falsy), and the name is never empty; the
    request field name is empty exactly when the blob of the asset does
    not parse or is [null], and so is the response field name.  A blob
    that parses to anything else gives non-empty field names. *)
Theorem user_descriptor_fields
    (draw : string) (asset : Asset) (d : AddOn) :
  pythonAIAddon draw asset = Some d ->
  (exists m, method d = Some m /\ truthy m = true /\ m <> JString "") /\
  name d <> "" /\
  (requestField d = Some "" <->
   JSON_parse (asset_data asset) = None \/
   JSON_parse (asset_data asset) = Some JNull) /\
  (responseField d = Some "" <->
   JSON_parse (asset_data asset) = None \/
   JSON_parse (asset_data asset) = Some JNull) /\
  (exists q r, requestField d = Some q /\ responseField d = Some r).
Proof.
  unfold pythonAIAddon.
  assert (Hname : orElse (asset_name asset) "My python genAI" <> "").
  { unfold orElse. destruct (nonEmpty (asset_name asset)) eqn:E;
      [now apply nonEmpty_true | discriminate]. }
  assert (Hne : forall v, truthy v = true -> v <> JString "")
    by (intros v Hv ->; discriminate Hv).
  destruct (readProtocol (asset_data asset)) as [p|] eqn:Hp; [|discriminate].
  intros E. injection E as <-. cbn [method name requestField responseField].
  destruct (readProtocol_cases _ _ Hp) as [[Hb ->] | (Hnb & Hm & Hq & Hr)].
  - cbn [initialProtocol method_ requestField_ responseField_].
    split; [exists (JString "POST"); repeat split; discriminate|].
    split; [exact Hname|]. repeat split; eauto.
  - split; [eauto|]. split; [exact Hname|].
    split; [|split; [|eauto]].
    + split; [intros E; injection E as E; contradiction | contradiction].
    + split; [intros E; injection E as E; contradiction | contradiction].
Qed.

Lemma blobField_readsAs (data : json) (k d f : string) :
  blobField data k d = Some f -> readsAs data k d f.
Proof.
  unfold blobField, readsAs. intros H. split.
  - intros s Hm Hs. rewrite Hm in H. simpl in H.
    apply nonEmpty_true in Hs. rewrite Hs in H. congruence.
  - intros [Hm | [v [Hm Hv]]]; rewrite Hm in H; [|rewrite Hv in H]; congruence.
Qed.

Lemma blobValue_keepsValue (data : json) (k d : string) :
  keepsValue data k d (blobValue data k d).
Proof.
  unfold blobValue, keepsValue. split.
  - intros v Hm Hv. now rewrite Hm, Hv.
  - intros [Hm | [v [Hm Hv]]]; rewrite Hm; [|rewrite Hv]; reflexivity.
Qed.

(** X20.  A blob that parses is read member by member.  For a blob
    that parses to a value other than [null], the endpoint, the API key
    and the two field names of the descriptor are each the string
    member of the blob when that is a non-empty string, and the default
    when the member is missing or falsy: the empty string for the
    endpoint and the API key, [prompt] and [data] for the field names.
    The method is the member of the blob whenever that is truthy, a
    string or not, and POST when it is missing or falsy. *)
Theorem blob_members_are_read
    (draw : string) (asset : Asset) (data : json) (d : AddOn) :
  JSON_parse (asset_data asset) = Some data ->
  data <> JNull ->
  pythonAIAddon draw asset = Some d ->
  readsAs data "url" "" (endpointUrl d) /\
  readsAs data "accessToken" "" (apiKey d) /\
  exists m q r,
    method d = Some m /\ requestField d = Some q /\ responseField d = Some r /\
    keepsValue data "method" "POST" m /\
    (forall s, member data "method" = Some (JString s) -> s <> "" ->
               m = JString s) /\
    readsAs data "requestField" "prompt" q /\
    readsAs data "responseField" "data" r.
Proof.
  intros Hparse Hnull. unfold pythonAIAddon, readProtocol. rewrite Hparse.
  assert (Hgen :
     match
       match blobField data "url" "", blobField data "accessToken" "",
             blobField data "requestField" "prompt",
             blobField data "responseField" "data" with
       | Some u, Some a, Some q, Some r =>
           Some {| url := u; accessToken := a;
                   method_ := blobValue data "method" "POST";
                   requestField_ := q; responseField_ := r |}
       | _, _, _, _ => None
       end
     with
     | Some p =>
         Some {| id := asset_name asset ++ "-" ++ randomSuffix draw;
                 type := GenAI_Python;
                 name := orElse (asset_name asset) "My python genAI";
                 description := ""; apiKey := accessToken p;
                 endpointUrl := url p;
                 customPayload := Some promptPayload;
                 method := Some (method_ p);
                 requestField := Some (requestField_ p);
                 responseField := Some (responseField_ p);
                 samples := None; isMock := None |}
     | None => None
     end = Some d ->
     readsAs data "url" "" (endpointUrl d) /\
     readsAs data "accessToken" "" (apiKey d) /\
     exists m q r,
       method d = Some m /\ requestField d = Some q /\
       responseField d = Some r /\
       keepsValue data "method" "POST" m /\
       (forall s, member data "method" = Some (JString s) -> s <> "" ->
                  m = JString s) /\
       readsAs data "requestField" "prompt" q /\
       readsAs data "responseField" "data" r).
  { destruct (blobField data "url" "") as [bu|] eqn:Eu; [|discriminate].
    destruct (blobField data "accessToken" "") as [bt|] eqn:Et; [|discriminate].
    destruct (blobField data "requestField" "prompt") as [bq|] eqn:Eq;
      [|discriminate].
    destruct (blobField data "responseField" "data") as [br|] eqn:Er;
      [|discriminate].
    intros E. injection E as <-. cbn.
    apply blobField_readsAs in Eu, Et, Eq, Er.
    pose proof (blobValue_keepsValue data "method" "POST") as Em.
    split; [exact Eu|]. split; [exact Et|].
    exists (blobValue data "method" "POST"), bq, br.
    split; [reflexivity|]. split; [reflexivity|]. split; [reflexivity|].
    split; [exact Em|]. split; [|split; assumption].
    intros s Hs Hne. apply (proj1 Em _ Hs). now apply nonEmpty_true. }
  destruct data; try exact Hgen. congruence.
Qed.

(** X21.  A user-defined generator without an endpoint is the built-in
    in disguise.  A descriptor built from an asset whose blob gives no
    endpoint, in particular from a blob that does not parse, is
    dispatched through the fallback endpoint of the site configuration:
    in every world a run on it is the run on the built-in SDV Copilot,
    and its own method and field names are never used. *)
Theorem user_generator_without_endpoint
    (draw : string) (asset : Asset) (d : AddOn) :
  pythonAIAddon draw asset = Some d ->
  (JSON_parse (asset_data asset) = None -> endpointUrl d = "") /\
  (endpointUrl d = "" ->
   forall w prompt url,
     handleGenerate w (Some d) prompt
     = handleGenerate w (Some (sdvCopilot url)) prompt).
Proof.
  intros Hd. split.
  - intros Hbad. revert Hd. unfold pythonAIAddon, readProtocol.
    rewrite Hbad. intros E. injection E as <-. reflexivity.
  - intros Hurl w prompt url.
    assert (Hs : samples d = None /\ isMock d = None).
    { revert Hd. unfold pythonAIAddon.
      destruct (readProtocol (asset_data asset)); [|discriminate].
      intros E. injection E as <-. split; reflexivity. }
    destruct Hs as [Hs Hm].
    rewrite (DispatcherRuns.run_plain w d)
      by (apply DispatcherRuns.no_throw_fallback; now left).
    rewrite (DispatcherRuns.run_plain w (sdvCopilot url))
      by (apply DispatcherRuns.no_throw_fallback; now right).
    f_equal. f_equal.
    rewrite !DispatcherRuns.attempt_fallback;
      try (rewrite Hm; discriminate); try discriminate; auto.
    rewrite !DispatcherRuns.fallback_run. unfold fallbackBody.
    now rewrite Hs.
Qed.

End WithEngine.

#[local] Existing Instance referenceEngine.

Lemma merged_without_match_witness :
  mergedBuiltInAddOns (builtInAddOns GenAI_Python) (Some [copilotPro])
  = builtInAddOns GenAI_Python.
Proof.
  apply (merged_without_match (builtInAddOns GenAI_Python) (Some [copilotPro])).
  - intros b [<- | []]. discriminate.
  - intros ms b m E [<- | []] Hm. injection E as <-.
    destruct Hm as [<- | []]. discriminate.
Defined.

Lemma visible_marketplace_disjoint_witness :
  In getAddOn [marketCopilot; copilotPro; getAddOn] /\
  (forall b, In b [sdvCopilot ""] -> id getAddOn <> id b) /\
  (forall e,
      In e (mergedBuiltInAddOns [sdvCopilot ""]
                                (Some [marketCopilot; copilotPro; getAddOn])) ->
      id getAddOn <> id e /\
      toLowerCase (name getAddOn) <> toLowerCase (name e)) /\
  name getAddOn <> "SDV Copilot".
Proof.
  apply (visible_marketplace_disjoint
           [sdvCopilot ""] [marketCopilot; copilotPro; getAddOn] getAddOn).
  vm_compute. auto.
Defined.


Lemma hasGenAIAssets_goes_stale_witness :
  userAIAddons
    (loadUserAIAddons GenAI_Python None (fun _ => "0.i")
       (loadUserAIAddons GenAI_Python (Some [widgetAsset; pythonAsset])
                         (fun _ => "0.i") emptyCatalog)) = [] /\
  buttonDisabled
    {| prompt := "make an app"; loading := false; addonsLoaded := true;
       canUseGenAI := false; hasGenAIAssets := true |} = false.
Proof.
  assert (Hn : "make an app" <> "") by discriminate.
  pose proof (hasGenAIAssets_goes_stale
                [widgetAsset; pythonAsset] pythonAsset
                (fun _ => "0.i") (fun _ => "0.i") emptyCatalog
                {| prompt := "make an app"; loading := false;
                   addonsLoaded := true; canUseGenAI := false;
                   hasGenAIAssets := true |}
                (or_intror (or_introl eq_refl)) eq_refl) as H.
  split; [exact (proj1 H)|].
  exact (proj1 (proj2 (proj2 H)) eq_refl Hn eq_refl eq_refl).
Defined.

Lemma user_descriptor_fields_witness :
  (exists m, method brokenDescriptor = Some m /\ truthy m = true /\
             m <> JString "") /\
  name brokenDescriptor <> "" /\
  (requestField brokenDescriptor = Some "" <->
   JSON_parse (asset_data brokenAsset) = None \/
   JSON_parse (asset_data brokenAsset) = Some JNull) /\
  (responseField brokenDescriptor = Some "" <->
   JSON_parse (asset_data brokenAsset) = None \/
   JSON_parse (asset_data brokenAsset) = Some JNull) /\
  (exists q r, requestField brokenDescriptor = Some q /\
               responseField brokenDescriptor = Some r).
Proof.
  exact (user_descriptor_fields "0.i" brokenAsset brokenDescriptor eq_refl).
Defined.

Lemma blob_members_are_read_witness :
  exists d,
    pythonAIAddon "0.i" numericAsset = Some d /\
    method d = Some (JNumber 5 0) /\
    endpointUrl d = "https://five.example" /\
    requestField d = Some "prompt".
Proof.
  exists numericDescriptor. split; [reflexivity|].
  assert (Hn : JObject [("url", JString "https://five.example");
                        ("method", JNumber 5 0)] <> JNull) by discriminate.
  destruct (blob_members_are_read
              "0.i" numericAsset
              (JObject [("url", JString "https://five.example");
                        ("method", JNumber 5 0)])
              numericDescriptor eq_refl Hn eq_refl)
    as (Hu & _ & m & q & r & Hm & Hq & _ & Hk & _ & Hr & _).
  split; [|split].
  - rewrite Hm. f_equal. exact (proj1 Hk (JNumber 5 0) eq_refl eq_refl).
  - assert (Hs : "https://five.example" <> "") by discriminate.
    exact (proj1 Hu "https://five.example" eq_refl Hs).
  - rewrite Hq. f_equal.
    exact (proj2 Hr (or_introl eq_refl)).
Defined.

Lemma user_generator_without_endpoint_witness :
  handleGenerate configured (Some brokenDescriptor) "hi"
  = handleGenerate configured (Some (sdvCopilot "")) "hi".
Proof.
  exact (proj2 (user_generator_without_endpoint
                  "0.i" brokenAsset brokenDescriptor eq_refl)
               eq_refl configured "hi" "").
Defined.

End CatalogWhole.

(* ================================================================== *)
(** * The code tab as a whole                                          *)
(* ================================================================== *)

Module TabCodeWhole.
Import Js JsFacts PrototypeTabCode Session Samples MoreSamples.
Local Open Scope string_scope.

Lemma persist_closed (remote : Remote) (text : string) (st : State) :
  closed st -> persist remote text st = (st, []).
Proof.
  unfold persist. intros [-> | [p [-> Hid]]]; [reflexivity|].
  now rewrite Hid.
Qed.

(** X22.  Without a document nothing is ever written: when there is no
    prototype, or the prototype has no id, neither a heartbeat nor an
    explicit save with any text calls the remote store, logs, or
    changes the buffers. *)
Theorem no_document_no_write
    (remote : Remote) (st : State) (codeToSave : option string) :
  closed st ->
  saveCodeToDb remote codeToSave st = (st, []) /\
  heartbeat remote st = (tick st, []).
Proof.
  intros Hc. unfold heartbeat, saveCodeToDb. split.
  - destruct (dataToSave codeToSave st); [now apply persist_closed | reflexivity].
  - destruct (dataToSave None (tick st)); [|reflexivity].
    apply persist_closed. exact Hc.
Qed.

Lemma no_document_no_write_witness :
  saveCodeToDb accepting (Some "print(3)") orphanState = (orphanState, []).
Proof.
  exact (proj1 (no_document_no_write accepting orphanState (Some "print(3)")
                                     (or_introl eq_refl))).
Defined.

(** X23.  A change of document leaves the session clean.  After the
    effect on the prototype has run, both buffers hold the text of the
    prototype (the empty text when it has none), or both are undefined
    when there is no prototype, in which case the editor is the code
    editor; so the next heartbeat writes nothing, whatever the buffers
    held before the change. *)
Theorem document_switch_is_clean (remote : Remote) (st : State) :
  code (onPrototypeChange st) = savedCode (onPrototypeChange st) /\
  (forall p, prototype st = Some p ->
             code (onPrototypeChange st) = Some (textOf p) /\
             editorType (onPrototypeChange st) = getEditorType (textOf p)) /\
  (prototype st = None ->
   code (onPrototypeChange st) = None /\
   editorType (onPrototypeChange st) = Editor_code) /\
  snd (heartbeat remote (onPrototypeChange st)) = [].
Proof.
  unfold onPrototypeChange, textOf.
  destruct (prototype st) as [p|] eqn:Hp.
  - split; [reflexivity|]. split; [intros q E; injection E as <-; auto|].
    split; [discriminate|].
    rewrite Checks.heartbeat_eq. cbn [code savedCode setEditorType setCodes].
    cbn [sameText]. now rewrite String.eqb_refl, orb_true_r.
  - split; [reflexivity|]. split; [discriminate|]. split; [auto|].
    now rewrite Checks.heartbeat_eq.
Qed.

(** X24.  A rejected write is retried.  With a document open and a
    dirty buffer, a heartbeat whose write the remote store rejects
    leaves the buffers and the prototype as they were, logs the error,
    and the next heartbeat hands the same text to the remote store
    again. *)
Theorem rejected_write_is_retried
    (remote remote' : Remote) (st : State) (p : Prototype.t) (c : string) :
  opened st p ->
  dirty st c ->
  remote (Prototype.id p) c = false ->
  fst (heartbeat remote st) = tick st /\
  snd (heartbeat remote st)
  = [UpdatePrototypeService (Prototype.id p) c;
     ConsoleError "Error saving code:"] /\
  persisted (snd (heartbeat remote' (fst (heartbeat remote st))))
  = [(Prototype.id p, c)].
Proof.
  intros [Hp Hid] (Hc & Hne & Hd) Hr.
  assert (Hguard : negb (nonEmpty c) || sameText (Some c) (savedCode st) = false).
  { apply orb_false_iff. split.
    - apply negb_false_iff. now apply nonEmpty_true.
    - destruct (sameText (Some c) (savedCode st)) eqn:E; [|reflexivity].
      apply PrototypeTabCodeProps.sameText_iff in E. congruence. }
  assert (Hbeat : heartbeat remote st
                  = (tick st, [UpdatePrototypeService (Prototype.id p) c;
                               ConsoleError "Error saving code:"])).
  { rewrite Checks.heartbeat_eq, Hc, Hguard. unfold persist.
    change (prototype (tick st)) with (prototype st). rewrite Hp.
    apply nonEmpty_true in Hid. rewrite Hid, orElse_empty, Hr. reflexivity. }
  rewrite Hbeat. cbn [fst snd]. repeat split.
  rewrite Checks.heartbeat_eq.
  change (code (tick st)) with (code st).
  change (savedCode (tick st)) with (savedCode st).
  rewrite Hc, Hguard.
  apply (PrototypeTabCodeProps.persisted_persist remote' p Hid). exact Hp.
Qed.

Lemma rejected_write_is_retried_witness :
  persisted (snd (heartbeat accepting (fst (heartbeat rejecting demoState))))
  = [("p1", "print(2)")].
Proof.
  assert (Ho : opened demoState demoPrototype)
    by (split; [reflexivity | discriminate]).
  assert (Hd : dirty demoState "print(2)")
    by (split; [reflexivity | split; discriminate]).
  exact (proj2 (proj2 (rejected_write_is_retried
                         rejecting accepting demoState demoPrototype
                         "print(2)" Ho Hd eq_refl))).
Defined.

Lemma persist_outcomes (remote : Remote) (text : string) (st : State) :
  (closed st /\ persist remote text st = (st, [])) \/
  (exists p,
      opened st p /\
      ((remote (Prototype.id p) text = true /\
        persist remote text st
        = (setActivePrototype (setCodes st (Some text))
                              (Prototype.withCode p text),
           [UpdatePrototypeService (Prototype.id p) text])) \/
       (remote (Prototype.id p) text = false /\
        persist remote text st
        = (st, [UpdatePrototypeService (Prototype.id p) text;
                ConsoleError "Error saving code:"])))).
Proof.
  unfold persist, closed, opened.
  destruct (prototype st) as [p|] eqn:Hp; [|now left; auto].
  destruct (nonEmpty (Prototype.id p)) eqn:Hid.
  - right. exists p. apply nonEmpty_true in Hid. split; [auto|].
    rewrite orElse_empty. destruct (remote (Prototype.id p) text); auto.
  - left. apply nonEmpty_false in Hid. split; [right; eauto | reflexivity].
Qed.

(** X25.  A save writes at most once and reports exactly the rejected
    writes.  Every call of [saveCodeToDb], heartbeat or explicit, hands
    at most one text to the remote store; it logs the error exactly when
    that one write was rejected; and it changes the state only when the
    write was accepted. *)
Theorem save_writes_at_most_once
    (remote : Remote) (codeToSave : option string) (st : State) :
  (List.length (persisted (snd (saveCodeToDb remote codeToSave st))) <= 1)%nat /\
  (In (ConsoleError "Error saving code:")
      (snd (saveCodeToDb remote codeToSave st)) <->
   exists i c, persisted (snd (saveCodeToDb remote codeToSave st)) = [(i, c)] /\
               remote i c = false) /\
  (fst (saveCodeToDb remote codeToSave st) <> st ->
   exists i c, persisted (snd (saveCodeToDb remote codeToSave st)) = [(i, c)] /\
               remote i c = true).
Proof.
  unfold saveCodeToDb. destruct (dataToSave codeToSave st) as [text|].
  - destruct (persist_outcomes remote text st)
      as [[_ ->] | [p [_ [[Hr ->] | [Hr ->]]]]]; cbn [fst snd persisted].
    + split; [simpl; lia|]. split; [|congruence].
      split; [intros [] | intros (i & c & E & _); discriminate].
    + split; [simpl; lia|]. split; [|eauto].
      split.
      * intros [E | []]. discriminate.
      * intros (i & c & E & Hf). injection E as <- <-. congruence.
    + split; [simpl; lia|]. split; [|congruence].
      split; [eauto | simpl; auto].
  - cbn [fst snd persisted]. split; [simpl; lia|]. split; [|congruence].
    split; [intros [] | intros (i & c & E & _); discriminate].
Qed.

(** X26.  The second of two heartbeats in a row never writes anything
    new: with no edit in between it writes only to repeat a write that
    the remote store rejected. *)
Theorem second_heartbeat_only_retries (remote : Remote) (st : State) :
  persisted (snd (heartbeat remote (fst (heartbeat remote st)))) <> [] ->
  exists i c,
    persisted (snd (heartbeat remote st)) = [(i, c)] /\
    remote i c = false /\
    persisted (snd (heartbeat remote (fst (heartbeat remote st)))) = [(i, c)].
Proof.
  rewrite (Checks.heartbeat_eq remote st).
  destruct (code st) as [c|] eqn:Hc.
  - destruct (negb (nonEmpty c) || sameText (Some c) (savedCode st)) eqn:G.
    + cbn [fst snd]. rewrite Checks.heartbeat_eq.
      change (code (tick st)) with (code st).
      change (savedCode (tick st)) with (savedCode st).
      rewrite Hc, G. intros H. now destruct H.
    + destruct (persist_outcomes remote c (tick st))
        as [[Hcl ->] | [p [[Hp Hid] [[Hr ->] | [Hr ->]]]]]; cbn [fst snd].
      * rewrite Checks.heartbeat_eq.
        change (code (tick st)) with (code st).
        change (savedCode (tick st)) with (savedCode st).
        rewrite Hc, G.
        assert (Hcl' : closed (tick (tick st))) by exact Hcl.
        rewrite (persist_closed remote c _ Hcl'). intros H. now destruct H.
      * rewrite Checks.heartbeat_eq.
        cbn [code savedCode setActivePrototype setCodes sameText].
        rewrite String.eqb_refl, orb_true_r. intros H. now destruct H.
      * intros _. exists (Prototype.id p), c.
        split; [reflexivity|]. split; [exact Hr|].
        rewrite Checks.heartbeat_eq.
        change (code (tick st)) with (code st).
        change (savedCode (tick st)) with (savedCode st).
        rewrite Hc, G.
        apply (PrototypeTabCodeProps.persisted_persist remote p Hid).
        exact Hp.
  - cbn [fst snd]. rewrite Checks.heartbeat_eq.
    change (code (tick st)) with (code st). rewrite Hc.
    intros H. now destruct H.
Qed.

Lemma second_heartbeat_only_retries_witness :
  exists i c,
    persisted (snd (heartbeat rejecting demoState)) = [(i, c)] /\
    rejecting i c = false /\
    persisted (snd (heartbeat rejecting (fst (heartbeat rejecting demoState))))
    = [(i, c)].
Proof.
  apply (second_heartbeat_only_retries rejecting demoState).
  vm_compute. discriminate.
Defined.

(** X27.  The editor type moves only with the prototype.  A save, a
    heartbeat and an edit of the buffer never change [editorType]; it is
    recomputed when the effect on the prototype runs, and since an
    accepted save replaces the active prototype, after that effect the
    editor type is the classification of the text just saved. *)
Theorem editorType_follows_prototype
    (remote : Remote) (st : State) (codeToSave : option string)
    (edited : string) :
  editorType (fst (saveCodeToDb remote codeToSave st)) = editorType st /\
  editorType (fst (heartbeat remote st)) = editorType st /\
  editorType (setCode st edited) = editorType st /\
  (forall p text,
      opened st p -> text <> "" ->
      remote (Prototype.id p) text = true ->
      editorType (reloaded (fst (saveCodeToDb remote (Some text) st)))
      = getEditorType text).
Proof.
  assert (Hsave : forall c s,
             editorType (fst (saveCodeToDb remote c s)) = editorType s).
  { intros c s. unfold saveCodeToDb.
    destruct (dataToSave c s) as [text|]; [|reflexivity].
    destruct (persist_outcomes remote text s)
      as [[_ ->] | [p [_ [[_ ->] | [_ ->]]]]]; reflexivity. }
  split; [apply Hsave|]. split; [|split; [reflexivity|]].
  - unfold heartbeat. now rewrite Hsave.
  - intros p text [Hp Hid] Hne Hr. unfold saveCodeToDb, dataToSave.
    apply nonEmpty_true in Hne. rewrite Hne. unfold persist. rewrite Hp.
    apply nonEmpty_true in Hid. rewrite Hid, orElse_empty, Hr. reflexivity.
Qed.

Lemma editorType_follows_prototype_witness :
  editorType (reloaded (fst (saveCodeToDb accepting (Some "[]") demoState)))
  = getEditorType "[]".
Proof.
  assert (Ho : opened demoState demoPrototype)
    by (split; [reflexivity | discriminate]).
  assert (Hn : "[]" <> "") by discriminate.
  exact (proj2 (proj2 (proj2 (editorType_follows_prototype
                                accepting demoState None "")))
               demoPrototype "[]" Ho Hn eq_refl).
Defined.

Lemma jsonSpace_whiteSpace (c : ascii) :
  isJsonSpace c = true -> isWhiteSpace c = true.
Proof.
  destruct c as [[|] [|] [|] [|] [|] [|] [|] [|]];
    vm_compute; intros H; try discriminate H; reflexivity.
Qed.

(** X28.  Leading white space does not change the content mode: a
    space, tab, line feed or carriage return in front of a text leaves
    [getEditorType] as it is, so an indented project file is still a
    project. *)
Theorem getEditorType_skips_leading_space (c : ascii) (content : string) :
  isJsonSpace c = true ->
  getEditorType (String c content) = getEditorType content.
Proof.
  intros Hc. pose proof (jsonSpace_whiteSpace c Hc) as Hw.
  unfold getEditorType.
  assert (Hp : JSON_parse (String c content) = JSON_parse content).
  { unfold JSON_parse. cbn [lex]. now rewrite Hc. }
  assert (Ht : trim (String c content) = trim content).
  { unfold trim. cbn [trimStart]. now rewrite Hw. }
  rewrite Hp, Ht. cbn [nonEmpty String.eqb negb orb].
  destruct content as [|x r]; [reflexivity|]. reflexivity.
Qed.

Lemma getEditorType_skips_leading_space_witness :
  getEditorType (String " "%char "[1, 2]") = getEditorType "[1, 2]".
Proof.
  exact (getEditorType_skips_leading_space " "%char "[1, 2]" eq_refl).
Defined.

End TabCodeWhole.

(* ================================================================== *)
(** * Selection and controls                                           *)
(* ================================================================== *)

Module SelectorProps.
Import Js JsFacts Effect DaGenAI_Base Selector Samples MoreSamples.
Local Open Scope string_scope.

Section WithEngine.
Context {engine : Engine}.

(** X29.  A selection survives a reload.  After the user selected a
    descriptor, the restore effect, run with any merged built-in list,
    selects the descriptor as it is read back from the local storage,
    also when the merged list now holds a different entry of the same
    id, and the stored item is left as it is.  For a descriptor whose
    method is a string, is [null] or is missing, every member but the
    payload builder is the one selected, and a run on the restored
    selection is the run on the selected descriptor. *)
Theorem selection_survives_reload
    (a : AddOn) (s : Selection) (merged : list AddOn) :
  let restored := restoreSelection true merged (onSelectedGeneratorChange a s) in
  selectedAddOn restored = Some (readBack a) /\
  (textMethod a = true -> sameVisibleFields (readBack a) a) /\
  lastUsed_GenAIGenerator restored = Some (readBack a) /\
  restoreSelection true merged restored = restored /\
  (textMethod a = true ->
   forall w prompt,
     handleGenerate w (selectedAddOn restored) prompt
     = handleGenerate w (Some a) prompt).
Proof.
  cbv zeta. unfold restoreSelection, onSelectedGeneratorChange.
  cbn [lastUsed_GenAIGenerator selectedAddOn].
  split; [reflexivity|]. split.
  - intros Ht. pose proof (DispatcherRuns.readBack_method a Ht) as Hm.
    unfold sameVisibleFields. rewrite Hm. repeat split.
  - split; [reflexivity|]. split; [reflexivity|].
    intros Ht w prompt. now apply DispatcherRuns.readBack_run.
Qed.

(** X30.  The Enter key reaches further than the button.  Enter without
    Shift starts a generation in every state in which the Generate
    button is enabled, and besides in the states in which the button is
    disabled only for lack of permission: the key handler checks the
    prompt, the loading flag and the loaded flag, but neither
    [canUseGenAI] nor [hasGenAIAssets].  No other key, and no Enter with
    Shift, starts a generation. *)
Theorem enter_key_reaches_further (c : Controls) :
  (buttonDisabled c = false -> onKeyDown "Enter" false c = true) /\
  (onKeyDown "Enter" false c = true <->
   buttonDisabled c = false \/
   (prompt c <> "" /\ loading c = false /\ addonsLoaded c = true /\
    canUseGenAI c = false /\ hasGenAIAssets c = false)) /\
  (forall key shiftKey,
      onKeyDown key shiftKey c = true -> key = "Enter" /\ shiftKey = false).
Proof.
  unfold buttonDisabled, onKeyDown.
  assert (Hp : nonEmpty (prompt c) = true <-> prompt c <> "")
    by apply nonEmpty_true.
  change ("Enter" =? "Enter") with true.
  destruct (nonEmpty (prompt c)), (loading c), (addonsLoaded c),
    (canUseGenAI c), (hasGenAIAssets c); cbn;
    (split; [intros; congruence || reflexivity|]);
    (split;
     [ split;
       [ intros H; try discriminate H;
         first [ left; reflexivity
               | right; repeat split; auto; apply Hp; reflexivity ]
       | intros [H | (H1 & H2 & H3 & H4 & H5)];
         try discriminate; try reflexivity;
         apply Hp in H1; discriminate ]
     | intros key shiftKey H;
       destruct (key =? "Enter") eqn:E; try discriminate H;
       destruct shiftKey; try discriminate H;
       apply String.eqb_eq in E; auto ]).
Qed.

End WithEngine.

#[local] Existing Instance referenceEngine.

(** The method has to be text for that: a method that is a number too
    large for a double is written to the local storage as [null], and
    the descriptor read back is dispatched in silence where the selected
    one raised the error. *)
Example overflowing_method_is_not_restored :
  toasts (trace (handleGenerate unconfigured (Some hugeDescriptor) "hi"))
  = [JString "Error generating AI content"] /\
  method (readBack hugeDescriptor) = Some JNull /\
  toasts (trace (handleGenerate unconfigured
                   (Some (readBack hugeDescriptor)) "hi")) = [].
Proof. repeat split; vm_compute; reflexivity. Qed.

Lemma selection_survives_reload_witness :
  sameVisibleFields (readBack getAddOn) getAddOn /\
  handleGenerate answering (Some (readBack getAddOn)) "hi"
  = handleGenerate answering (Some getAddOn) "hi".
Proof.
  pose proof (selection_survives_reload
                getAddOn
                {| selectedAddOn := None; lastUsed_GenAIGenerator := None |}
                []) as H.
  split.
  - exact (proj1 (proj2 H) eq_refl).
  - exact (proj2 (proj2 (proj2 (proj2 H))) eq_refl answering "hi").
Defined.

End SelectorProps.
